(** * job-search-automation backend: CV extraction chain, profile schema,
      completeness score and the job-matching stub.

    Shallow embedding of
      - [backend/app/models/profile.py]  (schema of the extracted record),
      - [backend/app/chains/cv_extraction.py]  (retry wrapper and score),
      - [backend/app/models/job.py], [backend/app/routers/jobs.py]
        (the matching endpoint),
    followed by the properties established about them.

    Conventions.  A Python [str] is the list of its code points; a Python
    [int] is a [Z]; a Python [float] is a binary64 primitive float; [None]
    in an [Optional] field is [None] of [option].  The upstream generation
    API is a stub with a state of its own, and everything a method does
    besides computing its result (log records, calls of the chain) is
    collected, in order, in an effect trace. *)

From Stdlib Require Import ZArith NArith List Bool Lia.
From Stdlib Require Import Permutation Sorted.
From Stdlib Require Import Strings.String Strings.Ascii.
From Stdlib Require Import Numbers.DecimalString.
From Stdlib Require Import Floats.PrimFloat.
Import ListNotations.

Set Implicit Arguments.

(* ================================================================== *)
(** * Python values used by the program *)
(* ================================================================== *)

Module PyStr.

(** A [str] is a sequence of Unicode code points. *)
Definition str := list N.

(** A literal of the source text (all literals of the program are ASCII). *)
Definition lit (s : string) : str :=
  map N_of_ascii (list_ascii_of_string s).

(** [bool(s)]: a string is truthy when it is not empty. *)
Definition truthy (s : str) : bool :=
  match s with [] => false | _ :: _ => true end.

(** [str.isspace] on one code point: the characters whose bidirectional
    class is WS, B or S, or whose general category is Zs. *)
Definition isspace (c : N) : bool :=
  ((9 <=? c) && (c <=? 13)            (* \t \n \v \f \r *)
   || (28 <=? c) && (c <=? 32)        (* FS GS RS US and the space *)
   || (c =? 133) || (c =? 160)        (* NEL, no-break space *)
   || (c =? 5760)                     (* U+1680 *)
   || (8192 <=? c) && (c <=? 8202)    (* U+2000 .. U+200A *)
   || (c =? 8232) || (c =? 8233)      (* U+2028, U+2029 *)
   || (c =? 8239) || (c =? 8287)      (* U+202F, U+205F *)
   || (c =? 12288))%N.                (* U+3000 *)

(** [s.lstrip()], [s.rstrip()] and [s.strip()] without argument. *)
Fixpoint lstrip (s : str) : str :=
  match s with
  | [] => []
  | c :: s' => if isspace c then lstrip s' else s
  end.

Definition rstrip (s : str) : str := rev (lstrip (rev s)).

Definition strip (s : str) : str := rstrip (lstrip s).

(** [a < b] on strings: lexicographic on code points, a proper prefix
    being smaller. *)
Fixpoint ltb (a b : str) : bool :=
  match a, b with
  | _, [] => false
  | [], _ :: _ => true
  | x :: a', y :: b' =>
      if (x <? y)%N then true
      else if (y <? x)%N then false
      else ltb a' b'
  end.

(** [a <= b], as [not (b < a)]. *)
Definition leb (a b : str) : bool := negb (ltb b a).

(** [str(n)] for an [int]. *)
Definition of_int (n : Z) : str := lit (NilZero.string_of_int (Z.to_int n)).

(** [x or ''] for an optional string. *)
Definition or_empty (x : option str) : str :=
  match x with
  | Some s => if truthy s then s else []
  | None => []
  end.

(** Truthiness of an [Optional[str]]. *)
Definition opt_truthy (x : option str) : bool :=
  match x with Some s => truthy s | None => false end.

End PyStr.
Import PyStr.

Module PyFloat.

(** [float(n)] for the integers the score works with; the conversion is
    exact below 2^53. *)
Fixpoint of_pos (p : positive) : float :=
  match p with
  | xH => 1
  | xO q => 2 * of_pos q
  | xI q => 2 * of_pos q + 1
  end%float.

Definition of_int (n : Z) : float :=
  match n with
  | Z0 => 0
  | Zpos p => of_pos p
  | Zneg p => - of_pos p
  end%float.

(** [bool(x)]: a float is truthy unless it is zero. *)
Definition truthy (x : float) : bool := negb (PrimFloat.eqb x 0).

(** [min(a, b)]: the first argument unless the second is smaller. *)
Definition min (a b : float) : float := if PrimFloat.ltb b a then b else a.

End PyFloat.

(* ================================================================== *)
(** * [app/models/profile.py]: schema of the extracted record *)
(* ================================================================== *)

Inductive DegreeType :=
  HIGH_SCHOOL | ASSOCIATE | BACHELOR | MASTER | DOCTORATE | PROFESSIONAL
| CERTIFICATE | BOOTCAMP.

Inductive SkillCategory :=
  LANGUAGE | FRAMEWORK | DATABASE | CLOUD | DEVOPS | TOOL | OTHER.

Inductive SkillProficiency := BEGINNER | INTERMEDIATE | ADVANCED | EXPERT.

Inductive EmploymentType :=
  FULL_TIME | PART_TIME | CONTRACT | FREELANCE | INTERNSHIP.

Inductive RemoteType := REMOTE | HYBRID | ON_SITE.

Inductive CompanySize := STARTUP | SMALL | MEDIUM | LARGE | ENTERPRISE.

Inductive LanguageProficiency :=
  ELEMENTARY | LIMITED_WORKING | PROFESSIONAL_WORKING | FULL_PROFESSIONAL
| NATIVE.

(** The members of each enumeration with their string values. *)
Definition DegreeType_members : list (string * DegreeType) :=
  [("high-school", HIGH_SCHOOL); ("associate", ASSOCIATE);
   ("bachelor", BACHELOR); ("master", MASTER); ("doctorate", DOCTORATE);
   ("professional", PROFESSIONAL); ("certificate", CERTIFICATE);
   ("bootcamp", BOOTCAMP)]%string.

Definition SkillCategory_members : list (string * SkillCategory) :=
  [("language", LANGUAGE); ("framework", FRAMEWORK); ("database", DATABASE);
   ("cloud", CLOUD); ("devops", DEVOPS); ("tool", TOOL);
   ("other", OTHER)]%string.

Definition SkillProficiency_members : list (string * SkillProficiency) :=
  [("beginner", BEGINNER); ("intermediate", INTERMEDIATE);
   ("advanced", ADVANCED); ("expert", EXPERT)]%string.

Definition EmploymentType_members : list (string * EmploymentType) :=
  [("full-time", FULL_TIME); ("part-time", PART_TIME);
   ("contract", CONTRACT); ("freelance", FREELANCE);
   ("internship", INTERNSHIP)]%string.

Definition RemoteType_members : list (string * RemoteType) :=
  [("remote", REMOTE); ("hybrid", HYBRID); ("on-site", ON_SITE)]%string.

Definition CompanySize_members : list (string * CompanySize) :=
  [("startup", STARTUP); ("small", SMALL); ("medium", MEDIUM);
   ("large", LARGE); ("enterprise", ENTERPRISE)]%string.

Definition LanguageProficiency_members
  : list (string * LanguageProficiency) :=
  [("elementary", ELEMENTARY); ("limited-working", LIMITED_WORKING);
   ("professional-working", PROFESSIONAL_WORKING);
   ("full-professional", FULL_PROFESSIONAL); ("native", NATIVE)]%string.

Module Location.
Record t := {
  city : option str;
  state : option str;
  country : str;
  postal_code : option str;
  willing_to_relocate : bool;
  relocation_preferences : option (list str)
}.
End Location.

Module PersonalInfo.
Record t := {
  first_name : str;
  last_name : str;
  email : str;
  phone : option str;
  location : Location.t;
  linkedin : option str;
  github : option str;
  portfolio : option str;
  summary : option str
}.
End PersonalInfo.

Module Achievement.
Record t := {
  description : str;
  metric : option str
}.
End Achievement.

Module WorkExperience.
Record t := {
  id : str;
  title : str;
  company : str;
  company_size : option CompanySize;
  industry : option str;
  location : option str;
  remote : option RemoteType;
  start_date : str;
  end_date : option str;
  is_current : bool;
  responsibilities : list str;
  achievements : list Achievement.t;
  skills_used : list str;
  employment_type : EmploymentType
}.
End WorkExperience.

Module Education.
Record t := {
  id : str;
  institution : str;
  degree : DegreeType;
  field : str;
  start_date : option str;
  graduation_date : option str;
  gpa : option float;
  honors : option str;
  relevant_coursework : option (list str);
  activities : option (list str)
}.
End Education.

Module TechnicalSkill.
Record t := {
  name : str;
  category : SkillCategory;
  proficiency : SkillProficiency;
  years_of_experience : option float;
  last_used : option str
}.
End TechnicalSkill.

Module SoftSkill.
Record t := {
  name : str;
  proficiency : option SkillProficiency
}.
End SoftSkill.

Module LanguageSkill.
Record t := {
  language : str;
  proficiency : LanguageProficiency;
  certifications : option (list str)
}.
End LanguageSkill.

Module Skills.
Record t := {
  technical : list TechnicalSkill.t;
  soft : list SoftSkill.t;
  languages : list LanguageSkill.t
}.

(** [Skills()]: every list defaults to the empty list. *)
Definition default : t :=
  {| technical := []; soft := []; languages := [] |}.
End Skills.

Module Certification.
Record t := {
  id : str;
  name : str;
  issuer : str;
  issue_date : str;
  expiration_date : option str;
  credential_id : option str;
  credential_url : option str
}.
End Certification.

Module Project.
Record t := {
  id : str;
  name : str;
  description : str;
  url : option str;
  repo_url : option str;
  start_date : option str;
  end_date : option str;
  technologies : list str;
  highlights : list str
}.
End Project.

(** ** [sorted] *)

Section Sorted.
Variables (A K : Type) (lt : K -> K -> bool) (key : A -> K).

(** Insertion of [x], which stood before every element of [l], into the
    sorted [l]: [x] passes exactly the elements that are smaller than it,
    so elements with equal keys keep their order. *)
Fixpoint insert (x : A) (l : list A) : list A :=
  match l with
  | [] => [x]
  | y :: l' => if lt (key y) (key x) then y :: insert x l' else x :: l
  end.

Definition stable_sort (l : list A) : list A := fold_right insert [] l.

(** [sorted(v, key=key, reverse=reverse)]: a stable sort that compares
    keys with [<] only; with [reverse] the list is reversed before and
    after an ascending stable sort, which keeps entries with equal keys
    in their original order. *)
Definition sorted (reverse : bool) (v : list A) : list A :=
  if reverse then rev (stable_sort (rev v)) else stable_sort v.
End Sorted.

(** ** The [sort_by_date] validator *)

(** The attributes [sort_by_date] asks for with [hasattr]: [None] when the
    class has no such attribute, otherwise its getter. *)
Class DatedEntry (A : Type) := {
  attr_start_date : option (A -> option str);
  attr_graduation_date : option (A -> option str)
}.

#[export] Instance WorkExperience_dated : DatedEntry WorkExperience.t := {|
  attr_start_date := Some (fun x => Some (WorkExperience.start_date x));
  attr_graduation_date := None
|}.

#[export] Instance Education_dated : DatedEntry Education.t := {|
  attr_start_date := Some Education.start_date;
  attr_graduation_date := Some Education.graduation_date
|}.

(** [Profile.sort_by_date]; both sort keys are strings, so no comparison
    raises and the [except] branch is never taken. *)
Definition sort_by_date {A} `{DatedEntry A} (v : list A) : list A :=
  match v with
  | [] => v
  | _ :: _ =>
      match attr_start_date with
      | Some start_date =>
          sorted PyStr.ltb (fun x => or_empty (start_date x)) true v
      | None =>
          match attr_graduation_date with
          | Some graduation_date =>
              sorted PyStr.ltb (fun x => or_empty (graduation_date x)) true v
          | None => v
          end
      end
  end.

Module Profile.
Record t := {
  personal_info : PersonalInfo.t;
  work_experience : list WorkExperience.t;
  education : list Education.t;
  skills : Skills.t;
  certifications : option (list Certification.t);
  projects : option (list Project.t)
}.

(** [Profile(personal_info=..., work_experience=..., ...)] on arguments
    that are already instances of the field types: the field validator
    runs on [work_experience] and [education] when they are given, and the
    absent ones take their defaults. *)
Definition init (personal_info : PersonalInfo.t)
    (work_experience : option (list WorkExperience.t))
    (education : option (list Education.t))
    (skills : option Skills.t)
    (certifications : option (list Certification.t))
    (projects : option (list Project.t)) : t :=
  {| personal_info := personal_info;
     work_experience :=
       match work_experience with
       | Some v => sort_by_date v
       | None => []
       end;
     education :=
       match education with
       | Some v => sort_by_date v
       | None => []
       end;
     skills := match skills with Some s => s | None => Skills.default end;
     certifications := certifications;
     projects := projects |}.
End Profile.


(* ================================================================== *)
(** * [app/chains/cv_extraction.py]: the extraction chain *)
(* ================================================================== *)

(** Exceptions, by the handler that catches them: [OutputParserException]
    has a clause of its own, [ValueError] and every other subclass of
    [Exception] (the transport failures among them) fall to
    [except Exception], and a [BaseException] outside [Exception]
    (a cancellation, a keyboard interrupt) is caught by neither. *)
Inductive exn :=
| ValueError (msg : str)
| OutputParserException (msg : str)
| OtherException (msg : str)
| NonException (msg : str).

(** [str(e)] *)
Definition exn_str (e : exn) : str :=
  match e with
  | ValueError msg | OutputParserException msg
  | OtherException msg | NonException msg => msg
  end.

(** How a call finishes. *)
Inductive completion (A : Type) :=
| Returns (a : A)
| Raises (e : exn).
Arguments Returns {A} a.
Arguments Raises {A} e.

(** What the chain may hand back: a [Profile], or an object of another
    type, given by the text [type(result)] formats to. *)
Inductive pyobj :=
| ProfileObj (p : Profile.t)
| OtherObj (type_repr : str).

Inductive level := DEBUG | INFO | WARNING | ERROR.

Inductive call_mode := Sync | Async.

(** The effects of the module: records handed to the logger and calls of
    the composed chain ([invoke] or [ainvoke]) with the value of
    ["cv_text"]. *)
Inductive event :=
| Log (lv : level) (msg : str)
| Call (mode : call_mode) (cv_text : str).

Definition is_call (e : event) : bool :=
  match e with Call _ _ => true | Log _ _ => false end.

(** [range(n)] *)
Definition range (n : Z) : list Z := map Z.of_nat (seq 0 (Z.to_nat n)).

(** [len(x)] *)
Definition len {A} (l : list A) : Z := Z.of_nat (List.length l).

(** Truthiness of a list. *)
Definition nonempty {A} (l : list A) : bool :=
  match l with [] => false | _ :: _ => true end.

(** Truthiness of an [Optional[float]]. *)
Definition opt_float_truthy (x : option float) : bool :=
  match x with Some f => PyFloat.truthy f | None => false end.

Section Chain.

(** State of the upstream stub. *)
Variable St : Type.

(** Computations that read and update the stub and emit events. *)
Definition M (A : Type) : Type := St -> A * St * list event.

Definition ret {A} (a : A) : M A := fun s => (a, s, []).

Definition bind {A B} (m : M A) (f : A -> M B) : M B :=
  fun s =>
    let '(a, s1, t1) := m s in
    let '(b, s2, t2) := f a s1 in
    (b, s2, t1 ++ t2).

Local Notation "x <- c1 ;; c2" := (bind c1 (fun x => c2))
  (at level 100, c1 at next level, right associativity).
Local Notation "c1 ;; c2" := (bind c1 (fun _ => c2))
  (at level 100, right associativity).

Definition log (lv : level) (msg : str) : M unit :=
  fun s => (tt, s, [Log lv msg]).

(** A runnable: [invoke] and [ainvoke] on the input [{"cv_text": ...}]. *)
Record Runnable := {
  invoke : str -> St -> completion pyobj * St;
  ainvoke : str -> St -> completion pyobj * St
}.

Definition call (mode : call_mode) (c : Runnable) (cv_text : str)
  : M (completion pyobj) :=
  fun s =>
    let '(r, s') :=
      match mode with
      | Sync => invoke c cv_text s
      | Async => ainvoke c cv_text s
      end in
    (r, s', [Call mode cv_text]).

Record CVExtractionChain := {
  model_name : str;
  temperature : float;
  max_retries : Z;
  chain : Runnable
}.

Definition default_model_name : str := lit "claude-3-5-haiku-20241022".
Definition default_temperature : float := 0%float.
Definition default_max_retries : Z := 2.

Variable self : CVExtractionChain.

(** The two [except] clauses of the retry loop, for the exception [e]
    raised in the [try] body of attempt [attempt]; [next] is the rest of
    the loop. *)
Definition handle (attempt : Z) (e : exn)
    (next : M (completion (option Profile.t)))
  : M (completion (option Profile.t)) :=
  match e with
  | OutputParserException _ =>
      log WARNING
        (lit "Output parsing failed (attempt " ++ of_int (attempt + 1)
         ++ lit "/" ++ of_int (max_retries self) ++ lit "): " ++ exn_str e) ;;
      if (attempt =? max_retries self - 1)%Z then
        ret (Raises (ValueError
          (lit "Failed to parse CV after " ++ of_int (max_retries self)
           ++ lit " attempts: " ++ exn_str e)))
      else next
  | ValueError _ | OtherException _ =>
      log ERROR
        (lit "CV extraction failed (attempt " ++ of_int (attempt + 1)
         ++ lit "/" ++ of_int (max_retries self) ++ lit "): " ++ exn_str e) ;;
      if (attempt =? max_retries self - 1)%Z then
        ret (Raises (ValueError
          (lit "CV extraction failed after " ++ of_int (max_retries self)
           ++ lit " attempts: " ++ exn_str e)))
      else next
  | NonException _ => ret (Raises e)
  end.

(** [for attempt in range(self.max_retries): try: ... except ...], on the
    remaining values of [attempt].  When the loop runs out the method
    ends without a [return] statement, that is, it returns [None]. *)
Fixpoint attempts (mode : call_mode) (cv_text : str) (rng : list Z)
  : M (completion (option Profile.t)) :=
  match rng with
  | [] => ret (Returns None)
  | attempt :: rng' =>
      r <- call mode (chain self) cv_text ;;
      match r with
      | Returns (ProfileObj result) =>
          log INFO (lit "CV extraction successful") ;;
          log DEBUG
            (lit "Extracted profile for: "
             ++ PersonalInfo.first_name (Profile.personal_info result)
             ++ lit " "
             ++ PersonalInfo.last_name (Profile.personal_info result)) ;;
          ret (Returns (Some result))
      | Returns (OtherObj type_repr) =>
          handle attempt
            (ValueError (lit "Expected Profile object, got " ++ type_repr))
            (attempts mode cv_text rng')
      | Raises e => handle attempt e (attempts mode cv_text rng')
      end
  end.

(** [not cv_text or not cv_text.strip()] *)
Definition is_blank (cv_text : str) : bool :=
  negb (truthy cv_text) || negb (truthy (strip cv_text)).

(** [CVExtractionChain.extract] *)
Definition extract (cv_text : str) : M (completion (option Profile.t)) :=
  if is_blank cv_text then
    ret (Raises (ValueError (lit "CV text cannot be empty")))
  else
    log INFO (lit "Starting async CV extraction") ;;
    log DEBUG
      (lit "CV text length: " ++ of_int (len cv_text) ++ lit " characters") ;;
    attempts Async cv_text (range (max_retries self)).

(** [CVExtractionChain.extract_sync] *)
Definition extract_sync (cv_text : str) : M (completion (option Profile.t)) :=
  if is_blank cv_text then
    ret (Raises (ValueError (lit "CV text cannot be empty")))
  else
    log INFO (lit "Starting sync CV extraction") ;;
    log DEBUG
      (lit "CV text length: " ++ of_int (len cv_text) ++ lit " characters") ;;
    attempts Sync cv_text (range (max_retries self)).

End Chain.

Arguments ret {St A} a.
Arguments log {St} lv msg.

(** ** The completeness score *)

(** [CVExtractionChain._calculate_confidence] *)
Definition _calculate_confidence (profile : Profile.t) : float :=
  let personal_info := Profile.personal_info profile in
  let work_experience := Profile.work_experience profile in
  let education := Profile.education profile in
  let technical := Skills.technical (Profile.skills profile) in
  (let score := 0 in
   let max_score := 0 in
   (* Personal info (30 points) *)
   let max_score := max_score + 30 in
   let score :=
     if truthy (PersonalInfo.email personal_info) then score + 10
     else score in
   let score :=
     if opt_truthy (PersonalInfo.phone personal_info) then score + 5
     else score in
   let score :=
     if opt_truthy (Location.city (PersonalInfo.location personal_info))
     then score + 5 else score in
   let score :=
     if opt_truthy (PersonalInfo.linkedin personal_info)
        || opt_truthy (PersonalInfo.github personal_info)
     then score + 5 else score in
   let score :=
     if opt_truthy (PersonalInfo.summary personal_info) then score + 5
     else score in
   (* Work experience (30 points) *)
   let max_score := max_score + 30 in
   let score :=
     if nonempty work_experience then
       let score := score + 15 in
       let score :=
         if (2 <=? len work_experience)%Z then score + 5 else score in
       let score :=
         if existsb
              (fun exp => (3 <=? len (WorkExperience.responsibilities exp))%Z)
              work_experience
         then score + 5 else score in
       let score :=
         if existsb (fun exp => nonempty (WorkExperience.achievements exp))
              work_experience
         then score + 5 else score in
       score
     else score in
   (* Education (20 points) *)
   let max_score := max_score + 20 in
   let score :=
     if nonempty education then
       let score := score + 10 in
       let score := if (1 <=? len education)%Z then score + 5 else score in
       let score :=
         if existsb (fun edu => opt_float_truthy (Education.gpa edu))
              education
         then score + 5 else score in
       score
     else score in
   (* Skills (20 points) *)
   let max_score := max_score + 20 in
   let score :=
     if nonempty technical then
       let score := score + 10 in
       let score := if (5 <=? len technical)%Z then score + 5 else score in
       let score := if (10 <=? len technical)%Z then score + 5 else score in
       score
     else score in
   if PrimFloat.ltb 0 max_score
   then PyFloat.min (score / max_score) 1
   else 0)%float.


(* ================================================================== *)
(** * Validation of a decoded response against the schema *)
(* ================================================================== *)

(** A decoded JSON document, as the Python objects [json.loads] builds. *)
#[warnings="-register-all"]
Inductive json :=
| JNull
| JBool (b : bool)
| JInt (n : Z)
| JFloat (x : float)
| JStr (s : str)
| JList (l : list json)
| JDict (d : list (str * json)).

Definition str_eqb (a b : str) : bool :=
  if list_eq_dec N.eq_dec a b then true else false.

(** [d.get(key)] *)
Fixpoint get (d : list (str * json)) (key : str) : option json :=
  match d with
  | [] => None
  | (k, v) :: d' => if str_eqb k key then Some v else get d' key
  end.

(** One entry of a validation error: where, and which rule failed. *)
Inductive loc_item := Field (name : string) | Index (i : nat).

Inductive error_type :=
| missing | model_type | list_type | string_type | string_too_short
| string_unicode | bool_type | bool_parsing | float_type | float_parsing
| enum
| greater_than_equal | less_than_equal | value_error.

Record error := { loc : list loc_item; type : error_type }.

(** Outcome of a validator: the value, or every error found. *)
Definition V (A : Type) : Type := list error + A.

Definition fail {A} (t : error_type) : V A := inl [{| loc := []; type := t |}].

Definition pure {A} (a : A) : V A := inr a.

(** Validation of the fields of a model goes through all of them and
    gathers the errors of each. *)
Definition ap {A B} (f : V (A -> B)) (a : V A) : V B :=
  match f, a with
  | inr f', inr a' => inr (f' a')
  | inl e1, inl e2 => inl (e1 ++ e2)
  | inl e1, inr _ => inl e1
  | inr _, inl e2 => inl e2
  end.

Definition and_then {A B} (a : V A) (f : A -> V B) : V B :=
  match a with inl e => inl e | inr a' => f a' end.

Definition fmap {A B} (f : A -> B) (a : V A) : V B := ap (pure f) a.

(** The errors of a field or of a list item are reported under its place. *)
Definition under {A} (i : loc_item) (a : V A) : V A :=
  match a with
  | inl es => inl (map (fun e => {| loc := i :: loc e; type := type e |}) es)
  | inr a' => inr a'
  end.

Declare Scope validation_scope.
Delimit Scope validation_scope with V.
Notation "f <*> a" := (ap f a) (at level 51, left associativity)
  : validation_scope.

(** What the libraries around the schema contribute: the e-mail syntax
    check behind [EmailStr] (it yields the normalised address), the
    conversions of lax mode into [float], and, in the output parser, the
    JSON reader, the format instructions and the text of the exception. *)
Record Externals := {
  validate_email : str -> option str;
  float_of_str : str -> option float;
  float_of_int : Z -> option float;
  parse_json_markdown : str -> option json;
  system_prompt : str;
  invalid_json_message : str -> str;
  validation_message : str -> list error -> str
}.

Section Validators.

Variable ext : Externals.

(** *** Field types *)

Definition v_str (j : json) : V str :=
  match j with JStr s => pure s | _ => fail string_type end.

(** A code point of the surrogate range: a [str] that holds one has no
    UTF-8 form. *)
Definition is_surrogate (c : N) : bool :=
  ((55296 <=? c) && (c <=? 57343))%N.

(** [Field(..., min_length=n)] on a [str]: the constraint is checked on
    the UTF-8 form of the string, which a string with a surrogate does
    not have. *)
Definition v_str_min_length (n : nat) (j : json) : V str :=
  and_then (v_str j)
    (fun s => if existsb is_surrogate s then fail string_unicode
              else if (n <=? List.length s)%nat then pure s
              else fail string_too_short).

Definition v_email (j : json) : V str :=
  and_then (v_str j)
    (fun s => match validate_email ext s with
              | Some s' => pure s'
              | None => fail value_error
              end).

Definition ascii_lower (c : N) : N :=
  if ((65 <=? c) && (c <=? 90))%N then (c + 32)%N else c.

Definition str_in (s : str) (l : list string) : bool :=
  existsb (fun x => str_eqb s (lit x)) l.

(** [bool] in lax mode. *)
Definition v_bool (j : json) : V bool :=
  match j with
  | JBool b => pure b
  | JInt 0 => pure false
  | JInt 1 => pure true
  | JInt _ => fail bool_parsing
  | JFloat x =>
      if PrimFloat.eqb x 0 then pure false
      else if PrimFloat.eqb x 1 then pure true
      else fail bool_parsing
  | JStr s =>
      let s' := map ascii_lower s in
      if str_in s' ["0"; "off"; "f"; "false"; "n"; "no"]%string
      then pure false
      else if str_in s' ["1"; "on"; "t"; "true"; "y"; "yes"]%string
      then pure true
      else fail bool_parsing
  | _ => fail bool_type
  end.

(** [float] in lax mode. *)
Definition v_float (j : json) : V float :=
  match j with
  | JFloat x => pure x
  | JInt n =>
      match float_of_int ext n with
      | Some x => pure x
      | None => fail float_parsing
      end
  | JBool b => pure (if b then 1 else 0)%float
  | JStr s =>
      match float_of_str ext s with
      | Some x => pure x
      | None => fail float_parsing
      end
  | _ => fail float_type
  end.

(** [Field(..., ge=lo, le=hi)] on a float. *)
Definition v_float_between (lo hi : float) (j : json) : V float :=
  and_then (v_float j)
    (fun x => if negb (PrimFloat.leb lo x) then fail greater_than_equal
              else if negb (PrimFloat.leb x hi) then fail less_than_equal
              else pure x).

Fixpoint member {E} (members : list (string * E)) (s : str) : option E :=
  match members with
  | [] => None
  | (v, m) :: members' =>
      if str_eqb s (lit v) then Some m else member members' s
  end.

(** A [str] enumeration: the input has to be the value of a member. *)
Definition v_enum {E} (members : list (string * E)) (j : json) : V E :=
  match j with
  | JStr s =>
      match member members s with
      | Some m => pure m
      | None => fail enum
      end
  | _ => fail enum
  end.

(** [Optional[X]] *)
Definition v_optional {A} (v : json -> V A) (j : json) : V (option A) :=
  match j with
  | JNull => pure None
  | _ => fmap Some (v j)
  end.

Fixpoint v_items {A} (v : json -> V A) (i : nat) (l : list json)
  : V (list A) :=
  match l with
  | [] => pure []
  | j :: l' => (pure cons <*> under (Index i) (v j) <*> v_items v (S i) l')%V
  end.

(** [List[X]] *)
Definition v_list {A} (v : json -> V A) (j : json) : V (list A) :=
  match j with
  | JList l => v_items v 0 l
  | _ => fail list_type
  end.

(** A nested model: the input has to be a dict. *)
Definition v_model {A} (fields : list (str * json) -> V A) (j : json) : V A :=
  match j with
  | JDict d => fields d
  | _ => fail model_type
  end.

(** *** Fields of a model *)

(** The value given for a field: under its alias or, in the models that
    set [populate_by_name], under its name. *)
Definition given (d : list (str * json)) (alias name : string)
  : option json :=
  match get d (lit alias) with
  | Some j => Some j
  | None => get d (lit name)
  end.

(** A field declared with [...] or without default. *)
Definition required {A} (d : list (str * json)) (alias name : string)
    (v : json -> V A) : V A :=
  match given d alias name with
  | Some j => under (Field alias) (v j)
  | None => under (Field alias) (fail missing)
  end.

(** A field with a default: [None] stands for the field that is not
    given, which the model then fills in. *)
Definition defaulted {A} (d : list (str * json)) (alias name : string)
    (v : json -> V A) : V (option A) :=
  match given d alias name with
  | Some j => under (Field alias) (fmap Some (v j))
  | None => pure None
  end.

(** A field whose default is a plain value. *)
Definition with_default {A} (d : list (str * json)) (alias name : string)
    (v : json -> V A) (default : A) : V A :=
  fmap (fun x => match x with Some a => a | None => default end)
       (defaulted d alias name v).

(** An [Optional[X]] field with default [None]. *)
Definition nullable {A} (d : list (str * json)) (alias name : string)
    (v : json -> V A) : V (option A) :=
  with_default d alias name (v_optional v) None.

(** *** The models *)

Definition Location_fields (d : list (str * json)) : V Location.t :=
  (pure Location.Build_t
   <*> nullable d "city" "city" v_str
   <*> nullable d "state" "state" v_str
   <*> required d "country" "country" v_str
   <*> nullable d "postalCode" "postal_code" v_str
   <*> with_default d "willingToRelocate" "willing_to_relocate" v_bool false
   <*> nullable d "relocationPreferences" "relocation_preferences"
         (v_list v_str))%V.

Definition PersonalInfo_fields (d : list (str * json)) : V PersonalInfo.t :=
  (pure PersonalInfo.Build_t
   <*> required d "firstName" "first_name" (v_str_min_length 1)
   <*> required d "lastName" "last_name" (v_str_min_length 1)
   <*> required d "email" "email" v_email
   <*> nullable d "phone" "phone" v_str
   <*> required d "location" "location" (v_model Location_fields)
   <*> nullable d "linkedIn" "linkedin" v_str
   <*> nullable d "github" "github" v_str
   <*> nullable d "portfolio" "portfolio" v_str
   <*> nullable d "summary" "summary" v_str)%V.

Definition Achievement_fields (d : list (str * json)) : V Achievement.t :=
  (pure Achievement.Build_t
   <*> required d "description" "description" v_str
   <*> nullable d "metric" "metric" v_str)%V.

Definition WorkExperience_fields (d : list (str * json))
  : V WorkExperience.t :=
  (pure WorkExperience.Build_t
   <*> required d "id" "id" v_str
   <*> required d "title" "title" v_str
   <*> required d "company" "company" v_str
   <*> nullable d "companySize" "company_size" (v_enum CompanySize_members)
   <*> nullable d "industry" "industry" v_str
   <*> nullable d "location" "location" v_str
   <*> nullable d "remote" "remote" (v_enum RemoteType_members)
   <*> required d "startDate" "start_date" v_str
   <*> nullable d "endDate" "end_date" v_str
   <*> with_default d "isCurrent" "is_current" v_bool false
   <*> with_default d "responsibilities" "responsibilities"
         (v_list v_str) []
   <*> with_default d "achievements" "achievements"
         (v_list (v_model Achievement_fields)) []
   <*> with_default d "skillsUsed" "skills_used" (v_list v_str) []
   <*> with_default d "employmentType" "employment_type"
         (v_enum EmploymentType_members) FULL_TIME)%V.

Definition Education_fields (d : list (str * json)) : V Education.t :=
  (pure Education.Build_t
   <*> required d "id" "id" v_str
   <*> required d "institution" "institution" v_str
   <*> required d "degree" "degree" (v_enum DegreeType_members)
   <*> required d "field" "field" v_str
   <*> nullable d "startDate" "start_date" v_str
   <*> nullable d "graduationDate" "graduation_date" v_str
   <*> nullable d "gpa" "gpa" (v_float_between 0 10)
   <*> nullable d "honors" "honors" v_str
   <*> nullable d "relevantCoursework" "relevant_coursework" (v_list v_str)
   <*> nullable d "activities" "activities" (v_list v_str))%V.

Definition TechnicalSkill_fields (d : list (str * json))
  : V TechnicalSkill.t :=
  (pure TechnicalSkill.Build_t
   <*> required d "name" "name" v_str
   <*> required d "category" "category" (v_enum SkillCategory_members)
   <*> required d "proficiency" "proficiency"
         (v_enum SkillProficiency_members)
   <*> nullable d "yearsOfExperience" "years_of_experience" v_float
   <*> nullable d "lastUsed" "last_used" v_str)%V.

Definition SoftSkill_fields (d : list (str * json)) : V SoftSkill.t :=
  (pure SoftSkill.Build_t
   <*> required d "name" "name" v_str
   <*> nullable d "proficiency" "proficiency"
         (v_enum SkillProficiency_members))%V.

Definition LanguageSkill_fields (d : list (str * json))
  : V LanguageSkill.t :=
  (pure LanguageSkill.Build_t
   <*> required d "language" "language" v_str
   <*> required d "proficiency" "proficiency"
         (v_enum LanguageProficiency_members)
   <*> nullable d "certifications" "certifications" (v_list v_str))%V.

Definition Skills_fields (d : list (str * json)) : V Skills.t :=
  (pure Skills.Build_t
   <*> with_default d "technical" "technical"
         (v_list (v_model TechnicalSkill_fields)) []
   <*> with_default d "soft" "soft" (v_list (v_model SoftSkill_fields)) []
   <*> with_default d "languages" "languages"
         (v_list (v_model LanguageSkill_fields)) [])%V.

Definition Certification_fields (d : list (str * json))
  : V Certification.t :=
  (pure Certification.Build_t
   <*> required d "id" "id" v_str
   <*> required d "name" "name" v_str
   <*> required d "issuer" "issuer" v_str
   <*> required d "issueDate" "issue_date" v_str
   <*> nullable d "expirationDate" "expiration_date" v_str
   <*> nullable d "credentialId" "credential_id" v_str
   <*> nullable d "credentialUrl" "credential_url" v_str)%V.

Definition Project_fields (d : list (str * json)) : V Project.t :=
  (pure Project.Build_t
   <*> required d "id" "id" v_str
   <*> required d "name" "name" v_str
   <*> required d "description" "description" v_str
   <*> nullable d "url" "url" v_str
   <*> nullable d "repoUrl" "repo_url" v_str
   <*> nullable d "startDate" "start_date" v_str
   <*> nullable d "endDate" "end_date" v_str
   <*> with_default d "technologies" "technologies" (v_list v_str) []
   <*> with_default d "highlights" "highlights" (v_list v_str) [])%V.

(** [Profile]: the fields are validated first, then [Profile.init] runs
    the [sort_by_date] validator on the two lists that were given. *)
Definition Profile_fields (d : list (str * json)) : V Profile.t :=
  (pure Profile.init
   <*> required d "personalInfo" "personal_info"
         (v_model PersonalInfo_fields)
   <*> defaulted d "workExperience" "work_experience"
         (v_list (v_model WorkExperience_fields))
   <*> defaulted d "education" "education"
         (v_list (v_model Education_fields))
   <*> defaulted d "skills" "skills" (v_model Skills_fields)
   <*> nullable d "certifications" "certifications"
         (v_list (v_model Certification_fields))
   <*> nullable d "projects" "projects"
         (v_list (v_model Project_fields)))%V.

(** [Profile.model_validate(obj)] *)
Definition Profile_model_validate (obj : json) : V Profile.t :=
  v_model Profile_fields obj.

(** ** The composed chain [prompt | llm | parser] *)

(** [PydanticOutputParser(pydantic_object=Profile)] on the text of the
    completion: a text that is not JSON and a document that does not
    validate both raise [OutputParserException]. *)
Definition parser (text : str) : completion pyobj :=
  match parse_json_markdown ext text with
  | None => Raises (OutputParserException (invalid_json_message ext text))
  | Some obj =>
      match Profile_model_validate obj with
      | inl errors =>
          Raises (OutputParserException (validation_message ext text errors))
      | inr profile => Returns (ProfileObj profile)
      end
  end.

(** The two messages of the prompt for a CV text. *)
Definition user_prompt (cv_text : str) : str :=
  lit "Please extract all information from the following CV text:"
  ++ [10; 10]%N ++ cv_text ++ [10; 10]%N
  ++ lit "Return the extracted profile data in the specified JSON format.".

Definition prompt (cv_text : str) : list (string * str) :=
  [("system"%string, system_prompt ext);
   ("human"%string, user_prompt cv_text)].

Variable St : Type.

(** The model behind the chain: from the messages to the text of its
    answer, or an exception of the client. *)
Record ChatModel := {
  llm_invoke : list (string * str) -> St -> completion str * St;
  llm_ainvoke : list (string * str) -> St -> completion str * St
}.

Definition pipe
    (llm : list (string * str) -> St -> completion str * St)
    (cv_text : str) (s : St) : completion pyobj * St :=
  let '(answer, s') := llm (prompt cv_text) s in
  match answer with
  | Returns text => (parser text, s')
  | Raises e => (Raises e, s')
  end.

(** The object [CVExtractionChain.__init__] sets up, on the model that
    stands for [ChatAnthropic(...)]: its attributes and the chain
    [prompt | llm | parser].  The record [__init__] writes last is in
    [CVExtractionChain_new]. *)
Definition CVExtractionChain_init (llm : ChatModel) (model_name : str)
    (temperature : float) (max_retries : Z) : CVExtractionChain St :=
  {| model_name := model_name;
     temperature := temperature;
     max_retries := max_retries;
     chain := {| invoke := pipe (llm_invoke llm);
                 ainvoke := pipe (llm_ainvoke llm) |} |}.

(** [CVExtractionChain(...)]: [__init__] sets the object up and then
    writes its record. *)
Definition CVExtractionChain_new (llm : ChatModel) (model_name : str)
    (temperature : float) (max_retries : Z) : M St (CVExtractionChain St) :=
  bind
    (log INFO (lit "Initialized CVExtractionChain with model: " ++ model_name))
    (fun _ => ret (CVExtractionChain_init llm model_name temperature
                     max_retries)).

(** [extract_profile_from_cv(cv_text)], with the default keyword
    arguments *)
Definition extract_profile_from_cv (llm : ChatModel) (cv_text : str)
  : M St (completion (option Profile.t)) :=
  bind
    (CVExtractionChain_new llm default_model_name default_temperature
       default_max_retries)
    (fun chain => extract_sync chain cv_text).

End Validators.


(* ================================================================== *)
(** * [app/models/job.py] and [app/routers/jobs.py]: the matching stub *)
(* ================================================================== *)

Module SkillMatch.
Record t := {
  skill : str;
  matched : bool;
  proficiency_required : option str;
  user_proficiency : option str;
  gap : option str
}.
End SkillMatch.

Module MatchResult.
Record t := {
  job_id : str;
  score : float;
  reasoning : str;
  strengths : list str;
  gaps : list str;
  recommendation : str;
  skill_matches : list SkillMatch.t;
  education_match : option str;
  experience_match : option str
}.

(** [MatchResult(...)] on arguments of the field types: the only
    constraint left to check is [ge=0, le=100] on [score]; [None] stands
    for the validation error. *)
Definition init (job_id : str) (score : float) (reasoning : str)
    (strengths gaps : list str) (recommendation : str)
    (skill_matches : list SkillMatch.t)
    (education_match experience_match : option str) : option t :=
  if PrimFloat.leb 0 score && PrimFloat.leb score 100 then
    Some {| job_id := job_id; score := score; reasoning := reasoning;
            strengths := strengths; gaps := gaps;
            recommendation := recommendation;
            skill_matches := skill_matches;
            education_match := education_match;
            experience_match := experience_match |}
  else None.
End MatchResult.

Module JobMatchRequest.
Record t := {
  profile_id : str;
  job_ids : option (list str);
  min_score : option float
}.
End JobMatchRequest.

Module JobMatchResponse.
Record t := {
  matches : list MatchResult.t;
  total_jobs : Z;
  matched_jobs : Z
}.
End JobMatchResponse.

(** [match_jobs]: the body does not read [request]. *)
Definition match_jobs (request : JobMatchRequest.t)
  : option JobMatchResponse.t :=
  match
    MatchResult.init
      (lit "job_mock_123")
      87.5%float
      (lit "Strong match based on ML expertise and ETH education. PyTorch skills align perfectly with requirements.")
      [lit "ETH Zurich MSc matches education requirements";
       lit "Expert-level PyTorch experience";
       lit "5+ years Python experience exceeds requirements"]
      [lit "No AWS deployment experience mentioned";
       lit "Preferred: 2+ years in production ML systems"]
      (lit "Highly Recommended")
      []
      (Some (lit "Perfect match: ETH Zurich MSc in Computer Science"))
      (Some (lit "Meets requirements: 5+ years of ML/AI experience"))
  with
  | Some mock_match =>
      Some {| JobMatchResponse.matches := [mock_match];
              JobMatchResponse.total_jobs := 1;
              JobMatchResponse.matched_jobs := 1 |}
  | None => None
  end.


(* ================================================================== *)
(** * Notions the statements are written with *)
(* ================================================================== *)

(** ** Runs of the retry loop *)

Section Runs.

Variable St : Type.
Variable self : CVExtractionChain St.

(** One call of the composed chain in the given mode. *)
Definition run (mode : call_mode) (cv_text : str) (s : St)
  : completion pyobj * St :=
  match mode with
  | Sync => invoke (chain self) cv_text s
  | Async => ainvoke (chain self) cv_text s
  end.

(** State of the stub after [k] calls in a row. *)
Fixpoint after (mode : call_mode) (cv_text : str) (k : nat) (s : St) : St :=
  match k with
  | O => s
  | S k' => snd (run mode cv_text (after mode cv_text k' s))
  end.

(** Outcome of call number [k] (from 0) of such a row. *)
Definition outcome (mode : call_mode) (cv_text : str) (k : nat) (s : St)
  : completion pyobj :=
  fst (run mode cv_text (after mode cv_text k s)).

(** A call fails with a schema-validation error or with another error
    that [except Exception] catches. *)
Definition failure (r : completion pyobj) : option exn :=
  match r with
  | Raises (OutputParserException m) => Some (OutputParserException m)
  | Raises (ValueError m) => Some (ValueError m)
  | Raises (OtherException m) => Some (OtherException m)
  | _ => None
  end.

Definition schema_failure (e : exn) : bool :=
  match e with OutputParserException _ => true | _ => false end.

(** The record the handler of attempt [attempt] hands to the logger. *)
Definition attempt_record (attempt : Z) (e : exn) : event :=
  if schema_failure e then
    Log WARNING
      (lit "Output parsing failed (attempt " ++ of_int (attempt + 1)
       ++ lit "/" ++ of_int (max_retries self) ++ lit "): " ++ exn_str e)
  else
    Log ERROR
      (lit "CV extraction failed (attempt " ++ of_int (attempt + 1)
       ++ lit "/" ++ of_int (max_retries self) ++ lit "): " ++ exn_str e).

(** The message of the terminal error for the last cause [e]. *)
Definition terminal_message (e : exn) : str :=
  (if schema_failure e then lit "Failed to parse CV after "
   else lit "CV extraction failed after ")
  ++ of_int (max_retries self) ++ lit " attempts: " ++ exn_str e.

(** The two records written before the loop. *)
Definition preamble (mode : call_mode) (cv_text : str) : list event :=
  [Log INFO (match mode with
             | Sync => lit "Starting sync CV extraction"
             | Async => lit "Starting async CV extraction"
             end);
   Log DEBUG
     (lit "CV text length: " ++ of_int (len cv_text) ++ lit " characters")].

(** What one attempt leaves in the trace when its call has the outcome
    [r]: the call, then the record of the handler. *)
Definition attempt_events (mode : call_mode) (cv_text : str) (attempt : Z)
    (r : completion pyobj) : list event :=
  Call mode cv_text ::
  match failure r with
  | Some e => [attempt_record attempt e]
  | None => []
  end.

(** The method of the class for each mode. *)
Definition extract_in (mode : call_mode)
  : str -> M St (completion (option Profile.t)) :=
  match mode with
  | Sync => extract_sync self
  | Async => extract self
  end.

End Runs.

(** A text made of white space only (the empty text among them). *)
Definition whitespace_only (cv_text : str) : Prop :=
  Forall (fun c => isspace c = true) cv_text.

(** A model is deterministic when its answer depends on the messages
    only, not on what it was asked before. *)
Definition deterministic {St} (llm : ChatModel St) : Prop :=
  forall messages s s',
    fst (llm_invoke llm messages s) = fst (llm_invoke llm messages s')
    /\ fst (llm_ainvoke llm messages s) = fst (llm_ainvoke llm messages s').

(** ** Order of the dated lists *)

(** [a] may stand before [b] in ascending order of the keys. *)
Definition ascending {A} (key : A -> str) (a b : A) : Prop :=
  PyStr.ltb (key b) (key a) = false.

(** Descending order of the keys, with [<=] on strings. *)
Definition descending {A} (key : A -> str) (l : list A) : Prop :=
  StronglySorted (fun a b => PyStr.leb (key b) (key a) = true) l.

Definition WorkExperience_key (x : WorkExperience.t) : str :=
  or_empty (Some (WorkExperience.start_date x)).

Definition Education_key (x : Education.t) : str :=
  or_empty (Education.start_date x).

(** The profiles that construction yields. *)
Inductive constructed : Profile.t -> Prop :=
| constructed_init personal_info work_experience education skills
    certifications projects :
    constructed
      (Profile.init personal_info work_experience education skills
         certifications projects).

(** ** The documented weights of the score *)

Definition points (c : bool) (w : Z) : Z := if c then w else 0.

(** Identity: e-mail 10, phone 5, city 5, a link 5, summary 5. *)
Definition identity_points (p : Profile.t) : Z :=
  let i := Profile.personal_info p in
  points (truthy (PersonalInfo.email i)) 10
  + points (opt_truthy (PersonalInfo.phone i)) 5
  + points (opt_truthy (Location.city (PersonalInfo.location i))) 5
  + points (opt_truthy (PersonalInfo.linkedin i)
            || opt_truthy (PersonalInfo.github i)) 5
  + points (opt_truthy (PersonalInfo.summary i)) 5.

(** Employment: 15 for an entry, 5 for a second one, 5 for an entry with
    three responsibilities, 5 for an entry with an achievement. *)
Definition work_points (p : Profile.t) : Z :=
  let w := Profile.work_experience p in
  if nonempty w then
    15 + points (2 <=? len w)%Z 5
    + points (existsb
        (fun exp => (3 <=? len (WorkExperience.responsibilities exp))%Z) w) 5
    + points (existsb
        (fun exp => nonempty (WorkExperience.achievements exp)) w) 5
  else 0.

(** Education: 10 for an entry, 5 for at least one entry, 5 for a GPA. *)
Definition education_points (p : Profile.t) : Z :=
  let e := Profile.education p in
  if nonempty e then
    10 + points (1 <=? len e)%Z 5
    + points (existsb (fun edu => opt_float_truthy (Education.gpa edu)) e) 5
  else 0.

(** Skills: 10 for a technical skill, 5 from five on, 5 from ten on. *)
Definition skills_points (p : Profile.t) : Z :=
  let t := Skills.technical (Profile.skills p) in
  if nonempty t then
    10 + points (5 <=? len t)%Z 5 + points (10 <=? len t)%Z 5
  else 0.

Definition total_points (p : Profile.t) : Z :=
  identity_points p + work_points p + education_points p + skills_points p.

(** ** One profile populating more than another *)

(** An optional field given in the first is given, with the same value,
    in the second. *)
Definition opt_le {A} (R : A -> A -> Prop) (a b : option A) : Prop :=
  match a, b with
  | None, _ => True
  | Some x, Some y => R x y
  | Some _, None => False
  end.

(** Every entry of the first list has a counterpart of its own in the
    second, whatever the order of the second. *)
Definition list_le {A} (R : A -> A -> Prop) (l1 l2 : list A) : Prop :=
  exists l1' extra,
    Forall2 R l1 l1' /\ Permutation (l1' ++ extra) l2.

Definition Location_le (a b : Location.t) : Prop :=
  opt_le eq (Location.city a) (Location.city b)
  /\ opt_le eq (Location.state a) (Location.state b)
  /\ Location.country a = Location.country b
  /\ opt_le eq (Location.postal_code a) (Location.postal_code b)
  /\ Location.willing_to_relocate a = Location.willing_to_relocate b
  /\ opt_le (list_le eq) (Location.relocation_preferences a)
       (Location.relocation_preferences b).

Definition PersonalInfo_le (a b : PersonalInfo.t) : Prop :=
  PersonalInfo.first_name a = PersonalInfo.first_name b
  /\ PersonalInfo.last_name a = PersonalInfo.last_name b
  /\ PersonalInfo.email a = PersonalInfo.email b
  /\ opt_le eq (PersonalInfo.phone a) (PersonalInfo.phone b)
  /\ Location_le (PersonalInfo.location a) (PersonalInfo.location b)
  /\ opt_le eq (PersonalInfo.linkedin a) (PersonalInfo.linkedin b)
  /\ opt_le eq (PersonalInfo.github a) (PersonalInfo.github b)
  /\ opt_le eq (PersonalInfo.portfolio a) (PersonalInfo.portfolio b)
  /\ opt_le eq (PersonalInfo.summary a) (PersonalInfo.summary b).

Definition Achievement_le (a b : Achievement.t) : Prop :=
  Achievement.description a = Achievement.description b
  /\ opt_le eq (Achievement.metric a) (Achievement.metric b).

Definition WorkExperience_le (a b : WorkExperience.t) : Prop :=
  WorkExperience.id a = WorkExperience.id b
  /\ WorkExperience.title a = WorkExperience.title b
  /\ WorkExperience.company a = WorkExperience.company b
  /\ opt_le eq (WorkExperience.company_size a) (WorkExperience.company_size b)
  /\ opt_le eq (WorkExperience.industry a) (WorkExperience.industry b)
  /\ opt_le eq (WorkExperience.location a) (WorkExperience.location b)
  /\ opt_le eq (WorkExperience.remote a) (WorkExperience.remote b)
  /\ WorkExperience.start_date a = WorkExperience.start_date b
  /\ opt_le eq (WorkExperience.end_date a) (WorkExperience.end_date b)
  /\ WorkExperience.is_current a = WorkExperience.is_current b
  /\ list_le eq (WorkExperience.responsibilities a)
       (WorkExperience.responsibilities b)
  /\ list_le Achievement_le (WorkExperience.achievements a)
       (WorkExperience.achievements b)
  /\ list_le eq (WorkExperience.skills_used a) (WorkExperience.skills_used b)
  /\ WorkExperience.employment_type a = WorkExperience.employment_type b.

Definition Education_le (a b : Education.t) : Prop :=
  Education.id a = Education.id b
  /\ Education.institution a = Education.institution b
  /\ Education.degree a = Education.degree b
  /\ Education.field a = Education.field b
  /\ opt_le eq (Education.start_date a) (Education.start_date b)
  /\ opt_le eq (Education.graduation_date a) (Education.graduation_date b)
  /\ opt_le eq (Education.gpa a) (Education.gpa b)
  /\ opt_le eq (Education.honors a) (Education.honors b)
  /\ opt_le (list_le eq) (Education.relevant_coursework a)
       (Education.relevant_coursework b)
  /\ opt_le (list_le eq) (Education.activities a) (Education.activities b).

Definition TechnicalSkill_le (a b : TechnicalSkill.t) : Prop :=
  TechnicalSkill.name a = TechnicalSkill.name b
  /\ TechnicalSkill.category a = TechnicalSkill.category b
  /\ TechnicalSkill.proficiency a = TechnicalSkill.proficiency b
  /\ opt_le eq (TechnicalSkill.years_of_experience a)
       (TechnicalSkill.years_of_experience b)
  /\ opt_le eq (TechnicalSkill.last_used a) (TechnicalSkill.last_used b).

Definition SoftSkill_le (a b : SoftSkill.t) : Prop :=
  SoftSkill.name a = SoftSkill.name b
  /\ opt_le eq (SoftSkill.proficiency a) (SoftSkill.proficiency b).

Definition LanguageSkill_le (a b : LanguageSkill.t) : Prop :=
  LanguageSkill.language a = LanguageSkill.language b
  /\ LanguageSkill.proficiency a = LanguageSkill.proficiency b
  /\ opt_le (list_le eq) (LanguageSkill.certifications a)
       (LanguageSkill.certifications b).

Definition Skills_le (a b : Skills.t) : Prop :=
  list_le TechnicalSkill_le (Skills.technical a) (Skills.technical b)
  /\ list_le SoftSkill_le (Skills.soft a) (Skills.soft b)
  /\ list_le LanguageSkill_le (Skills.languages a) (Skills.languages b).

Definition Certification_le (a b : Certification.t) : Prop :=
  Certification.id a = Certification.id b
  /\ Certification.name a = Certification.name b
  /\ Certification.issuer a = Certification.issuer b
  /\ Certification.issue_date a = Certification.issue_date b
  /\ opt_le eq (Certification.expiration_date a)
       (Certification.expiration_date b)
  /\ opt_le eq (Certification.credential_id a) (Certification.credential_id b)
  /\ opt_le eq (Certification.credential_url a)
       (Certification.credential_url b).

Definition Project_le (a b : Project.t) : Prop :=
  Project.id a = Project.id b
  /\ Project.name a = Project.name b
  /\ Project.description a = Project.description b
  /\ opt_le eq (Project.url a) (Project.url b)
  /\ opt_le eq (Project.repo_url a) (Project.repo_url b)
  /\ opt_le eq (Project.start_date a) (Project.start_date b)
  /\ opt_le eq (Project.end_date a) (Project.end_date b)
  /\ list_le eq (Project.technologies a) (Project.technologies b)
  /\ list_le eq (Project.highlights a) (Project.highlights b).

(** [Profile_le p q]: [q] populates every optional field and every list
    entry that [p] populates, with the same values. *)
Definition Profile_le (p q : Profile.t) : Prop :=
  PersonalInfo_le (Profile.personal_info p) (Profile.personal_info q)
  /\ list_le WorkExperience_le (Profile.work_experience p)
       (Profile.work_experience q)
  /\ list_le Education_le (Profile.education p) (Profile.education q)
  /\ Skills_le (Profile.skills p) (Profile.skills q)
  /\ opt_le (list_le Certification_le) (Profile.certifications p)
       (Profile.certifications q)
  /\ opt_le (list_le Project_le) (Profile.projects p) (Profile.projects q).

(** ** Responses that break the schema *)

(** The declarations of [profile.py] as a table: for each field its
    alias, its name, whether it is required, and the kind of value it
    takes.  [KStr] stands for [str], [EmailStr] and the string
    enumerations. *)
#[warnings="-register-all"]
Inductive kind :=
| KStr
| KBool
| KFloat
| KOptional (k : kind)
| KList (k : kind)
| KModel (fields : list (string * string * bool * kind)).

Definition not_str (j : json) : Prop :=
  match j with JStr _ => False | _ => True end.

(** Neither a number, nor a boolean, nor a string: no conversion of lax
    mode applies. *)
Definition not_scalar (j : json) : Prop :=
  match j with JNull | JList _ | JDict _ => True | _ => False end.

Definition not_bool (j : json) : Prop :=
  match j with JBool _ => False | _ => True end.

Definition not_number (j : json) : Prop :=
  match j with JInt _ | JFloat _ => False | _ => True end.

(** [violation k j], in the words of the specification: the value [j]
    given for a field of kind [k] has the wrong type, or, somewhere
    inside, a value has the wrong type or a required field is not given.
    The type of a value is its JSON type, and it is wrong when it is not
    the declared one: a string for [str], a boolean for [bool], a number
    for [float], a list for [List], an object for a model. *)
Fixpoint violation (k : kind) (j : json) : Prop :=
  match k with
  | KStr => not_str j
  | KBool => not_bool j
  | KFloat => not_number j
  | KOptional k' => j <> JNull /\ violation k' j
  | KList k' =>
      match j with
      | JList l => Exists (violation k') l
      | _ => True
      end
  | KModel fields =>
      match j with
      | JDict d =>
          (fix any (fs : list (string * string * bool * kind)) : Prop :=
             match fs with
             | [] => False
             | (alias, name, is_required, k') :: fs' =>
                 match given d alias name with
                 | Some j' => violation k' j'
                 | None => is_required = true
                 end
                 \/ any fs'
             end) fields
      | _ => True
      end
  end.

(** [lax_violation k j]: as [violation], with the wrong types of a field
    being those that validation has no conversion for: anything but a
    string for a string, and [null], a list or a dict for a boolean or a
    float (a number or a string given for a boolean, a boolean or a
    string given for a float, is converted when it can be, and judged by
    its value, not by its type). *)
Fixpoint lax_violation (k : kind) (j : json) : Prop :=
  match k with
  | KStr => not_str j
  | KBool | KFloat => not_scalar j
  | KOptional k' => j <> JNull /\ lax_violation k' j
  | KList k' =>
      match j with
      | JList l => Exists (lax_violation k') l
      | _ => True
      end
  | KModel fields =>
      match j with
      | JDict d =>
          (fix any (fs : list (string * string * bool * kind)) : Prop :=
             match fs with
             | [] => False
             | (alias, name, is_required, k') :: fs' =>
                 match given d alias name with
                 | Some j' => lax_violation k' j'
                 | None => is_required = true
                 end
                 \/ any fs'
             end) fields
      | _ => True
      end
  end.

Definition Location_schema : kind :=
  KModel
    [("city", "city", false, KOptional KStr);
     ("state", "state", false, KOptional KStr);
     ("country", "country", true, KStr);
     ("postalCode", "postal_code", false, KOptional KStr);
     ("willingToRelocate", "willing_to_relocate", false, KBool);
     ("relocationPreferences", "relocation_preferences", false,
      KOptional (KList KStr))]%string.

Definition PersonalInfo_schema : kind :=
  KModel
    [("firstName", "first_name", true, KStr);
     ("lastName", "last_name", true, KStr);
     ("email", "email", true, KStr);
     ("phone", "phone", false, KOptional KStr);
     ("location", "location", true, Location_schema);
     ("linkedIn", "linkedin", false, KOptional KStr);
     ("github", "github", false, KOptional KStr);
     ("portfolio", "portfolio", false, KOptional KStr);
     ("summary", "summary", false, KOptional KStr)]%string.

Definition Achievement_schema : kind :=
  KModel
    [("description", "description", true, KStr);
     ("metric", "metric", false, KOptional KStr)]%string.

Definition WorkExperience_schema : kind :=
  KModel
    [("id", "id", true, KStr);
     ("title", "title", true, KStr);
     ("company", "company", true, KStr);
     ("companySize", "company_size", false, KOptional KStr);
     ("industry", "industry", false, KOptional KStr);
     ("location", "location", false, KOptional KStr);
     ("remote", "remote", false, KOptional KStr);
     ("startDate", "start_date", true, KStr);
     ("endDate", "end_date", false, KOptional KStr);
     ("isCurrent", "is_current", false, KBool);
     ("responsibilities", "responsibilities", false, KList KStr);
     ("achievements", "achievements", false, KList Achievement_schema);
     ("skillsUsed", "skills_used", false, KList KStr);
     ("employmentType", "employment_type", false, KStr)]%string.

Definition Education_schema : kind :=
  KModel
    [("id", "id", true, KStr);
     ("institution", "institution", true, KStr);
     ("degree", "degree", true, KStr);
     ("field", "field", true, KStr);
     ("startDate", "start_date", false, KOptional KStr);
     ("graduationDate", "graduation_date", false, KOptional KStr);
     ("gpa", "gpa", false, KOptional KFloat);
     ("honors", "honors", false, KOptional KStr);
     ("relevantCoursework", "relevant_coursework", false,
      KOptional (KList KStr));
     ("activities", "activities", false, KOptional (KList KStr))]%string.

Definition TechnicalSkill_schema : kind :=
  KModel
    [("name", "name", true, KStr);
     ("category", "category", true, KStr);
     ("proficiency", "proficiency", true, KStr);
     ("yearsOfExperience", "years_of_experience", false, KOptional KFloat);
     ("lastUsed", "last_used", false, KOptional KStr)]%string.

Definition SoftSkill_schema : kind :=
  KModel
    [("name", "name", true, KStr);
     ("proficiency", "proficiency", false, KOptional KStr)]%string.

Definition LanguageSkill_schema : kind :=
  KModel
    [("language", "language", true, KStr);
     ("proficiency", "proficiency", true, KStr);
     ("certifications", "certifications", false,
      KOptional (KList KStr))]%string.

Definition Skills_schema : kind :=
  KModel
    [("technical", "technical", false, KList TechnicalSkill_schema);
     ("soft", "soft", false, KList SoftSkill_schema);
     ("languages", "languages", false, KList LanguageSkill_schema)]%string.

Definition Certification_schema : kind :=
  KModel
    [("id", "id", true, KStr);
     ("name", "name", true, KStr);
     ("issuer", "issuer", true, KStr);
     ("issueDate", "issue_date", true, KStr);
     ("expirationDate", "expiration_date", false, KOptional KStr);
     ("credentialId", "credential_id", false, KOptional KStr);
     ("credentialUrl", "credential_url", false, KOptional KStr)]%string.

Definition Project_schema : kind :=
  KModel
    [("id", "id", true, KStr);
     ("name", "name", true, KStr);
     ("description", "description", true, KStr);
     ("url", "url", false, KOptional KStr);
     ("repoUrl", "repo_url", false, KOptional KStr);
     ("startDate", "start_date", false, KOptional KStr);
     ("endDate", "end_date", false, KOptional KStr);
     ("technologies", "technologies", false, KList KStr);
     ("highlights", "highlights", false, KList KStr)]%string.


(** A validator turns its input down. *)
Definition rejects {A} (a : V A) : bool :=
  match a with inl _ => true | inr _ => false end.

(** A validator turns down every value that breaks the kind [k]. *)
Definition sound {A} (k : kind) (v : json -> V A) : Prop :=
  forall j, lax_violation k j -> rejects (v j) = true.

(** The answer of the model to the messages of a CV text. *)
Definition answer {St} (llm : ChatModel St) (mode : call_mode)
    (messages : list (string * str)) (s : St) : completion str * St :=
  match mode with
  | Sync => llm_invoke llm messages s
  | Async => llm_ainvoke llm messages s
  end.


(* ================================================================== *)
(** * The rest of the chain, and the endpoints around it *)
(* ================================================================== *)

(** ** [CVExtractionChain.extract_with_confidence] *)

Section Confidence.

Variable St : Type.
Variable self : CVExtractionChain St.

(** [f"{confidence:.2%}"], the formatting of the language. *)
Variable format_percent : float -> str.

(** [CVExtractionChain.extract_with_confidence]: when [extract_sync]
    hands back [None], reading [profile.personal_info] raises
    [AttributeError]. *)
Definition extract_with_confidence (cv_text : str)
  : M St (completion (Profile.t * float)) :=
  bind (extract_sync self cv_text) (fun r =>
    match r with
    | Raises e => ret (Raises e)
    | Returns None =>
        ret (Raises (OtherException
          (lit "'NoneType' object has no attribute 'personal_info'")))
    | Returns (Some profile) =>
        let confidence := _calculate_confidence profile in
        bind (log INFO
                (lit "Extraction confidence: " ++ format_percent confidence))
          (fun _ => ret (Returns (profile, confidence)))
    end).

End Confidence.

(** ** [app/models/job.py]: the job listing and the request *)

Module Job.
Record t := {
  id : str;
  title : str;
  company : str;
  location : str;
  description : str;
  requirements : list str;
  salary_range : option str;
  url : str;
  posted_date : str;
  source : str;
  employment_type : option str;
  remote_type : option str;
  tags : list str
}.
End Job.

(** [Job] called on the entries of a dict *)
Definition Job_fields (d : list (str * json)) : V Job.t :=
  (pure Job.Build_t
   <*> required d "id" "id" v_str
   <*> required d "title" "title" v_str
   <*> required d "company" "company" v_str
   <*> required d "location" "location" v_str
   <*> required d "description" "description" v_str
   <*> with_default d "requirements" "requirements" (v_list v_str) []
   <*> nullable d "salary_range" "salary_range" v_str
   <*> required d "url" "url" v_str
   <*> required d "posted_date" "posted_date" v_str
   <*> required d "source" "source" v_str
   <*> with_default d "employment_type" "employment_type"
         (v_optional v_str) (Some (lit "full-time"))
   <*> nullable d "remote_type" "remote_type" v_str
   <*> with_default d "tags" "tags" (v_list v_str) [])%V.

(** [JobMatchRequest.model_validate(body)] *)
Definition JobMatchRequest_fields (ext : Externals) (d : list (str * json))
  : V JobMatchRequest.t :=
  (pure JobMatchRequest.Build_t
   <*> required d "profile_id" "profile_id" v_str
   <*> nullable d "job_ids" "job_ids" (v_list v_str)
   <*> with_default d "min_score" "min_score"
         (v_optional (v_float_between ext 0 100)) (Some 0%float))%V.

(** ** [app/routers/jobs.py]: the demo listing *)

(** How an endpoint answers. *)
Inductive response (A : Type) :=
| OK (body : A)
| HTTPException (status_code : Z) (detail : str)
| ValidationError (errors : list error).
Arguments OK {A} body.
Arguments HTTPException {A} status_code detail.
Arguments ValidationError {A} errors.

(** [l[:n]] *)
Definition slice_to {A} (n : Z) (l : list A) : list A :=
  if (n <? 0)%Z then firstn (Z.to_nat (len l + n)) l
  else firstn (Z.to_nat n) l.



(* ================================================================== *)
(** * Sample inputs *)
(* ================================================================== *)

Definition sample_text : str := lit "Jane Doe - Software Engineer".

(** A chain that fails on every call, by turns with a parsing error and
    with a transport error; its state counts the calls. *)
Definition flaky_chain : Runnable nat :=
  let answer (_ : str) (n : nat) : completion pyobj * nat :=
    (Raises (if Nat.even n
             then OutputParserException (lit "email: field required")
             else OtherException (lit "connection reset")),
     S n) in
  {| invoke := answer; ainvoke := answer |}.

Definition flaky_self : CVExtractionChain nat :=
  {| model_name := default_model_name;
     temperature := default_temperature;
     max_retries := default_max_retries;
     chain := flaky_chain |}.

(** The same chain configured with no attempt at all. *)
Definition idle_self : CVExtractionChain nat :=
  {| model_name := default_model_name;
     temperature := default_temperature;
     max_retries := 0;
     chain := flaky_chain |}.

(** Two documents a model may answer with: a complete one, and the same
    one without the e-mail address. *)
Definition jstr (s : string) : json := JStr (lit s).

Definition sample_location : json :=
  JDict [(lit "city", jstr "Zurich"); (lit "country", jstr "Switzerland")].

Definition sample_education : json :=
  JList
    [JDict [(lit "id", jstr "edu_1"); (lit "institution", jstr "Uni Geneva");
            (lit "degree", jstr "bachelor"); (lit "field", jstr "Physics");
            (lit "startDate", jstr "2017-09");
            (lit "graduationDate", jstr "2021-06")];
     JDict [(lit "id", jstr "edu_2"); (lit "institution", jstr "ETH Zurich");
            (lit "degree", jstr "master");
            (lit "field", jstr "Computer Science");
            (lit "startDate", jstr "2021-09");
            (lit "graduationDate", jstr "2023-09");
            (lit "gpa", JFloat 5.5%float)]].

Definition sample_document : json :=
  JDict
    [(lit "personalInfo",
      JDict [(lit "firstName", jstr "Jane"); (lit "lastName", jstr "Doe");
             (lit "email", jstr "jane.doe@example.com");
             (lit "phone", jstr "+41 79 000 00 00");
             (lit "location", sample_location)]);
     (lit "education", sample_education)].

Definition document_without_email : json :=
  JDict
    [(lit "personalInfo",
      JDict [(lit "firstName", jstr "Jane"); (lit "lastName", jstr "Doe");
             (lit "phone", jstr "+41 79 000 00 00");
             (lit "location", sample_location)]);
     (lit "education", sample_education)].

(** Libraries for the samples: an address is accepted when it holds an
    at sign; the answer [complete] decodes to the complete document, the
    answer [partial] to the one without e-mail, anything else is not
    JSON. *)
Definition sample_ext : Externals :=
  {| validate_email := fun s => if existsb (N.eqb 64) s then Some s else None;
     float_of_str := fun _ => None;
     float_of_int := fun n => Some (PyFloat.of_int n);
     parse_json_markdown :=
       fun text =>
         if str_eqb text (lit "complete") then Some sample_document
         else if str_eqb text (lit "partial") then Some document_without_email
         else None;
     system_prompt := lit "You are an expert CV/resume parser.";
     invalid_json_message := fun text => lit "Invalid json output: " ++ text;
     validation_message :=
       fun text _ => lit "Failed to parse Profile from completion " ++ text |}.



(** A model that always gives the same answer and counts its calls. *)
Definition steady_llm (answer : string) : ChatModel nat :=
  let reply (_ : list (string * str)) (n : nat) : completion str * nat :=
    (Returns (lit answer), S n) in
  {| llm_invoke := reply; llm_ainvoke := reply |}.

(** A profile with e-mail, phone and city and nothing else that counts,
    and a profile that adds to it everything the score looks at. *)
Definition contact_info : PersonalInfo.t :=
  {| PersonalInfo.first_name := lit "Jane";
     PersonalInfo.last_name := lit "Doe";
     PersonalInfo.email := lit "jane.doe@example.com";
     PersonalInfo.phone := Some (lit "+41 79 000 00 00");
     PersonalInfo.location :=
       {| Location.city := Some (lit "Zurich");
          Location.state := None;
          Location.country := lit "Switzerland";
          Location.postal_code := None;
          Location.willing_to_relocate := false;
          Location.relocation_preferences := None |};
     PersonalInfo.linkedin := None;
     PersonalInfo.github := None;
     PersonalInfo.portfolio := None;
     PersonalInfo.summary := None |}.

Definition contact_profile : Profile.t :=
  Profile.init contact_info None None None None None.

Definition full_info : PersonalInfo.t :=
  {| PersonalInfo.first_name := lit "Jane";
     PersonalInfo.last_name := lit "Doe";
     PersonalInfo.email := lit "jane.doe@example.com";
     PersonalInfo.phone := Some (lit "+41 79 000 00 00");
     PersonalInfo.location := PersonalInfo.location contact_info;
     PersonalInfo.linkedin := Some (lit "linkedin.com/in/jane-doe");
     PersonalInfo.github := None;
     PersonalInfo.portfolio := None;
     PersonalInfo.summary :=
       Some (lit "Engineer with ten years of practice") |}.

Definition sample_job (id title start_date : string)
    (responsibilities : list string) (achievements : list string)
  : WorkExperience.t :=
  {| WorkExperience.id := lit id;
     WorkExperience.title := lit title;
     WorkExperience.company := lit "Example AG";
     WorkExperience.company_size := None;
     WorkExperience.industry := None;
     WorkExperience.location := None;
     WorkExperience.remote := None;
     WorkExperience.start_date := lit start_date;
     WorkExperience.end_date := None;
     WorkExperience.is_current := false;
     WorkExperience.responsibilities := map lit responsibilities;
     WorkExperience.achievements :=
       map (fun d => {| Achievement.description := lit d;
                        Achievement.metric := None |}) achievements;
     WorkExperience.skills_used := [];
     WorkExperience.employment_type := FULL_TIME |}.

Definition sample_degree (id : string) (degree : DegreeType)
    (start_date graduation_date : option string) (gpa : option float)
  : Education.t :=
  {| Education.id := lit id;
     Education.institution := lit "ETH Zurich";
     Education.degree := degree;
     Education.field := lit "Computer Science";
     Education.start_date := option_map lit start_date;
     Education.graduation_date := option_map lit graduation_date;
     Education.gpa := gpa;
     Education.honors := None;
     Education.relevant_coursework := None;
     Education.activities := None |}.

Definition sample_skill (name : string) : TechnicalSkill.t :=
  {| TechnicalSkill.name := lit name;
     TechnicalSkill.category := LANGUAGE;
     TechnicalSkill.proficiency := ADVANCED;
     TechnicalSkill.years_of_experience := None;
     TechnicalSkill.last_used := None |}.

Definition full_profile : Profile.t :=
  Profile.init full_info
    (Some [sample_job "exp_1" "Engineer" "2019-03"
             ["Design"; "Review"; "Operations"]%string [];
           sample_job "exp_2" "Senior Engineer" "2022-01"
             ["Architecture"]%string ["Halved the build time"]%string])
    (Some [sample_degree "edu_1" BACHELOR (Some "2012-09"%string)
             (Some "2015-06"%string)
             None;
           sample_degree "edu_2" MASTER None (Some "2017-06"%string)
             (Some 5.5%float)])
    (Some {| Skills.technical :=
               map sample_skill
                 ["Python"; "Rust"; "OCaml"; "Go"; "C"; "SQL"; "Java";
                  "Kotlin"; "Haskell"; "Bash"]%string;
             Skills.soft := [];
             Skills.languages := [] |})
    None None.


(* ================================================================== *)
(** * [app/routers/jobs.py] and [app/routers/cv.py]: the other endpoints *)
(* ================================================================== *)

Definition jstrs (l : list string) : json := JList (map jstr l).

(** The list [demo_jobs] of [get_demo_jobs]. *)
Definition demo_jobs : list json :=
  [JDict
     [(lit "id", jstr "job_demo_1");
      (lit "title", jstr "Machine Learning Engineer");
      (lit "company", jstr "Tech Innovations AG");
      (lit "location", jstr "Zurich, Switzerland");
      (lit "description",
       jstr "We are looking for an experienced ML Engineer to join our AI team. You will work on cutting-edge NLP and computer vision projects.");
      (lit "requirements",
       jstrs ["MSc or PhD in Computer Science or related field";
              "5+ years of ML/AI experience";
              "Expert Python and PyTorch skills";
              "Experience with Transformers and NLP"]%string);
      (lit "salary_range", jstr "120k-160k CHF");
      (lit "url", jstr "https://jobs.example.com/ml-engineer-1");
      (lit "posted_date", jstr "2025-11-20");
      (lit "source", jstr "SwissDevJobs");
      (lit "employment_type", jstr "full-time");
      (lit "remote_type", jstr "hybrid");
      (lit "tags", jstrs ["ML"; "AI"; "Python"; "PyTorch"; "NLP"]%string)];
   JDict
     [(lit "id", jstr "job_demo_2");
      (lit "title", jstr "AI Research Scientist");
      (lit "company", jstr "Research Labs Zurich");
      (lit "location", jstr "Zurich, Switzerland");
      (lit "description",
       jstr "Join our research team working on foundational AI models. PhD preferred.");
      (lit "requirements",
       jstrs ["PhD in Computer Science, AI, or related field";
              "Strong publication record";
              "Expertise in deep learning and transformers";
              "Python, PyTorch, TensorFlow"]%string);
      (lit "salary_range", jstr "140k-180k CHF");
      (lit "url", jstr "https://jobs.example.com/ai-researcher-2");
      (lit "posted_date", jstr "2025-11-19");
      (lit "source", jstr "SwissDevJobs");
      (lit "employment_type", jstr "full-time");
      (lit "remote_type", jstr "on-site");
      (lit "tags", jstrs ["AI"; "Research"; "PhD"; "Deep Learning"]%string)];
   JDict
     [(lit "id", jstr "job_demo_3");
      (lit "title", jstr "Senior Python Developer");
      (lit "company", jstr "FinTech Solutions");
      (lit "location", jstr "Geneva, Switzerland");
      (lit "description",
       jstr "Build scalable backend systems for financial applications.");
      (lit "requirements",
       jstrs ["5+ years Python development";
              "Experience with FastAPI/Django";
              "SQL and NoSQL databases";
              "Cloud deployment (AWS/Azure)"]%string);
      (lit "salary_range", jstr "100k-130k CHF");
      (lit "url", jstr "https://jobs.example.com/python-dev-3");
      (lit "posted_date", jstr "2025-11-18");
      (lit "source", jstr "Jobs.ch");
      (lit "employment_type", jstr "full-time");
      (lit "remote_type", jstr "remote");
      (lit "tags", jstrs ["Python"; "Backend"; "FinTech"; "FastAPI"]%string)]].

(** A list comprehension over a constructor: the first input that does
    not validate raises. *)
Fixpoint comprehension {A} (v : json -> V A) (l : list json) : V (list A) :=
  match l with
  | [] => pure []
  | j :: l' =>
      and_then (v j) (fun a =>
        and_then (comprehension v l') (fun r => pure (a :: r)))
  end.

(** The body of [get_demo_jobs]. *)
Definition get_demo_jobs (limit : Z) : response (list Job.t) :=
  match comprehension (v_model Job_fields) (slice_to limit demo_jobs) with
  | inr jobs => OK jobs
  | inl errors => ValidationError errors
  end.

(** The endpoint with its query parameter,
    [limit: int = Query(10, ge=1, le=100)]: a value out of bounds does
    not reach the body. *)
Definition get_demo_jobs_endpoint (limit : option Z)
  : response (list Job.t) :=
  match limit with
  | None => get_demo_jobs 10
  | Some n =>
      if (n <? 1)%Z then
        ValidationError [{| loc := [Field "query"; Field "limit"];
                            type := greater_than_equal |}]
      else if (100 <? n)%Z then
        ValidationError [{| loc := [Field "query"; Field "limit"];
                            type := less_than_equal |}]
      else get_demo_jobs n
  end.

(** [s.endswith(suffix)] *)
Definition endswith (s suffix : str) : bool :=
  (List.length suffix <=? List.length s)%nat
  && str_eqb (skipn (List.length s - List.length suffix) s) suffix.

(** The dict [mock_profile] of [parse_cv]. *)
Definition mock_profile : json :=
  JDict
    [(lit "personalInfo",
      JDict
        [(lit "firstName", jstr "John");
         (lit "lastName", jstr "Doe");
         (lit "email", jstr "john.doe@example.com");
         (lit "phone", jstr "+41 79 123 4567");
         (lit "location",
          JDict [(lit "city", jstr "Zurich");
                 (lit "country", jstr "Switzerland");
                 (lit "willingToRelocate", JBool false)]);
         (lit "linkedIn", jstr "https://linkedin.com/in/johndoe");
         (lit "github", jstr "https://github.com/johndoe");
         (lit "summary",
          jstr "Experienced ML Engineer with 5+ years of experience")]);
     (lit "workExperience",
      JList
        [JDict
           [(lit "id", jstr "exp_1");
            (lit "title", jstr "Machine Learning Engineer");
            (lit "company", jstr "Tech Corp");
            (lit "location", jstr "Zurich, Switzerland");
            (lit "startDate", jstr "2020-01");
            (lit "endDate", JNull);
            (lit "isCurrent", JBool true);
            (lit "responsibilities",
             jstrs ["Developed ML models for recommendation systems";
                    "Optimized training pipelines"]%string);
            (lit "achievements",
             JList [JDict [(lit "description",
                            jstr "Reduced training time by 40%");
                           (lit "metric", jstr "40%")]]);
            (lit "skillsUsed", jstrs ["Python"; "PyTorch"; "Docker"]%string);
            (lit "employmentType", jstr "full-time")]]);
     (lit "education",
      JList
        [JDict
           [(lit "id", jstr "edu_1");
            (lit "institution", jstr "ETH Zurich");
            (lit "degree", jstr "master");
            (lit "field", jstr "Computer Science");
            (lit "graduationDate", jstr "2020-09");
            (lit "gpa", JFloat 5.5%float);
            (lit "honors", jstr "Magna Cum Laude")]]);
     (lit "skills",
      JDict
        [(lit "technical",
          JList
            [JDict [(lit "name", jstr "Python");
                    (lit "category", jstr "language");
                    (lit "proficiency", jstr "expert");
                    (lit "yearsOfExperience", JFloat 5%float)];
             JDict [(lit "name", jstr "PyTorch");
                    (lit "category", jstr "framework");
                    (lit "proficiency", jstr "advanced");
                    (lit "yearsOfExperience", JFloat 3%float)]]);
         (lit "soft",
          JList
            [JDict [(lit "name", jstr "Leadership");
                    (lit "proficiency", jstr "advanced")];
             JDict [(lit "name", jstr "Communication");
                    (lit "proficiency", jstr "expert")]]);
         (lit "languages",
          JList
            [JDict [(lit "language", jstr "English");
                    (lit "proficiency", jstr "native")];
             JDict [(lit "language", jstr "German");
                    (lit "proficiency", jstr "professional-working")]])])].

(** [parse_cv], on the name of the uploaded file: the content of the
    file is not read. *)
Definition parse_cv (ext : Externals) (filename : str)
  : response Profile.t :=
  if negb (endswith filename (lit ".pdf")) then
    HTTPException 400 (lit "Only PDF files are supported")
  else
    match Profile_model_validate ext mock_profile with
    | inr profile => OK profile
    | inl errors => ValidationError errors
    end.

(** ** Notions for the properties of this code *)

(** What makes the loop go on or stop with the terminal error: an
    exception that a clause catches, or a result that is no [Profile]. *)
Definition retry_cause (r : completion pyobj) : option exn :=
  match r with
  | Returns (ProfileObj _) => None
  | Returns (OtherObj type_repr) =>
      Some (ValueError (lit "Expected Profile object, got " ++ type_repr))
  | Raises (NonException _) => None
  | Raises e => Some e
  end.

(** What one attempt leaves in the trace when the loop goes on after
    it or stops on it with the terminal error. *)
Definition retry_events {St} (self : CVExtractionChain St)
    (mode : call_mode) (cv_text : str) (attempt : Z)
    (r : completion pyobj) : list event :=
  Call mode cv_text ::
  match retry_cause r with
  | Some e => [attempt_record self attempt e]
  | None => []
  end.

(** What a successful attempt leaves in the trace. *)
Definition success_events (mode : call_mode) (cv_text : str)
    (result : Profile.t) : list event :=
  [Call mode cv_text;
   Log INFO (lit "CV extraction successful");
   Log DEBUG
     (lit "Extracted profile for: "
      ++ PersonalInfo.first_name (Profile.personal_info result)
      ++ lit " "
      ++ PersonalInfo.last_name (Profile.personal_info result))].

(** The records of a trace, without the calls. *)
Definition records (t : list event) : list event :=
  filter (fun e => negb (is_call e)) t.

(** [b] is [a] but for the parts the score does not read. *)
Definition same_scored_fields (a b : Profile.t) : Prop :=
  let i := Profile.personal_info a in
  let j := Profile.personal_info b in
  PersonalInfo.email i = PersonalInfo.email j
  /\ PersonalInfo.phone i = PersonalInfo.phone j
  /\ Location.city (PersonalInfo.location i)
     = Location.city (PersonalInfo.location j)
  /\ PersonalInfo.linkedin i = PersonalInfo.linkedin j
  /\ PersonalInfo.github i = PersonalInfo.github j
  /\ PersonalInfo.summary i = PersonalInfo.summary j
  /\ Permutation (Profile.work_experience a) (Profile.work_experience b)
  /\ Permutation (Profile.education a) (Profile.education b)
  /\ List.length (Skills.technical (Profile.skills a))
     = List.length (Skills.technical (Profile.skills b)).

(** The entries of a list with a given key, in their order. *)
Definition with_key {A} (key : A -> str) (k : str) (l : list A) : list A :=
  filter (fun x => str_eqb (key x) k) l.

(** ** Sample chains *)

(** A chain that fails once and then hands back a profile. *)
Definition recovering_chain : Runnable nat :=
  let answer (_ : str) (n : nat) : completion pyobj * nat :=
    (match n with
     | O => Raises (OutputParserException (lit "email: field required"))
     | _ => Returns (ProfileObj contact_profile)
     end, S n) in
  {| invoke := answer; ainvoke := answer |}.

(** A chain that fails once and is then interrupted. *)
Definition interrupted_chain : Runnable nat :=
  let answer (_ : str) (n : nat) : completion pyobj * nat :=
    (match n with
     | O => Raises (OtherException (lit "connection reset"))
     | _ => Raises (NonException (lit "KeyboardInterrupt"))
     end, S n) in
  {| invoke := answer; ainvoke := answer |}.

(** A chain that hands back a dict where a profile is expected. *)
Definition confused_chain : Runnable nat :=
  let answer (_ : str) (n : nat) : completion pyobj * nat :=
    (Returns (OtherObj (lit "<class 'dict'>")), S n) in
  {| invoke := answer; ainvoke := answer |}.

Definition chain_with (max_retries : Z) (chain : Runnable nat)
  : CVExtractionChain nat :=
  {| model_name := default_model_name;
     temperature := default_temperature;
     max_retries := max_retries;
     chain := chain |}.

(** The full profile under another name, with its lists turned round and
    with other soft skills, certifications and projects. *)
Definition shuffled_profile : Profile.t :=
  {| Profile.personal_info :=
       {| PersonalInfo.first_name := lit "Joan";
          PersonalInfo.last_name := lit "Roe";
          PersonalInfo.email := PersonalInfo.email full_info;
          PersonalInfo.phone := PersonalInfo.phone full_info;
          PersonalInfo.location := PersonalInfo.location full_info;
          PersonalInfo.linkedin := PersonalInfo.linkedin full_info;
          PersonalInfo.github := PersonalInfo.github full_info;
          PersonalInfo.portfolio := Some (lit "joan.example.com");
          PersonalInfo.summary := PersonalInfo.summary full_info |};
     Profile.work_experience := rev (Profile.work_experience full_profile);
     Profile.education := rev (Profile.education full_profile);
     Profile.skills :=
       {| Skills.technical := Skills.technical (Profile.skills full_profile);
          Skills.soft :=
            [{| SoftSkill.name := lit "Teaching";
                SoftSkill.proficiency := None |}];
          Skills.languages := [] |};
     Profile.certifications := Some [];
     Profile.projects := Some [] |}.

(** The profile the complete document validates to. *)
Definition validated_sample : Profile.t :=
  match Profile_model_validate sample_ext sample_document with
  | inr profile => profile
  | inl _ => contact_profile
  end.

(** A stand-in for the formatting of a percentage. *)
Definition sample_percent (x : float) : str :=
  if PrimFloat.ltb x 0.5 then lit "below 50%" else lit "50% or more".


(* ================================================================== *)
(** * Properties *)
(* ================================================================== *)

(** ** Strings *)

Lemma lstrip_nil_iff (s : str) : lstrip s = [] <-> whitespace_only s.
Proof.
  unfold whitespace_only.
  induction s as [|c s IH]; simpl.
  - split; auto.
  - destruct (isspace c) eqn:Hc.
    + rewrite IH. split; intro H.
      * constructor; assumption.
      * inversion H; assumption.
    + split; intro H.
      * discriminate.
      * inversion H; congruence.
Qed.

Lemma lstrip_head (s : str) :
  match lstrip s with
  | [] => True
  | c :: _ => isspace c = false
  end.
Proof.
  induction s as [|c s IH]; simpl; [exact I|].
  destruct (isspace c) eqn:Hc; [exact IH | exact Hc].
Qed.

Lemma strip_nil_iff (s : str) : strip s = [] <-> whitespace_only s.
Proof.
  unfold strip, rstrip. split.
  - intro H.
    apply (f_equal (@rev N)) in H. rewrite rev_involutive in H. simpl in H.
    apply lstrip_nil_iff in H. unfold whitespace_only in H.
    apply Forall_rev in H. rewrite rev_involutive in H.
    apply lstrip_nil_iff.
    pose proof (lstrip_head s) as Hh.
    destruct (lstrip s) as [|c r]; [reflexivity|].
    inversion H; congruence.
  - intro H. apply lstrip_nil_iff in H. rewrite H. reflexivity.
Qed.

(** The guard of [extract] fires exactly on the texts made of white space. *)
Lemma is_blank_iff (cv_text : str) :
  is_blank cv_text = true <-> whitespace_only cv_text.
Proof.
  unfold is_blank. rewrite orb_true_iff, !negb_true_iff. split.
  - intros [H | H].
    + destruct cv_text; [constructor | discriminate].
    + apply strip_nil_iff.
      destruct (strip cv_text); [reflexivity | discriminate].
  - intro H. right. apply strip_nil_iff in H. rewrite H. reflexivity.
Qed.

(** ** The retry loop *)

Section RetryLoop.

Variable St : Type.
Variable self : CVExtractionChain St.

Lemma call_run (mode : call_mode) (cv_text : str) (s : St) :
  call mode (chain self) cv_text s
  = (fst (run self mode cv_text s), snd (run self mode cv_text s),
     [Call mode cv_text]).
Proof.
  unfold call, run.
  destruct mode;
    [destruct (invoke (chain self) cv_text s)
    | destruct (ainvoke (chain self) cv_text s)]; reflexivity.
Qed.

(** The handler, run from a state. *)
Lemma handle_run (attempt : Z) (e : exn)
    (next : M St (completion (option Profile.t))) (s : St) :
  handle self attempt e next s
  = match e with
    | NonException _ => (Raises e, s, [])
    | _ =>
        if (attempt =? max_retries self - 1)%Z then
          (Raises (ValueError (terminal_message self e)), s,
           [attempt_record self attempt e])
        else
          let '(res, s', t) := next s in
          (res, s', attempt_record self attempt e :: t)
    end.
Proof.
  destruct e; cbn [handle]; unfold bind, log, ret, attempt_record,
    terminal_message; cbn [schema_failure exn_str];
    try reflexivity;
    destruct (attempt =? max_retries self - 1)%Z; try reflexivity;
    destruct (next s) as [[res s'] t]; reflexivity.
Qed.

(** One round of the loop, run from a state. *)
Lemma attempts_cons (mode : call_mode) (cv_text : str) (attempt : Z)
    (rng : list Z) (s : St) :
  attempts self mode cv_text (attempt :: rng) s
  = let '(res, s', t) :=
      match fst (run self mode cv_text s) with
      | Returns (ProfileObj result) =>
          (Returns (Some result), snd (run self mode cv_text s),
           [Log INFO (lit "CV extraction successful");
            Log DEBUG
              (lit "Extracted profile for: "
               ++ PersonalInfo.first_name (Profile.personal_info result)
               ++ lit " "
               ++ PersonalInfo.last_name (Profile.personal_info result))])
      | Returns (OtherObj type_repr) =>
          handle self attempt
            (ValueError (lit "Expected Profile object, got " ++ type_repr))
            (attempts self mode cv_text rng) (snd (run self mode cv_text s))
      | Raises e =>
          handle self attempt e (attempts self mode cv_text rng)
            (snd (run self mode cv_text s))
      end in
    (res, s', Call mode cv_text :: t).
Proof.
  cbn [attempts]. unfold bind at 1. rewrite call_run.
  destruct (fst (run self mode cv_text s)) as [[p | ty] | e];
    try reflexivity.
Qed.

(** An attempt whose call fails with the cause [e]: on the last value of
    [attempt] the terminal error is raised, otherwise the loop goes on
    from the state the call left. *)
Lemma attempts_failure (mode : call_mode) (cv_text : str) (attempt : Z)
    (rng : list Z) (s : St) (e : exn) :
  failure (fst (run self mode cv_text s)) = Some e ->
  attempts self mode cv_text (attempt :: rng) s
  = if (attempt =? max_retries self - 1)%Z then
      (Raises (ValueError (terminal_message self e)),
       snd (run self mode cv_text s),
       [Call mode cv_text; attempt_record self attempt e])
    else
      let '(res, s', t) :=
        attempts self mode cv_text rng (snd (run self mode cv_text s)) in
      (res, s', Call mode cv_text :: attempt_record self attempt e :: t).
Proof.
  intro Hf. cbn [attempts]. unfold bind at 1. rewrite call_run.
  destruct (fst (run self mode cv_text s)) as [[p | ty] | [m | m | m | m]];
    cbn [failure] in Hf; try discriminate;
    injection Hf as <-;
    unfold handle, bind, log, ret, attempt_record, terminal_message;
    cbn [schema_failure exn_str];
    destruct (attempt =? max_retries self - 1)%Z; try reflexivity;
    destruct (attempts self mode cv_text rng (snd (run self mode cv_text s)))
      as [[res s'] t]; reflexivity.
Qed.

(** A run of the loop in which every call fails, from attempt [i] on. *)
Lemma attempts_all_fail (mode : call_mode) (cv_text : str) (s0 : St)
    (N : nat) :
  max_retries self = Z.of_nat N ->
  (forall k, (k < N)%nat ->
     failure (outcome self mode cv_text k s0) <> None) ->
  forall n i, (i + n = N)%nat ->
    attempts self mode cv_text (map Z.of_nat (seq i n))
      (after self mode cv_text i s0)
    = (match n with
       | O => Returns None
       | S _ =>
           match failure (outcome self mode cv_text (N - 1) s0) with
           | Some e => Raises (ValueError (terminal_message self e))
           | None => Returns None
           end
       end,
       after self mode cv_text N s0,
       flat_map (fun k => attempt_events self mode cv_text (Z.of_nat k)
                            (outcome self mode cv_text k s0)) (seq i n)).
Proof.
  intros HN Hfail n. induction n as [|n IH]; intros i Hi.
  - cbn. replace i with N by lia. reflexivity.
  - cbn [seq map flat_map].
    destruct (failure (outcome self mode cv_text i s0)) as [e|] eqn:He;
      [| exfalso; apply (Hfail i); [lia | exact He]].
    rewrite (attempts_failure mode cv_text (Z.of_nat i) _ _ He).
    unfold attempt_events at 1. rewrite He.
    destruct (Z.of_nat i =? max_retries self - 1)%Z eqn:Hlast.
    + apply Z.eqb_eq in Hlast.
      assert (n = 0%nat) by lia. subst n.
      replace (N - 1)%nat with i by lia. rewrite He.
      replace N with (S i) by lia. reflexivity.
    + apply Z.eqb_neq in Hlast.
      assert (Hn : (S i + n = N)%nat) by lia.
      specialize (IH (S i) Hn). cbn [after] in IH. rewrite IH.
      destruct n as [|n]; [exfalso; lia|]. reflexivity.
Qed.

Lemma range_seq (n : Z) : range n = map Z.of_nat (seq 0 (Z.to_nat n)).
Proof. reflexivity. Qed.

Lemma extract_in_unfold (mode : call_mode) (cv_text : str) (s : St) :
  is_blank cv_text = false ->
  extract_in self mode cv_text s
  = let '(res, s', t) :=
      attempts self mode cv_text (range (max_retries self)) s in
    (res, s', preamble mode cv_text ++ t).
Proof.
  intro Hb. unfold extract_in, extract, extract_sync, preamble.
  destruct mode; rewrite Hb; unfold bind, log;
    match goal with
    | |- context [attempts ?a ?b ?c ?d ?e] => destruct (attempts a b c d e)
                                                as [[res s'] t]
    end; reflexivity.
Qed.

Lemma extract_in_blank (mode : call_mode) (cv_text : str) (s : St) :
  is_blank cv_text = true ->
  extract_in self mode cv_text s
  = (Raises (ValueError (lit "CV text cannot be empty")), s, []).
Proof.
  intro Hb. unfold extract_in, extract, extract_sync.
  destruct mode; rewrite Hb; reflexivity.
Qed.

Lemma calls_of_failures (mode : call_mode) (cv_text : str) (s0 : St) :
  forall n i,
    (forall k, (i <= k < i + n)%nat ->
       failure (outcome self mode cv_text k s0) <> None) ->
    filter is_call
      (flat_map (fun k => attempt_events self mode cv_text (Z.of_nat k)
                            (outcome self mode cv_text k s0)) (seq i n))
    = repeat (Call mode cv_text) n.
Proof.
  induction n as [|n IH]; intros i Hfail; [reflexivity|].
  cbn [seq flat_map]. rewrite filter_app, IH by (intros; apply Hfail; lia).
  unfold attempt_events.
  destruct (failure (outcome self mode cv_text i s0)) as [e|] eqn:He;
    [| exfalso; apply (Hfail i); [lia | exact He]].
  unfold attempt_record. destruct (schema_failure e); reflexivity.
Qed.

End RetryLoop.

(** ** Claims on the retry wrapper *)

(** C2.  An input that is empty or made of white space only makes
    [extract] and [extract_sync] raise [ValueError] at once: the stub is
    left in its state and the trace is empty, so the chain is not called
    and no attempt of the loop is started. *)
Theorem blank_input_fails_fast (St : Type) (self : CVExtractionChain St)
    (mode : call_mode) (cv_text : str) (s : St) :
  whitespace_only cv_text ->
  extract_in self mode cv_text s
  = (Raises (ValueError (lit "CV text cannot be empty")), s, []).
Proof.
  intro Hw. apply is_blank_iff in Hw.
  unfold extract_in, extract, extract_sync.
  destruct mode; rewrite Hw; reflexivity.
Qed.

Lemma blank_input_fails_fast_witness :
  extract_in flaky_self Async (lit "  ") 0%nat
  = (Raises (ValueError (lit "CV text cannot be empty")), 0%nat, []).
Proof.
  apply (@blank_input_fails_fast nat flaky_self Async (lit "  ") 0%nat).
  repeat constructor.
Defined.

(** C10.  With [max_retries] zero or negative and an input that passes
    the guard, [extract] and [extract_sync] return [None]: the loop body
    never runs, the chain is not called (the trace holds the two records
    written before the loop and nothing else), and nothing is raised. *)
Theorem no_attempt_returns_none (St : Type) (self : CVExtractionChain St)
    (mode : call_mode) (cv_text : str) (s : St) :
  (max_retries self <= 0)%Z ->
  is_blank cv_text = false ->
  extract_in self mode cv_text s = (Returns None, s, preamble mode cv_text)
  /\ filter is_call (preamble mode cv_text) = [].
Proof.
  intros Hn Hb. split; [| reflexivity].
  rewrite (extract_in_unfold self mode cv_text s Hb).
  unfold range. replace (Z.to_nat (max_retries self)) with 0%nat by lia.
  cbn [seq map attempts]. unfold ret. rewrite app_nil_r. reflexivity.
Qed.

Lemma no_attempt_returns_none_witness :
  extract_in idle_self Sync sample_text 0%nat
  = (Returns None, 0%nat, preamble Sync sample_text)
  /\ filter is_call (preamble Sync sample_text) = [].
Proof.
  apply (@no_attempt_returns_none nat idle_self Sync sample_text 0%nat).
  - cbn. lia.
  - reflexivity.
Defined.

(** C1.  On an input that passes the guard, when every call of the chain
    fails with a schema-validation or transport error, [extract] and
    [extract_sync] call the chain [max_retries] times (the default is 2)
    and not once more; between two calls nothing happens but the record
    the handler writes, there is no wait; no [Profile], partial or not,
    is returned; and with at least one attempt configured the outcome is
    a [ValueError] whose message ends with the text of the exception of
    the last call. *)
Theorem retries_exhausted_raise (St : Type) (self : CVExtractionChain St)
    (mode : call_mode) (cv_text : str) (s : St) :
  is_blank cv_text = false ->
  (forall k, (k < Z.to_nat (max_retries self))%nat ->
     failure (outcome self mode cv_text k s) <> None) ->
  let n := Z.to_nat (max_retries self) in
  let '(result, s', trace) := extract_in self mode cv_text s in
  s' = after self mode cv_text n s
  /\ trace
     = preamble mode cv_text
       ++ flat_map (fun k => attempt_events self mode cv_text (Z.of_nat k)
                               (outcome self mode cv_text k s)) (seq 0 n)
  /\ filter is_call trace = repeat (Call mode cv_text) n
  /\ (forall p, result <> Returns (Some p))
  /\ ((0 < max_retries self)%Z ->
      exists e,
        failure (outcome self mode cv_text (n - 1) s) = Some e
        /\ result = Raises (ValueError (terminal_message self e))
        /\ terminal_message self e
           = (if schema_failure e then lit "Failed to parse CV after "
              else lit "CV extraction failed after ")
             ++ of_int (max_retries self) ++ lit " attempts: " ++ exn_str e).
Proof.
  intros Hb Hfail n.
  rewrite (extract_in_unfold self mode cv_text s Hb), range_seq. fold n.
  destruct (Z_le_gt_dec (max_retries self) 0) as [Hle | Hgt].
  - assert (Hn : n = 0%nat) by (unfold n; lia). rewrite Hn. cbn.
    repeat split; try reflexivity.
    + discriminate.
    + lia.
  - assert (HN : max_retries self = Z.of_nat n) by (unfold n; lia).
    pose proof (attempts_all_fail self mode cv_text s HN Hfail n 0
                  (Nat.add_0_l n)) as Hrun.
    cbn [after] in Hrun. rewrite Hrun.
    destruct (failure (outcome self mode cv_text (n - 1) s)) as [e|] eqn:He;
      [| exfalso; apply (Hfail (n - 1)%nat); [lia | exact He]].
    destruct n as [|n']; [exfalso; lia|].
    repeat split.
    + rewrite filter_app, calls_of_failures; [reflexivity|].
      intros k Hk. apply Hfail. lia.
    + discriminate.
    + intros _. exists e. repeat split.
Qed.

Lemma retries_exhausted_raise_witness :
  let n := Z.to_nat (max_retries flaky_self) in
  let '(result, s', trace) := extract_in flaky_self Sync sample_text 0%nat in
  s' = after flaky_self Sync sample_text n 0%nat
  /\ trace
     = preamble Sync sample_text
       ++ flat_map (fun k => attempt_events flaky_self Sync sample_text
                               (Z.of_nat k)
                               (outcome flaky_self Sync sample_text k 0%nat))
            (seq 0 n)
  /\ filter is_call trace = repeat (Call Sync sample_text) n
  /\ (forall p, result <> Returns (Some p))
  /\ ((0 < max_retries flaky_self)%Z ->
      exists e,
        failure (outcome flaky_self Sync sample_text (n - 1) 0%nat) = Some e
        /\ result = Raises (ValueError (terminal_message flaky_self e))
        /\ terminal_message flaky_self e
           = (if schema_failure e then lit "Failed to parse CV after "
              else lit "CV extraction failed after ")
             ++ of_int (max_retries flaky_self) ++ lit " attempts: "
             ++ exn_str e).
Proof.
  apply (@retries_exhausted_raise nat flaky_self Sync sample_text 0%nat).
  - reflexivity.
  - intros k Hk. change (Z.to_nat (max_retries flaky_self)) with 2%nat in Hk.
    destruct k as [|[|k]]; [discriminate | discriminate | exfalso; lia].
Defined.

(** ** Determinism of the pipeline *)

Section Determinism.

Variable St : Type.
Variable self : CVExtractionChain St.
Variable mode : call_mode.
Variable cv_text : str.

(** The outcome of a call of the chain does not depend on the state. *)
Hypothesis stateless :
  forall s s', fst (run self mode cv_text s) = fst (run self mode cv_text s').

Lemma attempts_stateless (rng : list Z) (s1 s2 : St) :
  fst (fst (attempts self mode cv_text rng s1))
  = fst (fst (attempts self mode cv_text rng s2))
  /\ snd (attempts self mode cv_text rng s1)
     = snd (attempts self mode cv_text rng s2).
Proof.
  revert s1 s2. induction rng as [|attempt rng IH]; intros s1 s2.
  - split; reflexivity.
  - rewrite !attempts_cons, (stateless s1 s2).
    specialize (IH (snd (run self mode cv_text s1))
                   (snd (run self mode cv_text s2))).
    destruct (fst (run self mode cv_text s2)) as [[p | ty] | [m | m | m | m]];
      rewrite ?handle_run;
      try destruct (attempt =? max_retries self - 1)%Z;
      try (split; reflexivity);
      destruct (attempts self mode cv_text rng
                  (snd (run self mode cv_text s1))) as [[r1 u1] t1];
      destruct (attempts self mode cv_text rng
                  (snd (run self mode cv_text s2))) as [[r2 u2] t2];
      cbn [fst snd] in IH; destruct IH as [-> ->];
      split; reflexivity.
Qed.

Lemma extract_in_stateless (s1 s2 : St) :
  fst (fst (extract_in self mode cv_text s1))
  = fst (fst (extract_in self mode cv_text s2))
  /\ snd (extract_in self mode cv_text s1)
     = snd (extract_in self mode cv_text s2).
Proof.
  destruct (is_blank cv_text) eqn:Hb.
  - rewrite !(extract_in_blank self mode cv_text _ Hb). split; reflexivity.
  - rewrite !(extract_in_unfold self mode cv_text _ Hb).
    pose proof (attempts_stateless (range (max_retries self)) s1 s2) as H.
    destruct (attempts self mode cv_text (range (max_retries self)) s1)
      as [[r1 u1] t1].
    destruct (attempts self mode cv_text (range (max_retries self)) s2)
      as [[r2 u2] t2].
    cbn [fst snd] in *. destruct H as [-> ->]. split; reflexivity.
Qed.

End Determinism.

Lemma pipe_deterministic (ext : Externals) (St : Type)
    (llm : list (string * str) -> St -> completion str * St)
    (cv_text : str) (s s' : St) :
  fst (llm (prompt ext cv_text) s) = fst (llm (prompt ext cv_text) s') ->
  fst (pipe ext llm cv_text s) = fst (pipe ext llm cv_text s').
Proof.
  unfold pipe. intro H.
  destruct (llm (prompt ext cv_text) s) as [a u].
  destruct (llm (prompt ext cv_text) s') as [a' u'].
  cbn [fst] in H. subst a'. destruct a; reflexivity.
Qed.

(** C7.  Against a deterministic model, whose answer depends on the
    messages only, two runs of extraction on the same text yield the same
    outcome (the same parsed [Profile] when there is one) and the same
    trace, whatever the state the model is in at the start of each run:
    the pipeline adds no source of variation to the model call. *)
Theorem extraction_is_deterministic (ext : Externals) (St : Type)
    (llm : ChatModel St) (model_name : str) (temperature : float)
    (max_retries : Z) (mode : call_mode) (cv_text : str) (s1 s2 : St) :
  deterministic llm ->
  let self :=
    CVExtractionChain_init ext llm model_name temperature max_retries in
  fst (fst (extract_in self mode cv_text s1))
  = fst (fst (extract_in self mode cv_text s2))
  /\ snd (extract_in self mode cv_text s1)
     = snd (extract_in self mode cv_text s2).
Proof.
  intros Hdet self. apply extract_in_stateless.
  intros s s'. unfold run, self, CVExtractionChain_init. cbn.
  destruct (Hdet (prompt ext cv_text) s s') as [Hi Ha].
  destruct mode; apply pipe_deterministic; assumption.
Qed.

Lemma extraction_is_deterministic_witness :
  let self :=
    CVExtractionChain_init sample_ext (steady_llm "complete")
      default_model_name default_temperature default_max_retries in
  fst (fst (extract_in self Sync sample_text 0%nat))
  = fst (fst (extract_in self Sync sample_text 7%nat))
  /\ snd (extract_in self Sync sample_text 0%nat)
     = snd (extract_in self Sync sample_text 7%nat).
Proof.
  apply (@extraction_is_deterministic sample_ext nat (steady_llm "complete")
           default_model_name default_temperature default_max_retries
           Sync sample_text 0%nat 7%nat).
  intros messages s s'. split; reflexivity.
Defined.

(** ** The completeness score *)

(** A property of the integers from 0 to [n] can be checked one by one. *)
Lemma Z_interval_ind (P : Z -> Prop) (n : nat) :
  (forall k, (k <= n)%nat -> P (Z.of_nat k)) ->
  forall z, (0 <= z <= Z.of_nat n)%Z -> P z.
Proof.
  intros H z Hz. rewrite <- (Z2Nat.id z) by lia. apply H. lia.
Qed.

Tactic Notation "each_upto" integer(n) :=
  let k := fresh "k" in
  let Hk := fresh "Hk" in
  intros k Hk;
  do n (destruct k as [|k]; [reflexivity|]);
  exfalso; lia.

Lemma let_in_eq {A B} (e : A) (f : A -> B) (r : B) :
  (forall x, x = e -> f x = r) -> (let x := e in f x) = r.
Proof. intro H. apply H. reflexivity. Qed.

(** Names the value bound by the outermost [let] of the left-hand side. *)
Ltac peel x H :=
  lazymatch goal with
  | |- (let y := ?e in @?f y) = ?r =>
      refine (@let_in_eq _ _ e f r _); intros x H; cbv beta
  end.

Ltac split_conditions :=
  repeat match goal with
         | |- context [if ?c then _ else _] =>
             lazymatch c with
             | true => fail
             | false => fail
             | _ => destruct c
             end
         end.

(** The additions of the identity bucket are exact. *)
Lemma identity_bucket (c1 c2 c3 c4 c5 : bool) :
  (let score := 0 in
   let score := if c1 then score + 10 else score in
   let score := if c2 then score + 5 else score in
   let score := if c3 then score + 5 else score in
   let score := if c4 then score + 5 else score in
   let score := if c5 then score + 5 else score in
   score)%float
  = PyFloat.of_int (points c1 10 + points c2 5 + points c3 5 + points c4 5
        + points c5 5).
Proof. destruct c1, c2, c3, c4, c5; reflexivity. Qed.

Lemma work_bucket (c0 c1 c2 c3 : bool) (z : Z) :
  (0 <= z <= 30)%Z ->
  (if c0 then
     let score := PyFloat.of_int z + 15 in
     let score := if c1 then score + 5 else score in
     let score := if c2 then score + 5 else score in
     let score := if c3 then score + 5 else score in
     score
   else PyFloat.of_int z)%float
  = PyFloat.of_int
      (z + if c0 then 15 + points c1 5 + points c2 5 + points c3 5 else 0).
Proof.
  revert z. apply (@Z_interval_ind _ 30).
  destruct c0, c1, c2, c3; each_upto 31.
Qed.

Lemma education_bucket (c0 c1 c2 : bool) (z : Z) :
  (0 <= z <= 60)%Z ->
  (if c0 then
     let score := PyFloat.of_int z + 10 in
     let score := if c1 then score + 5 else score in
     let score := if c2 then score + 5 else score in
     score
   else PyFloat.of_int z)%float
  = PyFloat.of_int (z + if c0 then 10 + points c1 5 + points c2 5 else 0).
Proof.
  revert z. apply (@Z_interval_ind _ 60).
  destruct c0, c1, c2; each_upto 61.
Qed.

Lemma skills_bucket (c0 c1 c2 : bool) (z : Z) :
  (0 <= z <= 80)%Z ->
  (if c0 then
     let score := PyFloat.of_int z + 10 in
     let score := if c1 then score + 5 else score in
     let score := if c2 then score + 5 else score in
     score
   else PyFloat.of_int z)%float
  = PyFloat.of_int (z + if c0 then 10 + points c1 5 + points c2 5 else 0).
Proof.
  revert z. apply (@Z_interval_ind _ 80).
  destruct c0, c1, c2; each_upto 81.
Qed.

(** The division by the maximum and the cap at 1, on the possible sums. *)
Lemma normalise (z : Z) :
  (0 <= z <= 100)%Z ->
  (let max_score := 0 + 30 + 30 + 20 + 20 in
   if PrimFloat.ltb 0 max_score
   then PyFloat.min (PyFloat.of_int z / max_score) 1
   else 0)%float
  = (PyFloat.of_int z / 100)%float.
Proof. revert z. apply (@Z_interval_ind _ 100). each_upto 101. Qed.

Lemma identity_points_bounds (p : Profile.t) :
  (0 <= identity_points p <= 30)%Z.
Proof. unfold identity_points, points. cbv zeta. split_conditions; lia. Qed.

Lemma work_points_bounds (p : Profile.t) : (0 <= work_points p <= 30)%Z.
Proof. unfold work_points, points. cbv zeta. split_conditions; lia. Qed.

Lemma education_points_bounds (p : Profile.t) :
  (0 <= education_points p <= 20)%Z.
Proof. unfold education_points, points. cbv zeta. split_conditions; lia. Qed.

Lemma skills_points_bounds (p : Profile.t) : (0 <= skills_points p <= 20)%Z.
Proof. unfold skills_points, points. cbv zeta. split_conditions; lia. Qed.

Lemma total_points_bounds (p : Profile.t) : (0 <= total_points p <= 100)%Z.
Proof.
  pose proof (identity_points_bounds p). pose proof (work_points_bounds p).
  pose proof (education_points_bounds p). pose proof (skills_points_bounds p).
  unfold total_points. lia.
Qed.

(** The score the code computes in floating point is the quotient of the
    integer sum of the weights by 100. *)
Lemma confidence_of_points (p : Profile.t) :
  _calculate_confidence p = (PyFloat.of_int (total_points p) / 100)%float.
Proof.
  cbv beta delta [_calculate_confidence].
  peel personal_info Hpi. peel work_experience Hwe.
  peel education Hed. peel technical Hte.
  peel s0 Hs0. peel m0 Hm0. peel m1 Hm1.
  peel s1 Hs1. peel s2 Hs2. peel s3 Hs3. peel s4 Hs4. peel s5 Hs5.
  assert (Hid : s5 = PyFloat.of_int (identity_points p)).
  { subst. apply identity_bucket. }
  clear Hs1 Hs2 Hs3 Hs4 Hs5.
  peel m2 Hm2. peel s6 Hs6.
  assert (Hwk : s6 = PyFloat.of_int (identity_points p + work_points p)).
  { subst s6 s5 work_experience.
    apply work_bucket, identity_points_bounds. }
  clear Hs6 Hid.
  peel m3 Hm3. peel s7 Hs7.
  assert (Hedu : s7 = PyFloat.of_int
                        (identity_points p + work_points p
                         + education_points p)).
  { subst s7 s6 education.
    apply education_bucket.
    pose proof (identity_points_bounds p). pose proof (work_points_bounds p).
    lia. }
  clear Hs7 Hwk.
  peel m4 Hm4. peel s8 Hs8.
  assert (Hsk : s8 = PyFloat.of_int (total_points p)).
  { subst s8 s7 technical.
    apply skills_bucket.
    pose proof (identity_points_bounds p). pose proof (work_points_bounds p).
    pose proof (education_points_bounds p). lia. }
  subst m4 m3 m2 m1 m0. rewrite Hsk.
  apply normalise, total_points_bounds.
Qed.

Lemma quotient_in_unit_interval (z : Z) :
  (0 <= z <= 100)%Z ->
  PrimFloat.leb 0 (PyFloat.of_int z / 100) = true
  /\ PrimFloat.leb (PyFloat.of_int z / 100) 1 = true.
Proof.
  revert z. apply (@Z_interval_ind _ 100).
  intros k Hk.
  do 101 (destruct k as [|k]; [split; reflexivity|]).
  exfalso; lia.
Qed.

(** C4.  The score is a function of the record alone; its points come
    from four buckets, identity, employment, education and skills, whose
    contributions stay within 30, 30, 20 and 20 (and reach them); the
    value returned is the sum of the four divided by 100, and it lies
    between 0 and 1. *)
Theorem confidence_buckets_and_range (p : Profile.t) :
  ((0 <= identity_points p <= 30)%Z
   /\ (0 <= work_points p <= 30)%Z
   /\ (0 <= education_points p <= 20)%Z
   /\ (0 <= skills_points p <= 20)%Z)
  /\ _calculate_confidence p
     = (PyFloat.of_int
          (identity_points p + work_points p + education_points p
           + skills_points p) / 100)%float
  /\ (PrimFloat.leb 0 (_calculate_confidence p) = true
      /\ PrimFloat.leb (_calculate_confidence p) 1 = true)
  /\ (identity_points full_profile = 30%Z
      /\ work_points full_profile = 30%Z
      /\ education_points full_profile = 20%Z
      /\ skills_points full_profile = 20%Z
      /\ _calculate_confidence full_profile = 1%float).
Proof.
  split; [| split; [| split]].
  - auto using identity_points_bounds, work_points_bounds,
      education_points_bounds, skills_points_bounds.
  - apply confidence_of_points.
  - rewrite confidence_of_points.
    apply quotient_in_unit_interval, total_points_bounds.
  - repeat split; reflexivity.
Qed.



(** ** Monotonicity of the score *)

Section ListLe.

Variables (A : Type) (R : A -> A -> Prop).

Lemma list_le_length (l1 l2 : list A) :
  list_le R l1 l2 -> (List.length l1 <= List.length l2)%nat.
Proof.
  intros (l1' & extra & HF & HP).
  apply Forall2_length in HF. apply Permutation_length in HP.
  rewrite length_app in HP. lia.
Qed.

Lemma list_le_len (l1 l2 : list A) :
  list_le R l1 l2 -> (len l1 <= len l2)%Z.
Proof. intro H. apply list_le_length in H. unfold len. lia. Qed.

Lemma list_le_nonempty (l1 l2 : list A) :
  list_le R l1 l2 -> nonempty l1 = true -> nonempty l2 = true.
Proof.
  intros H H1. apply list_le_length in H.
  destruct l1; [discriminate|]. destruct l2; [cbn in H; lia | reflexivity].
Qed.

Lemma Forall2_In_l (l l' : list A) (a : A) :
  Forall2 R l l' -> In a l -> exists b, In b l' /\ R a b.
Proof.
  induction 1 as [|x y l l' Hxy HF IH]; intro Ha; [contradiction|].
  destruct Ha as [<- | Ha].
  - exists y. split; [left; reflexivity | exact Hxy].
  - destruct (IH Ha) as (b & Hb & Hab). exists b. split; [right|]; assumption.
Qed.

(** A test that passes from an entry to its counterpart passes from a
    list to a list that extends it. *)
Lemma list_le_existsb (f g : A -> bool) (l1 l2 : list A) :
  (forall a b, R a b -> f a = true -> g b = true) ->
  list_le R l1 l2 -> existsb f l1 = true -> existsb g l2 = true.
Proof.
  intros Hfg (l1' & extra & HF & HP) H1.
  apply existsb_exists in H1. destruct H1 as (a & Ha & Hfa).
  eapply Forall2_In_l in Ha; [| exact HF]. destruct Ha as (b & Hb & Hab).
  apply existsb_exists. exists b. split.
  - eapply Permutation_in; [exact HP|]. apply in_or_app. left. exact Hb.
  - eapply Hfg; eassumption.
Qed.

End ListLe.

Lemma opt_le_truthy (a b : option str) :
  opt_le eq a b -> opt_truthy a = true -> opt_truthy b = true.
Proof.
  destruct a as [x|], b as [y|]; cbn; try congruence; try contradiction.
Qed.

Lemma opt_le_float_truthy (a b : option float) :
  opt_le eq a b -> opt_float_truthy a = true -> opt_float_truthy b = true.
Proof.
  destruct a as [x|], b as [y|]; cbn; try congruence; try contradiction.
Qed.

Lemma points_mono (c c' : bool) (w : Z) :
  (0 <= w)%Z -> (c = true -> c' = true) -> (points c w <= points c' w)%Z.
Proof.
  intros Hw H. destruct c; cbn; [rewrite H by reflexivity; cbn; lia|].
  destruct c'; cbn; lia.
Qed.

Lemma leb_mono (a b a' b' : Z) :
  (a' <= a)%Z -> (b <= b')%Z -> (a <=? b)%Z = true -> (a' <=? b')%Z = true.
Proof. rewrite !Z.leb_le. lia. Qed.

Lemma identity_points_mono (p q : Profile.t) :
  PersonalInfo_le (Profile.personal_info p) (Profile.personal_info q) ->
  (identity_points p <= identity_points q)%Z.
Proof.
  intros (_ & _ & Hem & Hph & Hloc & Hli & Hgh & _ & Hsu).
  destruct Hloc as (Hci & _).
  unfold identity_points. cbv zeta. rewrite Hem.
  repeat apply Z.add_le_mono; apply points_mono; try lia;
    try (intro; eapply opt_le_truthy; eassumption); auto.
  rewrite !orb_true_iff. intros [H | H]; [left | right];
    eapply opt_le_truthy; eassumption.
Qed.

Lemma work_points_mono (p q : Profile.t) :
  list_le WorkExperience_le (Profile.work_experience p)
    (Profile.work_experience q) ->
  (work_points p <= work_points q)%Z.
Proof.
  intro H. unfold work_points. cbv zeta.
  destruct (nonempty (Profile.work_experience p)) eqn:Hp.
  - rewrite (list_le_nonempty H Hp).
    repeat apply Z.add_le_mono; try apply points_mono; try lia.
    + apply leb_mono; [lia | apply (list_le_len H)].
    + apply (list_le_existsb _ _ (R := WorkExperience_le)); [| exact H].
      intros a b Hab. apply leb_mono; [lia|].
      apply (list_le_len (R := eq)). apply Hab.
    + apply (list_le_existsb _ _ (R := WorkExperience_le)); [| exact H].
      intros a b Hab. apply (list_le_nonempty (R := Achievement_le)).
      apply Hab.
  - pose proof (work_points_bounds q) as Hq. unfold work_points in Hq.
    cbv zeta in Hq. lia.
Qed.

Lemma education_points_mono (p q : Profile.t) :
  list_le Education_le (Profile.education p) (Profile.education q) ->
  (education_points p <= education_points q)%Z.
Proof.
  intro H. unfold education_points. cbv zeta.
  destruct (nonempty (Profile.education p)) eqn:Hp.
  - rewrite (list_le_nonempty H Hp).
    repeat apply Z.add_le_mono; try apply points_mono; try lia.
    + apply leb_mono; [lia | apply (list_le_len H)].
    + apply (list_le_existsb _ _ (R := Education_le)); [| exact H].
      intros a b Hab. apply opt_le_float_truthy. apply Hab.
  - pose proof (education_points_bounds q) as Hq. unfold education_points in Hq.
    cbv zeta in Hq. lia.
Qed.

Lemma skills_points_mono (p q : Profile.t) :
  Skills_le (Profile.skills p) (Profile.skills q) ->
  (skills_points p <= skills_points q)%Z.
Proof.
  intros (H & _). unfold skills_points. cbv zeta.
  destruct (nonempty (Skills.technical (Profile.skills p))) eqn:Hp.
  - rewrite (list_le_nonempty H Hp).
    repeat apply Z.add_le_mono; try apply points_mono; try lia;
      apply leb_mono; try lia; apply (list_le_len H).
  - pose proof (skills_points_bounds q) as Hq. unfold skills_points in Hq.
    cbv zeta in Hq. lia.
Qed.

Lemma total_points_mono (p q : Profile.t) :
  Profile_le p q -> (total_points p <= total_points q)%Z.
Proof.
  intros (Hi & Hw & He & Hs & _). unfold total_points.
  pose proof (identity_points_mono p q Hi).
  pose proof (work_points_mono p q Hw).
  pose proof (education_points_mono p q He).
  pose proof (skills_points_mono p q Hs). lia.
Qed.

(** The quotient by 100 is monotone on the possible sums: checked on
    every pair. *)
Lemma quotient_pairs_checked :
  forallb
    (fun a =>
       forallb
         (fun d =>
            PrimFloat.leb (PyFloat.of_int (Z.of_nat a) / 100)
              (PyFloat.of_int (Z.of_nat (a + d)) / 100))
         (seq 0 (101 - a)))
    (seq 0 101) = true.
Proof. vm_compute. reflexivity. Qed.

Lemma quotient_mono (a b : Z) :
  (0 <= a <= b)%Z -> (b <= 100)%Z ->
  PrimFloat.leb (PyFloat.of_int a / 100) (PyFloat.of_int b / 100) = true.
Proof.
  intros Hab Hb.
  pose proof quotient_pairs_checked as H.
  rewrite forallb_forall in H.
  specialize (H (Z.to_nat a)). rewrite forallb_forall in H.
  specialize (H ltac:(apply in_seq; lia) (Z.to_nat b - Z.to_nat a)%nat
                ltac:(apply in_seq; lia)).
  replace (Z.to_nat a + (Z.to_nat b - Z.to_nat a))%nat with (Z.to_nat b)
    in H by lia.
  rewrite !Z2Nat.id in H by lia. exact H.
Qed.

(** C6.  When [q] populates every optional field and every list entry
    that [p] populates, with the same values, the score of [q] is at
    least the score of [p]. *)
Theorem confidence_monotone (p q : Profile.t) :
  Profile_le p q ->
  (total_points p <= total_points q)%Z
  /\ PrimFloat.leb (_calculate_confidence p) (_calculate_confidence q) = true.
Proof.
  intro H. pose proof (total_points_mono H) as Hle.
  split; [exact Hle|].
  rewrite !confidence_of_points.
  pose proof (total_points_bounds p). pose proof (total_points_bounds q).
  apply quotient_mono; lia.
Qed.

Lemma list_le_nil {A} (R : A -> A -> Prop) (l : list A) : list_le R [] l.
Proof. exists [], l. split; [constructor | apply Permutation_refl]. Qed.

Lemma confidence_monotone_witness :
  (total_points contact_profile <= total_points full_profile)%Z
  /\ PrimFloat.leb (_calculate_confidence contact_profile)
       (_calculate_confidence full_profile) = true.
Proof.
  apply (@confidence_monotone contact_profile full_profile).
  repeat split; try reflexivity; try apply list_le_nil.
Defined.

(** ** Order of strings *)

Lemma ltb_irrefl (a : str) : PyStr.ltb a a = false.
Proof.
  induction a as [|x a IH]; [reflexivity|].
  cbn. rewrite N.ltb_irrefl. exact IH.
Qed.

Lemma ltb_asym (a b : str) : PyStr.ltb a b = true -> PyStr.ltb b a = false.
Proof.
  revert b. induction a as [|x a IH]; intros [|y b]; cbn;
    try discriminate; try reflexivity.
  destruct (N.ltb_spec x y), (N.ltb_spec y x);
    try lia; try discriminate; auto.
Qed.

Lemma ltb_trans (a b c : str) :
  PyStr.ltb a b = true -> PyStr.ltb b c = true -> PyStr.ltb a c = true.
Proof.
  revert b c. induction a as [|x a IH]; intros [|y b] [|z c]; cbn;
    try discriminate; try reflexivity.
  destruct (N.ltb_spec x y), (N.ltb_spec y x), (N.ltb_spec y z),
    (N.ltb_spec z y), (N.ltb_spec x z), (N.ltb_spec z x);
    try lia; try discriminate; try reflexivity.
  apply IH.
Qed.

Lemma ltb_total (a b : str) :
  PyStr.ltb a b = false -> PyStr.ltb b a = false -> a = b.
Proof.
  revert b. induction a as [|x a IH]; intros [|y b]; cbn;
    try discriminate; try reflexivity.
  destruct (N.ltb_spec x y), (N.ltb_spec y x);
    try lia; try discriminate.
  intros H1 H2. f_equal; [lia | apply IH; assumption].
Qed.

(** [<=] on strings is transitive. *)
Lemma not_ltb_trans (a b c : str) :
  PyStr.ltb b a = false -> PyStr.ltb c b = false -> PyStr.ltb c a = false.
Proof.
  intros Hab Hbc.
  destruct (PyStr.ltb c a) eqn:Hca; [| reflexivity].
  destruct (PyStr.ltb a b) eqn:Hlt.
  - rewrite (ltb_trans _ _ _ Hca Hlt) in Hbc. discriminate.
  - rewrite (ltb_total _ _ Hlt Hab) in Hca. congruence.
Qed.

(** The empty string is below every string. *)
Lemma leb_nil_inv (a : str) : PyStr.leb a [] = true -> a = [].
Proof. destruct a; [reflexivity | discriminate]. Qed.

(** ** [sorted] sorts *)

Section SortedFacts.

Variables (A : Type) (key : A -> str).

Lemma insert_perm (x : A) (l : list A) :
  Permutation (insert PyStr.ltb key x l) (x :: l).
Proof.
  induction l as [|y l IH]; cbn; [apply Permutation_refl|].
  destruct (PyStr.ltb (key y) (key x)).
  - eapply Permutation_trans; [apply perm_skip, IH | apply perm_swap].
  - apply Permutation_refl.
Qed.

Lemma insert_sorted (x : A) (l : list A) :
  StronglySorted (ascending key) l ->
  StronglySorted (ascending key) (insert PyStr.ltb key x l).
Proof.
  induction 1 as [|y l Hs IH Hy]; cbn.
  - repeat constructor.
  - destruct (PyStr.ltb (key y) (key x)) eqn:Hyx.
    + constructor; [exact IH|].
      eapply Permutation_Forall;
        [apply Permutation_sym, insert_perm|].
      constructor; [| exact Hy].
      apply ltb_asym. exact Hyx.
    + constructor; [constructor; assumption|].
      constructor; [exact Hyx|].
      eapply Forall_impl; [| exact Hy].
      intros z Hz. unfold ascending in *. eapply not_ltb_trans; eassumption.
Qed.

Lemma stable_sort_perm (l : list A) :
  Permutation (stable_sort PyStr.ltb key l) l.
Proof.
  induction l as [|x l IH]; cbn; [constructor|].
  eapply Permutation_trans; [apply insert_perm | apply perm_skip, IH].
Qed.

Lemma stable_sort_sorted (l : list A) :
  StronglySorted (ascending key) (stable_sort PyStr.ltb key l).
Proof.
  induction l as [|x l IH]; cbn; [constructor | apply insert_sorted, IH].
Qed.

Lemma StronglySorted_snoc (R : A -> A -> Prop) (l : list A) (x : A) :
  StronglySorted R l -> Forall (fun y => R y x) l ->
  StronglySorted R (l ++ [x]).
Proof.
  induction 1 as [|y l Hs IH Hy]; intro Hx; cbn.
  - repeat constructor.
  - inversion Hx; subst. constructor; [apply IH; assumption|].
    apply Forall_app. split; [exact Hy | repeat constructor; assumption].
Qed.

Lemma StronglySorted_rev (R : A -> A -> Prop) (l : list A) :
  StronglySorted R l -> StronglySorted (fun a b => R b a) (rev l).
Proof.
  induction 1 as [|y l Hs IH Hy]; cbn; [constructor|].
  apply StronglySorted_snoc; [exact IH|].
  apply Forall_rev. exact Hy.
Qed.

(** [sorted(v, key=key, reverse=True)] is in descending order of the
    keys and holds the entries of [v]. *)
Lemma sorted_reverse_descending (v : list A) :
  descending key (sorted PyStr.ltb key true v).
Proof.
  unfold descending, sorted.
  pose proof (stable_sort_sorted (rev v)) as H.
  apply StronglySorted_rev in H. revert H.
  generalize (rev (stable_sort PyStr.ltb key (rev v))).
  intros l H. induction H as [|a l Hs IH Ha]; constructor; [exact IH|].
  eapply Forall_impl; [| exact Ha].
  intros b Hb. unfold PyStr.leb. unfold ascending in Hb. rewrite Hb.
  reflexivity.
Qed.

Lemma sorted_reverse_perm (v : list A) :
  Permutation (sorted PyStr.ltb key true v) v.
Proof.
  unfold sorted.
  eapply Permutation_trans; [apply Permutation_sym, Permutation_rev|].
  eapply Permutation_trans; [apply stable_sort_perm|].
  apply Permutation_sym, Permutation_rev.
Qed.

(** In a descending list the entries after one with an empty key have an
    empty key as well. *)
Lemma descending_empty_last (l1 l2 : list A) (x : A) :
  descending key (l1 ++ x :: l2) -> key x = [] ->
  Forall (fun y => key y = []) l2.
Proof.
  unfold descending. induction l1 as [|a l1 IH]; cbn; intros H Hx.
  - apply StronglySorted_inv in H. destruct H as [_ H].
    eapply Forall_impl; [| exact H].
    intros y Hy. cbn in Hy. rewrite Hx in Hy. apply leb_nil_inv, Hy.
  - apply StronglySorted_inv in H. apply IH; [apply H | exact Hx].
Qed.

End SortedFacts.

(** ** Order of the lists of a profile *)

Lemma sort_by_date_education (v : list Education.t) :
  sort_by_date v = sorted PyStr.ltb Education_key true v.
Proof. destruct v; reflexivity. Qed.

Lemma sort_by_date_work_experience (v : list WorkExperience.t) :
  sort_by_date v = sorted PyStr.ltb WorkExperience_key true v.
Proof. destruct v; reflexivity. Qed.

Lemma ap_inr {A B} (f : V (A -> B)) (a : V A) (b : B) :
  ap f a = inr b -> exists f' a', f = inr f' /\ a = inr a' /\ b = f' a'.
Proof.
  destruct f as [e | f'], a as [e' | a']; cbn; try discriminate.
  intro H. injection H as <-. eauto.
Qed.

(** A document that validates yields a constructed profile. *)
Lemma model_validate_constructed (ext : Externals) (obj : json)
    (p : Profile.t) :
  Profile_model_validate ext obj = inr p -> constructed p.
Proof.
  unfold Profile_model_validate, v_model.
  destruct obj; try discriminate.
  unfold Profile_fields. intro H.
  repeat (apply ap_inr in H; destruct H as (? & ? & H & ? & ?); subst).
  injection H as <-. constructor.
Qed.

(** C9.  In every constructed profile the employment list and the
    education list are in descending order of the [start_date] strings,
    a missing [start_date] counting as the empty string, so that the
    entries after one without [start_date] have none either.  On both
    lists the validator is the sort by [start_date]: for education too,
    whatever the graduation dates are. *)
Theorem profile_lists_sorted (p : Profile.t) :
  constructed p ->
  descending WorkExperience_key (Profile.work_experience p)
  /\ descending Education_key (Profile.education p)
  /\ (forall l1 x l2,
        Profile.education p = l1 ++ x :: l2 ->
        Education.start_date x = None ->
        Forall (fun y => opt_truthy (Education.start_date y) = false) l2)
  /\ (forall v : list WorkExperience.t,
        sort_by_date v = sorted PyStr.ltb WorkExperience_key true v)
  /\ (forall v : list Education.t,
        sort_by_date v
        = sorted PyStr.ltb (fun x => or_empty (Education.start_date x))
            true v).
Proof.
  intros [personal_info work_experience education skills certifications
          projects].
  assert (Hw : descending WorkExperience_key
                 (Profile.work_experience
                    (Profile.init personal_info work_experience education
                       skills certifications projects))).
  { cbn. destruct work_experience as [v|]; [| constructor].
    rewrite sort_by_date_work_experience. apply sorted_reverse_descending. }
  assert (He : descending Education_key
                 (Profile.education
                    (Profile.init personal_info work_experience education
                       skills certifications projects))).
  { cbn. destruct education as [v|]; [| constructor].
    rewrite sort_by_date_education. apply sorted_reverse_descending. }
  split; [exact Hw|]. split; [exact He|]. split; [| split].
  - intros l1 x l2 Heq Hx. rewrite Heq in He.
    apply descending_empty_last in He;
      [| unfold Education_key; rewrite Hx; reflexivity].
    eapply Forall_impl; [| exact He].
    intros y Hy. unfold Education_key in Hy.
    destruct (Education.start_date y) as [d|]; [| reflexivity].
    cbn in *. destruct d; [reflexivity | discriminate].
  - exact sort_by_date_work_experience.
  - exact sort_by_date_education.
Qed.

Lemma profile_lists_sorted_witness :
  descending WorkExperience_key (Profile.work_experience full_profile)
  /\ descending Education_key (Profile.education full_profile)
  /\ (forall l1 x l2,
        Profile.education full_profile = l1 ++ x :: l2 ->
        Education.start_date x = None ->
        Forall (fun y => opt_truthy (Education.start_date y) = false) l2)
  /\ (forall v : list WorkExperience.t,
        sort_by_date v = sorted PyStr.ltb WorkExperience_key true v)
  /\ (forall v : list Education.t,
        sort_by_date v
        = sorted PyStr.ltb (fun x => or_empty (Education.start_date x))
            true v).
Proof.
  apply (@profile_lists_sorted full_profile).
  unfold full_profile. constructor.
Defined.

(** ** The matching endpoint *)

(** C8.  Whatever the request, [match_jobs] answers with the same
    response: one match, for the job ["job_mock_123"] with score 87.5,
    and both counters at 1. *)
Theorem match_jobs_hardcoded (request : JobMatchRequest.t) :
  exists mock_match,
    match_jobs request
    = Some {| JobMatchResponse.matches := [mock_match];
              JobMatchResponse.total_jobs := 1;
              JobMatchResponse.matched_jobs := 1 |}
    /\ MatchResult.job_id mock_match = lit "job_mock_123"
    /\ MatchResult.score mock_match = 87.5%float
    /\ MatchResult.recommendation mock_match = lit "Highly Recommended"
    /\ MatchResult.skill_matches mock_match = []
    /\ forall request', match_jobs request' = match_jobs request.
Proof.
  eexists. split; [reflexivity|]. repeat split.
Qed.

(** ** The validators turn down what breaks the schema *)

Lemma rejects_ap {A B} (f : V (A -> B)) (a : V A) :
  rejects (ap f a) = rejects f || rejects a.
Proof. destruct f, a; reflexivity. Qed.

Lemma rejects_fmap {A B} (f : A -> B) (a : V A) :
  rejects (fmap f a) = rejects a.
Proof. destruct a; reflexivity. Qed.

Lemma rejects_under {A} (i : loc_item) (a : V A) :
  rejects (under i a) = rejects a.
Proof. destruct a; reflexivity. Qed.

Lemma rejects_and_then {A B} (a : V A) (f : A -> V B) :
  rejects a = true -> rejects (and_then a f) = true.
Proof. destruct a; [reflexivity | discriminate]. Qed.

Section Soundness.

Variable ext : Externals.

Lemma sound_str : sound KStr v_str.
Proof. intros [] H; try reflexivity; contradiction. Qed.

Lemma sound_str_min_length (n : nat) : sound KStr (v_str_min_length n).
Proof. intros j H. apply rejects_and_then, sound_str, H. Qed.

Lemma sound_email : sound KStr (v_email ext).
Proof. intros j H. apply rejects_and_then, sound_str, H. Qed.

Lemma sound_enum {E} (members : list (string * E)) :
  sound KStr (v_enum members).
Proof. intros [] H; try reflexivity; contradiction. Qed.

Lemma sound_bool : sound KBool v_bool.
Proof. intros [] H; try reflexivity; contradiction. Qed.

Lemma sound_float : sound KFloat (v_float ext).
Proof. intros [] H; try reflexivity; contradiction. Qed.

Lemma sound_float_between (lo hi : float) :
  sound KFloat (v_float_between ext lo hi).
Proof. intros j H. apply rejects_and_then, sound_float, H. Qed.

Lemma sound_optional {A} (k : kind) (v : json -> V A) :
  sound k v -> sound (KOptional k) (v_optional v).
Proof.
  intros Hv j [Hn H]. specialize (Hv j H).
  destruct j; try congruence; cbn [v_optional]; rewrite rejects_fmap;
    exact Hv.
Qed.

Lemma rejects_items {A} (k : kind) (v : json -> V A) (l : list json) :
  sound k v -> Exists (lax_violation k) l ->
  forall i, rejects (v_items v i l) = true.
Proof.
  intros Hv. induction 1 as [j l Hj | j l Hl IH]; intro i; cbn [v_items];
    rewrite !rejects_ap, rejects_under.
  - rewrite (Hv j Hj). cbn. reflexivity.
  - rewrite IH. apply orb_true_r.
Qed.

Lemma sound_list {A} (k : kind) (v : json -> V A) :
  sound k v -> sound (KList k) (v_list v).
Proof.
  intros Hv [] H; try reflexivity. cbn [v_list].
  eapply rejects_items; eassumption.
Qed.

Lemma sound_model {A} (fields : list (string * string * bool * kind))
    (f : list (str * json) -> V A) :
  (forall d, lax_violation (KModel fields) (JDict d) -> rejects (f d) = true) ->
  sound (KModel fields) (v_model f).
Proof. intros Hf [] H; try reflexivity. apply Hf, H. Qed.

(** *** Fields *)

Section Fields.

Variables (A : Type) (k : kind) (v : json -> V A).
Variables (d : list (str * json)) (alias name : string).
Hypothesis Hv : sound k v.

Lemma field_required :
  match given d alias name with
  | Some j => lax_violation k j
  | None => true = true
  end ->
  rejects (required d alias name v) = true.
Proof.
  unfold required. destruct (given d alias name) as [j|]; intro H;
    rewrite rejects_under; [apply Hv, H | reflexivity].
Qed.

Lemma field_defaulted :
  match given d alias name with
  | Some j => lax_violation k j
  | None => false = true
  end ->
  rejects (defaulted d alias name v) = true.
Proof.
  unfold defaulted. destruct (given d alias name) as [j|]; intro H;
    [| discriminate].
  rewrite rejects_under, rejects_fmap. apply Hv, H.
Qed.

Lemma field_with_default (default : A) :
  match given d alias name with
  | Some j => lax_violation k j
  | None => false = true
  end ->
  rejects (with_default d alias name v default) = true.
Proof.
  intro H. unfold with_default. rewrite rejects_fmap.
  apply field_defaulted, H.
Qed.

End Fields.

Lemma field_nullable {A} (k : kind) (v : json -> V A)
    (d : list (str * json)) (alias name : string) :
  sound k v ->
  match given d alias name with
  | Some j => lax_violation (KOptional k) j
  | None => false = true
  end ->
  rejects (nullable d alias name v) = true.
Proof.
  intros Hv H. unfold nullable.
  eapply field_with_default; [apply sound_optional, Hv | exact H].
Qed.

End Soundness.

Create HintDb sound.
#[local] Hint Resolve sound_str sound_str_min_length sound_email sound_enum
  sound_bool sound_float sound_float_between sound_optional sound_list
  : sound.

(** The field of the model that the hypothesis [H] speaks about is
    turned down. *)
Ltac field_rejected H :=
  first [ eapply field_required | eapply field_nullable
        | eapply field_with_default | eapply field_defaulted ];
  try solve [ eauto 7 with sound ]; exact H.

Ltac find_field H :=
  apply orb_true_intro;
  first [ right; solve [ field_rejected H ] | left; find_field H ].

(** The fields of a model, one after the other, against its table. *)
Ltac model_sound fields schema :=
  apply sound_model;
  let d := fresh "d" in
  let H := fresh "H" in
  intros d H; unfold fields; rewrite !rejects_ap;
  unfold schema in H; cbn [lax_violation] in H;
  repeat (destruct H as [H | H]);
  try contradiction; find_field H.

Section Models.

Variable ext : Externals.

Lemma Location_sound : sound Location_schema (v_model Location_fields).
Proof. model_sound Location_fields Location_schema. Qed.
Hint Resolve Location_sound : sound.

Lemma PersonalInfo_sound :
  sound PersonalInfo_schema (v_model (PersonalInfo_fields ext)).
Proof. model_sound PersonalInfo_fields PersonalInfo_schema. Qed.
Hint Resolve PersonalInfo_sound : sound.

Lemma Achievement_sound :
  sound Achievement_schema (v_model Achievement_fields).
Proof. model_sound Achievement_fields Achievement_schema. Qed.
Hint Resolve Achievement_sound : sound.

Lemma WorkExperience_sound :
  sound WorkExperience_schema (v_model WorkExperience_fields).
Proof. model_sound WorkExperience_fields WorkExperience_schema. Qed.
Hint Resolve WorkExperience_sound : sound.

Lemma Education_sound :
  sound Education_schema (v_model (Education_fields ext)).
Proof. model_sound Education_fields Education_schema. Qed.
Hint Resolve Education_sound : sound.

Lemma TechnicalSkill_sound :
  sound TechnicalSkill_schema (v_model (TechnicalSkill_fields ext)).
Proof. model_sound TechnicalSkill_fields TechnicalSkill_schema. Qed.
Hint Resolve TechnicalSkill_sound : sound.

Lemma SoftSkill_sound : sound SoftSkill_schema (v_model SoftSkill_fields).
Proof. model_sound SoftSkill_fields SoftSkill_schema. Qed.
Hint Resolve SoftSkill_sound : sound.

Lemma LanguageSkill_sound :
  sound LanguageSkill_schema (v_model LanguageSkill_fields).
Proof. model_sound LanguageSkill_fields LanguageSkill_schema. Qed.
Hint Resolve LanguageSkill_sound : sound.

Lemma Skills_sound : sound Skills_schema (v_model (Skills_fields ext)).
Proof. model_sound Skills_fields Skills_schema. Qed.
Hint Resolve Skills_sound : sound.

Lemma Certification_sound :
  sound Certification_schema (v_model Certification_fields).
Proof. model_sound Certification_fields Certification_schema. Qed.
Hint Resolve Certification_sound : sound.

Lemma Project_sound : sound Project_schema (v_model Project_fields).
Proof. model_sound Project_fields Project_schema. Qed.
Hint Resolve Project_sound : sound.


End Models.

(** ** A response that breaks the schema costs an attempt *)


(** A lax violation is a violation in the words of the specification:
    the values validation has no conversion for are among those of
    another JSON type than the declared one. *)
Lemma lax_violation_violation :
  forall (k : kind) (j : json), lax_violation k j -> violation k j.
Proof.
  fix IH 1. intros [ | | | k' | k' | fields] j;
    cbn [lax_violation violation].
  - exact (fun H => H).
  - destruct j; cbn; tauto.
  - destruct j; cbn; tauto.
  - intros [Hn H]. split; [exact Hn | apply IH, H].
  - destruct j; try exact (fun H => H).
    apply Exists_impl. intros a H. apply IH, H.
  - destruct j; try exact (fun H => H).
    induction fields as [| [[[alias name] is_required] k'] fs IHfs];
      [exact (fun H => H)|].
    intros [H | H]; [left | right; apply IHfs, H].
    destruct (given d alias name); [apply IH, H | exact H].
Qed.




(** ** The code on the sample inputs *)

Example strip_example :
  strip (lit "  Jane Doe ") = lit "Jane Doe"
  /\ strip ([9; 10; 160; 8195; 12288]%N) = [].
Proof. split; reflexivity. Qed.

(** Entries with equal keys keep their order under [reverse=True]. *)
Example sorted_example :
  sorted N.ltb fst true [(1, 10); (2, 20); (1, 11); (2, 21)]%N
  = [(2, 20); (2, 21); (1, 10); (1, 11)]%N.
Proof. reflexivity. Qed.

(** The degree without start date stands last, though it was obtained
    later than the other. *)
Example education_order_example :
  map Education.id (Profile.education full_profile)
  = [lit "edu_1"; lit "edu_2"]
  /\ map WorkExperience.id (Profile.work_experience full_profile)
     = [lit "exp_2"; lit "exp_1"].
Proof. split; reflexivity. Qed.

Example flaky_extraction_example :
  fst (fst (extract_sync flaky_self sample_text 0%nat))
  = Raises (ValueError
      (lit "CV extraction failed after 2 attempts: connection reset"))
  /\ snd (fst (extract_sync flaky_self sample_text 0%nat)) = 2%nat.
Proof. split; reflexivity. Qed.

(** A complete answer is returned at the first attempt, with its lists
    sorted; the score of the profile is 40/100. *)
Example complete_extraction_example :
  let self :=
    CVExtractionChain_init sample_ext (steady_llm "complete")
      default_model_name default_temperature default_max_retries in
  exists profile,
    fst (extract self sample_text 0%nat) = (Returns (Some profile), 1%nat)
    /\ map Education.id (Profile.education profile)
       = [lit "edu_2"; lit "edu_1"]
    /\ _calculate_confidence profile = (40 / 100)%float.
Proof. eexists. repeat split; reflexivity. Qed.

(** The answer without e-mail is asked for twice and ends in the error
    about parsing. *)
Example partial_extraction_example :
  let self :=
    CVExtractionChain_init sample_ext (steady_llm "partial")
      default_model_name default_temperature default_max_retries in
  fst (extract self sample_text 0%nat)
  = (Raises (ValueError
       (lit "Failed to parse CV after 2 attempts: Failed to parse Profile from completion partial")),
     2%nat)
  /\ Profile_model_validate sample_ext document_without_email
     = inl [{| loc := [Field "personalInfo"; Field "email"];
               type := missing |}].
Proof. split; reflexivity. Qed.

(** Lax mode converts what it can: these values are judged by what they
    say, and a list given for a boolean is turned down as a type error. *)
Example lax_conversion_example :
  v_bool (JStr (lit "Yes")) = inr true
  /\ v_bool (JInt 0) = inr false
  /\ v_bool (JStr (lit "maybe")) = fail bool_parsing
  /\ v_bool (JList []) = fail bool_type
  /\ v_str (JInt 7) = fail string_type.
Proof. repeat split; reflexivity. Qed.

(** A name has to be non-empty and to have a UTF-8 form; a plain [str]
    field takes a string with a surrogate as it is. *)
Example constrained_str_example :
  v_str_min_length 1 (JStr (lit "Jane")) = inr (lit "Jane")
  /\ v_str_min_length 1 (JStr []) = fail string_too_short
  /\ v_str_min_length 1 (JStr [74; 55296]%N) = fail string_unicode
  /\ v_str (JStr [74; 55296]%N) = inr [74; 55296]%N.
Proof. repeat split; reflexivity. Qed.

(* ================================================================== *)
(** * Further properties of the retry wrapper *)
(* ================================================================== *)

Section RetryRuns.

Variable St : Type.
Variable self : CVExtractionChain St.
Variable mode : call_mode.
Variable cv_text : str.

(** An attempt after which the loop goes on, or stops with the terminal
    error. *)
Lemma attempts_cause (attempt : Z) (rng : list Z) (s : St) (e : exn) :
  retry_cause (fst (run self mode cv_text s)) = Some e ->
  attempts self mode cv_text (attempt :: rng) s
  = if (attempt =? max_retries self - 1)%Z then
      (Raises (ValueError (terminal_message self e)),
       snd (run self mode cv_text s),
       [Call mode cv_text; attempt_record self attempt e])
    else
      let '(res, s', t) :=
        attempts self mode cv_text rng (snd (run self mode cv_text s)) in
      (res, s', Call mode cv_text :: attempt_record self attempt e :: t).
Proof.
  intro He. rewrite attempts_cons.
  destruct (fst (run self mode cv_text s)) as [[p | ty] | [m | m | m | m]];
    cbn [retry_cause] in He; try discriminate; injection He as <-;
    rewrite handle_run;
    destruct (attempt =? max_retries self - 1)%Z; try reflexivity;
    destruct (attempts self mode cv_text rng (snd (run self mode cv_text s)))
      as [[res s'] t]; reflexivity.
Qed.

Lemma attempts_success (attempt : Z) (rng : list Z) (s : St)
    (p : Profile.t) :
  fst (run self mode cv_text s) = Returns (ProfileObj p) ->
  attempts self mode cv_text (attempt :: rng) s
  = (Returns (Some p), snd (run self mode cv_text s),
     success_events mode cv_text p).
Proof. intro H. rewrite attempts_cons, H. reflexivity. Qed.

Lemma attempts_uncaught (attempt : Z) (rng : list Z) (s : St) (m : str) :
  fst (run self mode cv_text s) = Raises (NonException m) ->
  attempts self mode cv_text (attempt :: rng) s
  = (Raises (NonException m), snd (run self mode cv_text s),
     [Call mode cv_text]).
Proof. intro H. rewrite attempts_cons, H, handle_run. reflexivity. Qed.

(** The loop passes over attempts that are not the last one and whose
    call gives a cause to retry. *)
Lemma attempts_skip (s0 : St) (N : nat) (rest : list Z) :
  max_retries self = Z.of_nat N ->
  forall k i,
    (i + k < N)%nat ->
    (forall j, (i <= j < i + k)%nat ->
       retry_cause (outcome self mode cv_text j s0) <> None) ->
    attempts self mode cv_text (map Z.of_nat (seq i k) ++ rest)
      (after self mode cv_text i s0)
    = let '(res, s', t) :=
        attempts self mode cv_text rest (after self mode cv_text (i + k) s0)
      in
      (res, s',
       flat_map (fun j => retry_events self mode cv_text (Z.of_nat j)
                            (outcome self mode cv_text j s0)) (seq i k)
       ++ t).
Proof.
  intros HN k. induction k as [|k IH]; intros i Hik Hc.
  - cbn. rewrite Nat.add_0_r.
    destruct (attempts self mode cv_text rest (after self mode cv_text i s0))
      as [[res s'] t]. reflexivity.
  - cbn [seq map app flat_map].
    destruct (retry_cause (outcome self mode cv_text i s0)) as [e|] eqn:He;
      [| exfalso; apply (Hc i); [lia | exact He]].
    rewrite (attempts_cause _ _ _ He).
    replace (Z.of_nat i =? max_retries self - 1)%Z with false
      by (symmetry; apply Z.eqb_neq; lia).
    specialize (IH (S i) ltac:(lia) ltac:(intros; apply Hc; lia)).
    cbn [after] in IH. rewrite IH.
    replace (S i + k)%nat with (i + S k)%nat by lia.
    destruct (attempts self mode cv_text rest
                (after self mode cv_text (i + S k) s0)) as [[res s'] t].
    unfold retry_events at 2. rewrite He. reflexivity.
Qed.

(** The calls of a run of the loop: at most one for each attempt, all
    with the text that was given. *)
Lemma attempts_calls (rng : list Z) (s : St) :
  exists n,
    (n <= List.length rng)%nat
    /\ filter is_call (snd (attempts self mode cv_text rng s))
       = repeat (Call mode cv_text) n.
Proof.
  revert s. induction rng as [|attempt rng IH]; intro s.
  - exists 0%nat. split; [lia | reflexivity].
  - rewrite attempts_cons.
    destruct (IH (snd (run self mode cv_text s))) as (n & Hn & Hc).
    destruct (fst (run self mode cv_text s)) as [[p | ty] | [m | m | m | m]];
      rewrite ?handle_run;
      try destruct (attempt =? max_retries self - 1)%Z;
      try (exists 1%nat; split; [cbn; lia|];
           solve [ reflexivity
                 | unfold attempt_record; cbn [schema_failure]; reflexivity ]);
      destruct (attempts self mode cv_text rng
                  (snd (run self mode cv_text s))) as [[res s'] t];
      cbn [snd] in Hc |- *;
      exists (S n); (split; [cbn; lia|]);
      unfold attempt_record; cbn [schema_failure filter is_call];
      rewrite Hc; reflexivity.
Qed.

(** With an attempt left the loop does not run out without an answer. *)
Lemma attempts_not_none (N : nat) :
  max_retries self = Z.of_nat N ->
  forall n i s,
    (i + S n = N)%nat ->
    fst (fst (attempts self mode cv_text (map Z.of_nat (seq i (S n))) s))
    <> Returns None.
Proof.
  intros HN n. induction n as [|n IH]; intros i s Hi;
    cbn [seq map]; rewrite attempts_cons;
    destruct (fst (run self mode cv_text s)) as [[p | ty] | [m | m | m | m]];
    rewrite ?handle_run; try (cbn; discriminate).
  all: destruct (Z.of_nat i =? max_retries self - 1)%Z eqn:Hl;
    try (cbn; discriminate);
    try (apply Z.eqb_neq in Hl; exfalso; lia).
  all: specialize (IH (S i) (snd (run self mode cv_text s)) ltac:(lia));
    cbn [seq map] in IH;
    destruct (attempts self mode cv_text _ (snd (run self mode cv_text s)))
      as [[res s'] t]; exact IH.
Qed.

(** A profile that the loop returns was returned by a call. *)
Lemma attempts_some (p : Profile.t) (rng : list Z) (s : St) :
  fst (fst (attempts self mode cv_text rng s)) = Returns (Some p) ->
  exists s', fst (run self mode cv_text s') = Returns (ProfileObj p).
Proof.
  revert s. induction rng as [|attempt rng IH]; intro s.
  - cbn. discriminate.
  - rewrite attempts_cons.
    destruct (fst (run self mode cv_text s)) as [[q | ty] | [m | m | m | m]]
      eqn:Hr;
      [ cbn; intro H; injection H as <-; exists s; exact Hr | .. ];
      rewrite handle_run;
      try destruct (attempt =? max_retries self - 1)%Z;
      try (cbn; discriminate).
    all: specialize (IH (snd (run self mode cv_text s)));
      destruct (attempts self mode cv_text rng
                  (snd (run self mode cv_text s))) as [[res s'] t];
      exact IH.
Qed.

End RetryRuns.

Section RetryProperties.

Variable St : Type.
Variable self : CVExtractionChain St.
Variable mode : call_mode.
Variable cv_text : str.

Lemma range_split (N k : nat) :
  (k < N)%nat ->
  range (Z.of_nat N)
  = map Z.of_nat (seq 0 k)
    ++ Z.of_nat k :: map Z.of_nat (seq (S k) (N - S k)).
Proof.
  intro Hk. unfold range. rewrite Nat2Z.id.
  replace N with (k + S (N - S k))%nat at 1 by lia.
  rewrite seq_app, map_app. reflexivity.
Qed.

(** A run of [extract] or [extract_sync] in which the calls before call
    [k] give a cause to retry, up to call [k] itself. *)
Lemma extract_in_upto (s : St) (k : nat) :
  is_blank cv_text = false ->
  (k < Z.to_nat (max_retries self))%nat ->
  (forall j, (j < k)%nat ->
     retry_cause (outcome self mode cv_text j s) <> None) ->
  extract_in self mode cv_text s
  = let '(res, s', t) :=
      attempts self mode cv_text
        (Z.of_nat k
         :: map Z.of_nat (seq (S k) (Z.to_nat (max_retries self) - S k)))
        (after self mode cv_text k s) in
    (res, s',
     preamble mode cv_text
     ++ flat_map (fun j => retry_events self mode cv_text (Z.of_nat j)
                             (outcome self mode cv_text j s)) (seq 0 k)
     ++ t).
Proof.
  intros Hb Hk Hc.
  rewrite (extract_in_unfold self mode cv_text s Hb).
  assert (HN : max_retries self = Z.of_nat (Z.to_nat (max_retries self)))
    by lia.
  rewrite HN at 1. rewrite (range_split Hk).
  pose proof (@attempts_skip St self mode cv_text s
                (Z.to_nat (max_retries self))
                (Z.of_nat k
                 :: map Z.of_nat
                      (seq (S k) (Z.to_nat (max_retries self) - S k)))
                HN k 0%nat ltac:(lia) ltac:(intros; apply Hc; lia)) as Hs.
  cbn [after Nat.add] in Hs. rewrite Hs.
  match goal with
  | |- context [attempts ?a ?b ?c ?d ?e] =>
      destruct (attempts a b c d e) as [[res s'] t]
  end.
  reflexivity.
Qed.

End RetryProperties.

(** X1.  Whatever the chain does, [extract] and [extract_sync] call it
    at most [max_retries] times, and every call carries the text that
    was given. *)
Theorem extract_calls_bounded (St : Type) (self : CVExtractionChain St)
    (mode : call_mode) (cv_text : str) (s : St) :
  exists n,
    (n <= Z.to_nat (max_retries self))%nat
    /\ filter is_call (snd (extract_in self mode cv_text s))
       = repeat (Call mode cv_text) n.
Proof.
  destruct (is_blank cv_text) eqn:Hb.
  - rewrite (extract_in_blank self mode cv_text s Hb).
    exists 0%nat. split; [lia | reflexivity].
  - rewrite (extract_in_unfold self mode cv_text s Hb).
    destruct (attempts_calls self mode cv_text (range (max_retries self)) s)
      as (n & Hn & Hc).
    unfold range in Hn. rewrite length_map, length_seq in Hn.
    destruct (attempts self mode cv_text (range (max_retries self)) s)
      as [[res s'] t].
    exists n. split; [exact Hn|]. cbn [snd] in *.
    rewrite filter_app, Hc. destruct mode; reflexivity.
Qed.

(** X2.  The first call that hands back a [Profile] ends the loop: when
    the calls before call [k] fail and call [k] succeeds, with [k] below
    [max_retries], that profile is returned after [k + 1] calls, the
    failures before it having left their record and nothing else. *)
Theorem first_success_returned (St : Type) (self : CVExtractionChain St)
    (mode : call_mode) (cv_text : str) (s : St) (k : nat) (p : Profile.t) :
  is_blank cv_text = false ->
  (k < Z.to_nat (max_retries self))%nat ->
  (forall j, (j < k)%nat ->
     retry_cause (outcome self mode cv_text j s) <> None) ->
  outcome self mode cv_text k s = Returns (ProfileObj p) ->
  extract_in self mode cv_text s
  = (Returns (Some p), after self mode cv_text (S k) s,
     preamble mode cv_text
     ++ flat_map (fun j => retry_events self mode cv_text (Z.of_nat j)
                             (outcome self mode cv_text j s)) (seq 0 k)
     ++ success_events mode cv_text p).
Proof.
  intros Hb Hk Hc Hp.
  rewrite (extract_in_upto self mode cv_text s Hb Hk Hc).
  rewrite (attempts_success self mode cv_text _ _ _ Hp). reflexivity.
Qed.

Lemma first_success_returned_witness :
  extract_in (chain_with 3 recovering_chain) Sync sample_text 0%nat
  = (Returns (Some contact_profile),
     after (chain_with 3 recovering_chain) Sync sample_text 2 0%nat,
     preamble Sync sample_text
     ++ flat_map
          (fun j => retry_events (chain_with 3 recovering_chain) Sync
                      sample_text (Z.of_nat j)
                      (outcome (chain_with 3 recovering_chain) Sync
                         sample_text j 0%nat)) (seq 0 1)
     ++ success_events Sync sample_text contact_profile).
Proof.
  apply (@first_success_returned nat (chain_with 3 recovering_chain) Sync
           sample_text 0%nat 1%nat contact_profile).
  - reflexivity.
  - cbn. lia.
  - intros j Hj. destruct j as [|j]; [discriminate | exfalso; lia].
  - reflexivity.
Defined.

(** X3.  An exception of the chain that is no [Exception] (an interrupt,
    a cancellation) is not caught: it leaves the method as it is, after
    the call that raised it, with no record written for it and no
    further call. *)
Theorem uncaught_exception_propagates (St : Type)
    (self : CVExtractionChain St) (mode : call_mode) (cv_text : str)
    (s : St) (k : nat) (m : str) :
  is_blank cv_text = false ->
  (k < Z.to_nat (max_retries self))%nat ->
  (forall j, (j < k)%nat ->
     retry_cause (outcome self mode cv_text j s) <> None) ->
  outcome self mode cv_text k s = Raises (NonException m) ->
  extract_in self mode cv_text s
  = (Raises (NonException m), after self mode cv_text (S k) s,
     preamble mode cv_text
     ++ flat_map (fun j => retry_events self mode cv_text (Z.of_nat j)
                             (outcome self mode cv_text j s)) (seq 0 k)
     ++ [Call mode cv_text]).
Proof.
  intros Hb Hk Hc Hp.
  rewrite (extract_in_upto self mode cv_text s Hb Hk Hc).
  rewrite (attempts_uncaught self mode cv_text _ _ _ Hp). reflexivity.
Qed.

Lemma uncaught_exception_propagates_witness :
  extract_in (chain_with 3 interrupted_chain) Async sample_text 0%nat
  = (Raises (NonException (lit "KeyboardInterrupt")),
     after (chain_with 3 interrupted_chain) Async sample_text 2 0%nat,
     preamble Async sample_text
     ++ flat_map
          (fun j => retry_events (chain_with 3 interrupted_chain) Async
                      sample_text (Z.of_nat j)
                      (outcome (chain_with 3 interrupted_chain) Async
                         sample_text j 0%nat)) (seq 0 1)
     ++ [Call Async sample_text]).
Proof.
  apply (@uncaught_exception_propagates nat (chain_with 3 interrupted_chain)
           Async sample_text 0%nat 1%nat (lit "KeyboardInterrupt")).
  - reflexivity.
  - cbn. lia.
  - intros j Hj. destruct j as [|j]; [discriminate | exfalso; lia].
  - reflexivity.
Defined.

(** X4.  A result of the chain that is no [Profile] counts as a failed
    attempt: when the last call hands back such an object, the calls
    before it having failed, the method raises the error about
    extraction, and its message names the type that came back. *)
Theorem non_profile_result_raises (St : Type) (self : CVExtractionChain St)
    (mode : call_mode) (cv_text : str) (s : St) (type_repr : str) :
  is_blank cv_text = false ->
  (0 < max_retries self)%Z ->
  let n := Z.to_nat (max_retries self) in
  (forall j, (j < n - 1)%nat ->
     retry_cause (outcome self mode cv_text j s) <> None) ->
  outcome self mode cv_text (n - 1) s = Returns (OtherObj type_repr) ->
  fst (extract_in self mode cv_text s)
  = (Raises
       (ValueError
          (lit "CV extraction failed after " ++ of_int (max_retries self)
           ++ lit " attempts: Expected Profile object, got " ++ type_repr)),
     after self mode cv_text n s).
Proof.
  intros Hb Hpos n Hc Hlast.
  assert (Hk : (n - 1 < Z.to_nat (max_retries self))%nat) by (unfold n; lia).
  rewrite (extract_in_upto self mode cv_text s Hb Hk Hc).
  assert (He : retry_cause
                 (fst (run self mode cv_text
                         (after self mode cv_text (n - 1) s)))
               = Some (ValueError
                         (lit "Expected Profile object, got " ++ type_repr))).
  { fold (outcome self mode cv_text (n - 1) s). rewrite Hlast. reflexivity. }
  rewrite (attempts_cause self mode cv_text _ _ _ He).
  replace (Z.of_nat (n - 1) =? max_retries self - 1)%Z with true
    by (symmetry; apply Z.eqb_eq; unfold n; lia).
  cbn [fst]. apply f_equal2.
  - unfold terminal_message. cbn [schema_failure exn_str]. reflexivity.
  - transitivity (after self mode cv_text (S (n - 1)) s);
      [reflexivity | f_equal; unfold n; lia].
Qed.

Lemma non_profile_result_raises_witness :
  fst (extract_in (chain_with 2 confused_chain) Sync sample_text 0%nat)
  = (Raises
       (ValueError
          (lit "CV extraction failed after " ++ of_int 2
           ++ lit " attempts: Expected Profile object, got "
           ++ lit "<class 'dict'>")),
     after (chain_with 2 confused_chain) Sync sample_text 2 0%nat).
Proof.
  apply (@non_profile_result_raises nat (chain_with 2 confused_chain) Sync
           sample_text 0%nat (lit "<class 'dict'>")).
  - reflexivity.
  - cbn. lia.
  - intros j Hj. destruct j as [|j]; [discriminate | exfalso; cbn in Hj; lia].
  - reflexivity.
Defined.

(** X5.  With at least one attempt configured the method never hands
    back [None]: it returns a [Profile] or it raises, whatever the chain
    does and whatever the input is. *)
Theorem answer_or_error (St : Type) (self : CVExtractionChain St)
    (mode : call_mode) (cv_text : str) (s : St) :
  (0 < max_retries self)%Z ->
  (exists p, fst (fst (extract_in self mode cv_text s)) = Returns (Some p))
  \/ (exists e, fst (fst (extract_in self mode cv_text s)) = Raises e).
Proof.
  intro Hpos.
  assert (Hn : fst (fst (extract_in self mode cv_text s)) <> Returns None).
  { destruct (is_blank cv_text) eqn:Hb.
    - rewrite (extract_in_blank self mode cv_text s Hb). discriminate.
    - rewrite (extract_in_unfold self mode cv_text s Hb).
      pose proof (@attempts_not_none St self mode cv_text
                    (Z.to_nat (max_retries self)) ltac:(lia)
                    (Z.to_nat (max_retries self) - 1) 0%nat s ltac:(lia))
        as H.
      unfold range.
      replace (Z.to_nat (max_retries self))
        with (S (Z.to_nat (max_retries self) - 1)) at 1 by lia.
      destruct (attempts self mode cv_text _ s) as [[res s'] t].
      exact H. }
  destruct (fst (fst (extract_in self mode cv_text s))) as [[p|] | e].
  - left. exists p. reflexivity.
  - contradiction.
  - right. exists e. reflexivity.
Qed.

Lemma answer_or_error_witness :
  (exists p,
     fst (fst (extract_in (chain_with 1 confused_chain) Sync sample_text
                 0%nat)) = Returns (Some p))
  \/ (exists e,
        fst (fst (extract_in (chain_with 1 confused_chain) Sync sample_text
                    0%nat)) = Raises e).
Proof.
  apply (@answer_or_error nat (chain_with 1 confused_chain) Sync sample_text
           0%nat).
  cbn. lia.
Defined.

(** X6.  [extract] and [extract_sync] are the same method but for the
    way the chain is called: on a chain whose [invoke] and [ainvoke]
    agree they give the same outcome, leave the stub in the same state,
    call it the same number of times and write the same records, but
    for the first record, which names the method. *)
Theorem extract_and_extract_sync_agree (St : Type)
    (self : CVExtractionChain St) (cv_text : str) (s : St) :
  (forall t u, invoke (chain self) t u = ainvoke (chain self) t u) ->
  fst (extract self cv_text s) = fst (extract_sync self cv_text s)
  /\ tl (records (snd (extract self cv_text s)))
     = tl (records (snd (extract_sync self cv_text s)))
  /\ List.length (filter is_call (snd (extract self cv_text s)))
     = List.length (filter is_call (snd (extract_sync self cv_text s))).
Proof.
  intro Hsame.
  assert (Hrun : forall u, run self Async cv_text u = run self Sync cv_text u)
    by (intro u; unfold run; symmetry; apply Hsame).
  assert (Hloop : forall rng u,
            fst (attempts self Async cv_text rng u)
            = fst (attempts self Sync cv_text rng u)
            /\ records (snd (attempts self Async cv_text rng u))
               = records (snd (attempts self Sync cv_text rng u))
            /\ List.length
                 (filter is_call (snd (attempts self Async cv_text rng u)))
               = List.length
                   (filter is_call (snd (attempts self Sync cv_text rng u)))).
  { induction rng as [|attempt rng IH]; intro u.
    - repeat split; reflexivity.
    - rewrite !attempts_cons, Hrun.
      specialize (IH (snd (run self Sync cv_text u))).
      destruct (fst (run self Sync cv_text u))
        as [[p | ty] | [m | m | m | m]];
        rewrite ?handle_run;
        try destruct (attempt =? max_retries self - 1)%Z;
        try (repeat split; reflexivity);
        destruct (attempts self Async cv_text rng
                    (snd (run self Sync cv_text u))) as [[r1 u1] t1];
        destruct (attempts self Sync cv_text rng
                    (snd (run self Sync cv_text u))) as [[r2 u2] t2];
        cbn [fst snd] in IH |- *; destruct IH as (Hf & Hr & Hl);
        injection Hf as -> ->;
        unfold attempt_record; cbn [schema_failure];
        unfold records in *; cbn [filter is_call negb List.length];
        rewrite Hr, Hl; repeat split; reflexivity. }
  change (extract self) with (extract_in self Async).
  change (extract_sync self) with (extract_in self Sync).
  destruct (is_blank cv_text) eqn:Hb.
  - rewrite !(extract_in_blank self _ cv_text s Hb). repeat split.
  - rewrite !(extract_in_unfold self _ cv_text s Hb).
    specialize (Hloop (range (max_retries self)) s).
    destruct (attempts self Async cv_text (range (max_retries self)) s)
      as [[r1 u1] t1].
    destruct (attempts self Sync cv_text (range (max_retries self)) s)
      as [[r2 u2] t2].
    cbn [fst snd] in Hloop |- *. destruct Hloop as (Hf & Hr & Hl).
    injection Hf as -> ->.
    unfold records in *. rewrite !filter_app, !length_app.
    cbn [preamble filter is_call negb app tl List.length].
    rewrite Hr, Hl. repeat split; reflexivity.
Qed.

Lemma extract_and_extract_sync_agree_witness :
  fst (extract flaky_self sample_text 0%nat)
  = fst (extract_sync flaky_self sample_text 0%nat)
  /\ tl (records (snd (extract flaky_self sample_text 0%nat)))
     = tl (records (snd (extract_sync flaky_self sample_text 0%nat)))
  /\ List.length (filter is_call (snd (extract flaky_self sample_text 0%nat)))
     = List.length
         (filter is_call (snd (extract_sync flaky_self sample_text 0%nat))).
Proof.
  apply (@extract_and_extract_sync_agree nat flaky_self sample_text 0%nat).
  intros t u. reflexivity.
Defined.

(** ** What the composed chain hands back *)

Lemma constructed_descending (p : Profile.t) :
  constructed p ->
  descending WorkExperience_key (Profile.work_experience p)
  /\ descending Education_key (Profile.education p).
Proof.
  intros [personal_info work_experience education skills certifications
          projects]. cbn. split.
  - destruct work_experience as [v|]; [| constructor].
    rewrite sort_by_date_work_experience. apply sorted_reverse_descending.
  - destruct education as [v|]; [| constructor].
    rewrite sort_by_date_education. apply sorted_reverse_descending.
Qed.

Lemma pipe_returns (ext : Externals) (St : Type)
    (llm : list (string * str) -> St -> completion str * St)
    (cv_text : str) (s : St) (p : Profile.t) :
  fst (pipe ext llm cv_text s) = Returns (ProfileObj p) ->
  exists text obj,
    fst (llm (prompt ext cv_text) s) = Returns text
    /\ parse_json_markdown ext text = Some obj
    /\ Profile_model_validate ext obj = inr p.
Proof.
  unfold pipe. destruct (llm (prompt ext cv_text) s) as [[text | e] u];
    cbn [fst]; [| discriminate].
  unfold parser.
  destruct (parse_json_markdown ext text) as [obj|] eqn:Hp; [| discriminate].
  destruct (Profile_model_validate ext obj) as [errors | q] eqn:Hv;
    [discriminate|].
  intro H. injection H as <-. exists text, obj. auto.
Qed.

(** X7.  A profile that [extract] or [extract_sync] returns, on a chain
    built by the constructor of the class, is the validated form of an
    answer of the model to the prompt of the text; its two dated lists
    are in descending order of [start_date]. *)
Theorem returned_profile_validated (ext : Externals) (St : Type)
    (llm : ChatModel St) (model_name : str) (temperature : float)
    (max_retries : Z) (mode : call_mode) (cv_text : str) (s : St)
    (p : Profile.t) :
  fst (fst (extract_in
              (CVExtractionChain_init ext llm model_name temperature
                 max_retries) mode cv_text s)) = Returns (Some p) ->
  (exists s' text obj,
     fst (answer llm mode (prompt ext cv_text) s') = Returns text
     /\ parse_json_markdown ext text = Some obj
     /\ Profile_model_validate ext obj = inr p)
  /\ descending WorkExperience_key (Profile.work_experience p)
  /\ descending Education_key (Profile.education p).
Proof.
  set (self := CVExtractionChain_init ext llm model_name temperature
                 max_retries).
  intro H.
  assert (Hv : exists s' text obj,
             fst (answer llm mode (prompt ext cv_text) s') = Returns text
             /\ parse_json_markdown ext text = Some obj
             /\ Profile_model_validate ext obj = inr p).
  { destruct (is_blank cv_text) eqn:Hb.
    - rewrite (extract_in_blank self mode cv_text s Hb) in H. discriminate.
    - rewrite (extract_in_unfold self mode cv_text s Hb) in H.
      match type of H with
      | context [attempts ?a ?b ?c ?d ?e] =>
          assert (Hs : fst (fst (attempts a b c d e)) = Returns (Some p))
            by (destruct (attempts a b c d e) as [[res u] t]; exact H)
      end.
      apply attempts_some in Hs. destruct Hs as (s' & Hs).
      exists s'. unfold run, self, CVExtractionChain_init in Hs. cbn in Hs.
      unfold answer.
      destruct mode; apply pipe_returns in Hs;
        destruct Hs as (text & obj & H1 & H2 & H3);
        exists text, obj; auto. }
  split; [exact Hv|].
  destruct Hv as (s' & text & obj & _ & _ & Hval).
  apply constructed_descending.
  eapply model_validate_constructed. exact Hval.
Qed.

Lemma returned_profile_validated_witness :
  (exists s' text obj,
     fst (answer (steady_llm "complete") Sync
            (prompt sample_ext sample_text) s') = Returns text
     /\ parse_json_markdown sample_ext text = Some obj
     /\ Profile_model_validate sample_ext obj = inr validated_sample)
  /\ descending WorkExperience_key (Profile.work_experience validated_sample)
  /\ descending Education_key (Profile.education validated_sample).
Proof.
  apply (@returned_profile_validated sample_ext nat (steady_llm "complete")
           default_model_name default_temperature default_max_retries Sync
           sample_text 0%nat validated_sample).
  reflexivity.
Defined.

(** ** [extract_with_confidence] and [extract_profile_from_cv] *)

Lemma extract_in_idle (St : Type) (self : CVExtractionChain St)
    (mode : call_mode) (cv_text : str) (s : St) :
  (max_retries self <= 0)%Z ->
  is_blank cv_text = false ->
  extract_in self mode cv_text s = (Returns None, s, preamble mode cv_text).
Proof.
  intros Hn Hb. rewrite (extract_in_unfold self mode cv_text s Hb).
  unfold range. replace (Z.to_nat (max_retries self)) with 0%nat by lia.
  cbn [seq map attempts]. unfold ret. rewrite app_nil_r. reflexivity.
Qed.

Lemma confidence_in_unit_interval (p : Profile.t) :
  PrimFloat.leb 0 (_calculate_confidence p) = true
  /\ PrimFloat.leb (_calculate_confidence p) 1 = true.
Proof.
  rewrite confidence_of_points.
  apply quotient_in_unit_interval, total_points_bounds.
Qed.

(** X8.  [extract_with_confidence] adds no call of the chain to those of
    [extract_sync] and leaves the stub in the same state.  An error of
    [extract_sync] comes out unchanged; a profile comes out paired with
    its score, which lies between 0 and 1, and one more record is
    written. *)
Theorem extract_with_confidence_follows (St : Type)
    (self : CVExtractionChain St) (format_percent : float -> str)
    (cv_text : str) (s : St) :
  let '(r, s', t) := extract_sync self cv_text s in
  let '(r', s'', t') :=
    extract_with_confidence self format_percent cv_text s in
  s'' = s'
  /\ filter is_call t' = filter is_call t
  /\ match r with
     | Raises e => r' = Raises e /\ t' = t
     | Returns (Some p) =>
         r' = Returns (p, _calculate_confidence p)
         /\ PrimFloat.leb 0 (_calculate_confidence p) = true
         /\ PrimFloat.leb (_calculate_confidence p) 1 = true
         /\ t' = t ++ [Log INFO
                         (lit "Extraction confidence: "
                          ++ format_percent (_calculate_confidence p))]
     | Returns None => exists e, r' = Raises e /\ t' = t
     end.
Proof.
  unfold extract_with_confidence, bind.
  destruct (extract_sync self cv_text s) as [[[[p|] | e] s'] t];
    unfold ret, log.
  - pose proof (confidence_in_unit_interval p) as [H0 H1].
    rewrite filter_app. cbn [app filter is_call]. rewrite app_nil_r.
    repeat split; assumption.
  - rewrite app_nil_r. repeat split. eexists. split; reflexivity.
  - rewrite app_nil_r. repeat split.
Qed.

(** X9.  Configured with no attempt, [extract_with_confidence] does not
    return on an input that passes the guard: the [None] it gets from
    [extract_sync] has no [personal_info], and the attribute error comes
    out, without any call of the chain. *)
Theorem extract_with_confidence_without_attempt (St : Type)
    (self : CVExtractionChain St) (format_percent : float -> str)
    (cv_text : str) (s : St) :
  (max_retries self <= 0)%Z ->
  is_blank cv_text = false ->
  extract_with_confidence self format_percent cv_text s
  = (Raises (OtherException
       (lit "'NoneType' object has no attribute 'personal_info'")),
     s, preamble Sync cv_text).
Proof.
  intros Hn Hb. unfold extract_with_confidence, bind.
  change (extract_sync self) with (extract_in self Sync).
  rewrite (extract_in_idle self Sync cv_text s Hn Hb).
  unfold ret. rewrite app_nil_r. reflexivity.
Qed.

Lemma extract_with_confidence_without_attempt_witness :
  extract_with_confidence idle_self sample_percent sample_text 0%nat
  = (Raises (OtherException
       (lit "'NoneType' object has no attribute 'personal_info'")),
     0%nat, preamble Sync sample_text).
Proof.
  apply (@extract_with_confidence_without_attempt nat idle_self
           sample_percent sample_text 0%nat).
  - cbn. lia.
  - reflexivity.
Defined.

(** X10.  [extract_profile_from_cv] with its default arguments builds
    the chain first, so its trace opens with the record of [__init__],
    whatever the text is.  After that it calls the model at most twice
    and never hands back [None]; on a blank text it raises with no other
    record and no call, and leaves the stub as it was. *)
Theorem extract_profile_from_cv_default (ext : Externals) (St : Type)
    (llm : ChatModel St) (cv_text : str) (s : St) :
  let '(r, s', t) := extract_profile_from_cv ext llm cv_text s in
  exists t',
    t = Log INFO
          (lit "Initialized CVExtractionChain with model: "
           ++ default_model_name) :: t'
    /\ (List.length (filter is_call t) <= 2)%nat
    /\ r <> Returns None
    /\ (whitespace_only cv_text ->
        r = Raises (ValueError (lit "CV text cannot be empty"))
        /\ s' = s /\ t' = []).
Proof.
  unfold extract_profile_from_cv, CVExtractionChain_new, bind, log, ret.
  set (self := CVExtractionChain_init ext llm default_model_name
                 default_temperature default_max_retries).
  change (extract_sync self) with (extract_in self Sync).
  destruct (is_blank cv_text) eqn:Hb.
  - rewrite (extract_in_blank self Sync cv_text s Hb).
    eexists. split; [reflexivity|].
    repeat split; try discriminate. cbn. lia.
  - rewrite (extract_in_unfold self Sync cv_text s Hb).
    change (max_retries self) with default_max_retries.
    destruct (attempts_calls self Sync cv_text (range default_max_retries) s)
      as (n & Hn & Hc).
    pose proof (@attempts_not_none St self Sync cv_text 2 eq_refl 1 0%nat s
                  eq_refl) as Hnn.
    change (map Z.of_nat (seq 0 2)) with (range default_max_retries) in Hnn.
    destruct (attempts self Sync cv_text (range default_max_retries) s)
      as [[r s'] t].
    cbn [fst snd] in Hc, Hnn. cbv beta iota.
    eexists. split; [reflexivity|]. split; [| split].
    + cbn [app filter is_call]. rewrite filter_app, Hc.
      cbn [preamble filter is_call app].
      rewrite repeat_length.
      change (List.length (range default_max_retries)) with 2%nat in Hn.
      exact Hn.
    + exact Hnn.
    + intro Hw. apply is_blank_iff in Hw. congruence.
Qed.

(* ================================================================== *)
(** * Further properties of the profile model *)
(* ================================================================== *)

Lemma str_eqb_eq (a b : str) : str_eqb a b = true <-> a = b.
Proof.
  unfold str_eqb. destruct (list_eq_dec N.eq_dec a b); split; congruence.
Qed.

Section SortedMore.

Variables (A : Type) (key : A -> str).

Lemma insert_with_key (k : str) (x : A) (l : list A) :
  with_key key k (insert PyStr.ltb key x l) = with_key key k (x :: l).
Proof.
  unfold with_key. induction l as [|y l IH]; [reflexivity|].
  cbn [insert]. destruct (PyStr.ltb (key y) (key x)) eqn:Hlt; [| reflexivity].
  cbn [filter] in *. rewrite IH.
  destruct (str_eqb (key x) k) eqn:Hx; [| reflexivity].
  apply str_eqb_eq in Hx.
  destruct (str_eqb (key y) k) eqn:Hy; [| reflexivity].
  apply str_eqb_eq in Hy. rewrite Hx, Hy, ltb_irrefl in Hlt. discriminate.
Qed.

Lemma stable_sort_with_key (k : str) (l : list A) :
  with_key key k (stable_sort PyStr.ltb key l) = with_key key k l.
Proof.
  induction l as [|x l IH]; [reflexivity|].
  cbn [stable_sort fold_right].
  change (fold_right (insert PyStr.ltb key) [] l)
    with (stable_sort PyStr.ltb key l).
  rewrite insert_with_key. unfold with_key in *. cbn [filter].
  rewrite IH. reflexivity.
Qed.

Lemma filter_rev_eq (f : A -> bool) (l : list A) :
  filter f (rev l) = rev (filter f l).
Proof.
  induction l as [|x l IH]; [reflexivity|].
  cbn [rev filter]. rewrite filter_app, IH. cbn [filter].
  destruct (f x); [reflexivity | apply app_nil_r].
Qed.

Lemma sorted_with_key (k : str) (v : list A) :
  with_key key k (sorted PyStr.ltb key true v) = with_key key k v.
Proof.
  unfold sorted. unfold with_key at 1. rewrite filter_rev_eq.
  fold (with_key key k (stable_sort PyStr.ltb key (rev v))).
  rewrite stable_sort_with_key. unfold with_key.
  rewrite filter_rev_eq, rev_involutive. reflexivity.
Qed.

(** An ascending list is left as it is by the ascending sort. *)
Lemma stable_sort_ascending (l : list A) :
  StronglySorted (ascending key) l -> stable_sort PyStr.ltb key l = l.
Proof.
  induction 1 as [|x l Hs IH Hx]; [reflexivity|].
  cbn [stable_sort fold_right].
  change (fold_right (insert PyStr.ltb key) [] l)
    with (stable_sort PyStr.ltb key l).
  rewrite IH. destruct l as [|y l]; [reflexivity|].
  cbn [insert]. inversion Hx as [|? ? Hxy _]; subst.
  unfold ascending in Hxy. rewrite Hxy. reflexivity.
Qed.

Lemma sorted_idempotent (v : list A) :
  sorted PyStr.ltb key true (sorted PyStr.ltb key true v)
  = sorted PyStr.ltb key true v.
Proof.
  unfold sorted. rewrite rev_involutive.
  rewrite (stable_sort_ascending (stable_sort_sorted key (rev v))).
  reflexivity.
Qed.

End SortedMore.

(** X11.  [sort_by_date] only reorders: its result holds the entries it
    was given, each as often as before, whatever attributes the class of
    the entries has. *)
Theorem sort_by_date_permutation (A : Type) (dated : DatedEntry A)
    (v : list A) :
  Permutation (sort_by_date v) v
  /\ List.length (sort_by_date v) = List.length v.
Proof.
  assert (H : Permutation (sort_by_date v) v).
  { unfold sort_by_date. destruct v as [|x v]; [constructor|].
    destruct attr_start_date as [start|];
      [apply sorted_reverse_perm|].
    destruct attr_graduation_date as [grad|];
      [apply sorted_reverse_perm | apply Permutation_refl]. }
  split; [exact H | apply Permutation_length, H].
Qed.

(** X12.  The sort is stable: the entries of one start date stand in the
    result in the order in which they were given, on the employment list
    and on the education list. *)
Theorem sort_by_date_stable (k : str) :
  (forall v : list WorkExperience.t,
     with_key WorkExperience_key k (sort_by_date v)
     = with_key WorkExperience_key k v)
  /\ (forall v : list Education.t,
        with_key Education_key k (sort_by_date v)
        = with_key Education_key k v).
Proof.
  split; intro v.
  - rewrite sort_by_date_work_experience. apply sorted_with_key.
  - rewrite sort_by_date_education. apply sorted_with_key.
Qed.

(** X13.  Construction is idempotent: sorting a sorted list changes
    nothing, so that building a profile again from the fields of a
    constructed profile yields that profile. *)
Theorem profile_reconstruction (p : Profile.t) :
  constructed p ->
  sort_by_date (Profile.work_experience p) = Profile.work_experience p
  /\ sort_by_date (Profile.education p) = Profile.education p
  /\ Profile.init (Profile.personal_info p)
       (Some (Profile.work_experience p)) (Some (Profile.education p))
       (Some (Profile.skills p)) (Profile.certifications p)
       (Profile.projects p)
     = p.
Proof.
  intros [personal_info work_experience education skills certifications
          projects].
  assert (Hw : sort_by_date
                 (Profile.work_experience
                    (Profile.init personal_info work_experience education
                       skills certifications projects))
               = Profile.work_experience
                   (Profile.init personal_info work_experience education
                      skills certifications projects)).
  { cbn. destruct work_experience as [v|]; [| reflexivity].
    rewrite !sort_by_date_work_experience. apply sorted_idempotent. }
  assert (He : sort_by_date
                 (Profile.education
                    (Profile.init personal_info work_experience education
                       skills certifications projects))
               = Profile.education
                   (Profile.init personal_info work_experience education
                      skills certifications projects)).
  { cbn. destruct education as [v|]; [| reflexivity].
    rewrite !sort_by_date_education. apply sorted_idempotent. }
  split; [exact Hw|]. split; [exact He|].
  unfold Profile.init at 1. rewrite Hw, He. reflexivity.
Qed.

Lemma profile_reconstruction_witness :
  sort_by_date (Profile.work_experience full_profile)
  = Profile.work_experience full_profile
  /\ sort_by_date (Profile.education full_profile)
     = Profile.education full_profile
  /\ Profile.init (Profile.personal_info full_profile)
       (Some (Profile.work_experience full_profile))
       (Some (Profile.education full_profile))
       (Some (Profile.skills full_profile))
       (Profile.certifications full_profile)
       (Profile.projects full_profile)
     = full_profile.
Proof.
  apply (@profile_reconstruction full_profile).
  unfold full_profile. constructor.
Defined.

(** ** What validation guarantees *)

Section Inversion.

Variable ext : Externals.

Lemma fmap_inr {A B} (f : A -> B) (a : V A) (b : B) :
  fmap f a = inr b -> exists a', a = inr a' /\ b = f a'.
Proof.
  destruct a as [e | a']; cbn; [discriminate|].
  intro H. injection H as <-. eauto.
Qed.

Lemma under_inr {A} (i : loc_item) (a : V A) (x : A) :
  under i a = inr x -> a = inr x.
Proof. destruct a; cbn; [discriminate | auto]. Qed.

Lemma and_then_inr {A B} (a : V A) (f : A -> V B) (b : B) :
  and_then a f = inr b -> exists a', a = inr a' /\ f a' = inr b.
Proof. destruct a as [e | a']; cbn; [discriminate | eauto]. Qed.

Lemma required_inr {A} (d : list (str * json)) (alias name : string)
    (v : json -> V A) (x : A) :
  required d alias name v = inr x ->
  exists j, given d alias name = Some j /\ v j = inr x.
Proof.
  unfold required. destruct (given d alias name) as [j|]; intro H.
  - apply under_inr in H. eauto.
  - discriminate.
Qed.

Lemma defaulted_inr {A} (d : list (str * json)) (alias name : string)
    (v : json -> V A) (x : option A) :
  defaulted d alias name v = inr x ->
  match given d alias name with
  | Some j => exists a, v j = inr a /\ x = Some a
  | None => x = None
  end.
Proof.
  unfold defaulted. destruct (given d alias name) as [j|]; intro H.
  - apply under_inr, fmap_inr in H. destruct H as (a & Ha & ->). eauto.
  - injection H as <-. reflexivity.
Qed.

Lemma nullable_inr {A} (d : list (str * json)) (alias name : string)
    (v : json -> V A) (x : A) :
  nullable d alias name v = inr (Some x) ->
  exists j, given d alias name = Some j /\ v j = inr x.
Proof.
  unfold nullable, with_default. intro H.
  apply fmap_inr in H. destruct H as (o & Ho & Hx).
  apply defaulted_inr in Ho.
  destruct (given d alias name) as [j|]; [| subst o; discriminate].
  destruct Ho as (a & Ha & ->). subst a. exists j. split; [reflexivity|].
  unfold v_optional in Ha. destruct j; try discriminate;
    apply fmap_inr in Ha; destruct Ha as (y & Hy & Hs);
    injection Hs as <-; exact Hy.
Qed.

Lemma v_items_inr {A} (v : json -> V A) (l : list json) :
  forall i xs, v_items v i l = inr xs -> Forall2 (fun j x => v j = inr x) l xs.
Proof.
  induction l as [|j l IH]; intros i xs H; cbn [v_items] in H.
  - injection H as <-. constructor.
  - apply ap_inr in H. destruct H as (f & r & Hf & Hr & ->).
    apply ap_inr in Hf. destruct Hf as (c & x & Hc & Hx & ->).
    injection Hc as <-. apply under_inr in Hx.
    constructor; [exact Hx | eapply IH; exact Hr].
Qed.

Lemma v_list_inr {A} (v : json -> V A) (j : json) (xs : list A) :
  v_list v j = inr xs ->
  exists l, j = JList l /\ Forall2 (fun j x => v j = inr x) l xs.
Proof.
  destruct j; try discriminate. cbn. intro H.
  eexists. split; [reflexivity|]. eapply v_items_inr. exact H.
Qed.

Lemma v_model_inr {A} (f : list (str * json) -> V A) (j : json) (x : A) :
  v_model f j = inr x -> exists d, j = JDict d /\ f d = inr x.
Proof. destruct j; try discriminate. cbn. eauto. Qed.

Lemma v_str_min_length_inr (n : nat) (j : json) (s : str) :
  v_str_min_length n j = inr s -> j = JStr s /\ (n <= List.length s)%nat.
Proof.
  unfold v_str_min_length. intro H. apply and_then_inr in H.
  destruct H as (s' & Hs & H). destruct j; try discriminate.
  injection Hs as <-.
  destruct (existsb is_surrogate s0); [discriminate|].
  destruct (n <=? List.length s0)%nat eqn:Hn; [| discriminate].
  injection H as <-. split; [reflexivity | apply Nat.leb_le, Hn].
Qed.

Lemma v_email_inr (j : json) (s : str) :
  v_email ext j = inr s ->
  exists raw, j = JStr raw /\ validate_email ext raw = Some s.
Proof.
  unfold v_email. intro H. apply and_then_inr in H.
  destruct H as (raw & Hs & H). destruct j; try discriminate.
  injection Hs as <-.
  destruct (validate_email ext s0) as [s'|] eqn:He; [| discriminate].
  injection H as <-. eauto.
Qed.

Lemma v_float_between_inr (lo hi : float) (j : json) (x : float) :
  v_float_between ext lo hi j = inr x ->
  PrimFloat.leb lo x = true /\ PrimFloat.leb x hi = true.
Proof.
  unfold v_float_between. intro H. apply and_then_inr in H.
  destruct H as (y & _ & H).
  destruct (PrimFloat.leb lo y) eqn:H1; [| discriminate].
  destruct (PrimFloat.leb y hi) eqn:H2; [| discriminate].
  injection H as <-. auto.
Qed.

Lemma Forall2_In_r {A B} (R : A -> B -> Prop) (l : list A) (l' : list B)
    (b : B) :
  Forall2 R l l' -> In b l' -> exists a, In a l /\ R a b.
Proof.
  induction 1 as [|x y l l' Hxy HF IH]; intro Hb; [contradiction|].
  destruct Hb as [<- | Hb].
  - exists x. split; [left; reflexivity | exact Hxy].
  - destruct (IH Hb) as (a & Ha & Hab). exists a. split; [right|]; assumption.
Qed.

(** The grade of a validated education entry lies between 0 and 10. *)
Lemma Education_gpa_bounds (d : list (str * json)) (edu : Education.t)
    (g : float) :
  Education_fields ext d = inr edu ->
  Education.gpa edu = Some g ->
  PrimFloat.leb 0 g = true /\ PrimFloat.leb g 10 = true.
Proof.
  unfold Education_fields. intros H Hg.
  repeat (apply ap_inr in H; destruct H as (? & ? & H & ? & ?); subst).
  injection H as <-. cbn in Hg. subst.
  match goal with
  | H : nullable _ "gpa"%string _ _ = inr (Some g) |- _ =>
      apply nullable_inr in H; destruct H as (j & _ & H);
      apply v_float_between_inr in H; exact H
  end.
Qed.

(** The names of a validated [PersonalInfo] are not empty, and its
    address went through the e-mail check. *)
Lemma PersonalInfo_invariants (d : list (str * json)) (i : PersonalInfo.t) :
  PersonalInfo_fields ext d = inr i ->
  truthy (PersonalInfo.first_name i) = true
  /\ truthy (PersonalInfo.last_name i) = true
  /\ exists raw, validate_email ext raw = Some (PersonalInfo.email i).
Proof.
  unfold PersonalInfo_fields. intro H.
  repeat (apply ap_inr in H; destruct H as (? & ? & H & ? & ?); subst).
  injection H as <-. cbn.
  repeat match goal with
         | H : required _ _ _ _ = inr _ |- _ =>
             apply required_inr in H; destruct H as (? & _ & H)
         end.
  repeat match goal with
         | H : v_str_min_length _ _ = inr _ |- _ =>
             apply v_str_min_length_inr in H; destruct H as (_ & H)
         | H : v_email _ _ = inr _ |- _ =>
             apply v_email_inr in H; destruct H as (? & _ & H)
         end.
  repeat split;
    try match goal with
        | H : (1 <= List.length ?s)%nat |- truthy ?s = true =>
            destruct s; [cbn in H; lia | reflexivity]
        end.
  eauto.
Qed.

End Inversion.

Lemma sort_by_date_In {A} `{DatedEntry A} (v : list A) (x : A) :
  In x (sort_by_date v) -> In x v.
Proof.
  apply Permutation_in. unfold sort_by_date.
  destruct v as [|y v]; [constructor|].
  destruct attr_start_date as [start|]; [apply sorted_reverse_perm|].
  destruct attr_graduation_date as [grad|];
    [apply sorted_reverse_perm | apply Permutation_refl].
Qed.

(** X14.  Validation establishes what the declarations ask for: in a
    profile that [Profile.model_validate] accepts the two names are not
    empty, the address is one the e-mail check let through, and every
    grade of the education list lies between 0 and 10. *)
Theorem validated_profile_invariants (ext : Externals) (obj : json)
    (p : Profile.t) :
  Profile_model_validate ext obj = inr p ->
  let i := Profile.personal_info p in
  truthy (PersonalInfo.first_name i) = true
  /\ truthy (PersonalInfo.last_name i) = true
  /\ (exists raw, validate_email ext raw = Some (PersonalInfo.email i))
  /\ (forall edu g,
        In edu (Profile.education p) ->
        Education.gpa edu = Some g ->
        PrimFloat.leb 0 g = true /\ PrimFloat.leb g 10 = true).
Proof.
  unfold Profile_model_validate. intro H.
  apply v_model_inr in H. destruct H as (d & -> & H).
  unfold Profile_fields in H.
  repeat (apply ap_inr in H; destruct H as (? & ? & H & ? & ?); subst).
  injection H as <-. cbn [Profile.init Profile.personal_info
                           Profile.education].
  match goal with
  | H : required _ "personalInfo"%string _ _ = inr _ |- _ =>
      apply required_inr in H; destruct H as (j & _ & H);
      apply v_model_inr in H; destruct H as (di & _ & H);
      apply PersonalInfo_invariants in H; destruct H as (Hf & Hl & He)
  end.
  split; [exact Hf|]. split; [exact Hl|]. split; [exact He|].
  intros edu g Hin Hg.
  match goal with
  | H : defaulted _ "education"%string _ _ = inr ?o |- _ =>
      apply defaulted_inr in H; destruct o as [v|]; [| contradiction];
      destruct (given d "education" "education") as [je|];
      [| discriminate]; destruct H as (v' & Hv & Hs); injection Hs as <-
  end.
  apply v_list_inr in Hv. destruct Hv as (l & _ & HF).
  assert (Hin' : In edu v) by (apply sort_by_date_In, Hin).
  eapply Forall2_In_r in Hin'; [| exact HF].
  destruct Hin' as (j' & _ & Hj).
  apply v_model_inr in Hj. destruct Hj as (de & _ & Hj).
  eapply Education_gpa_bounds; eassumption.
Qed.

Lemma validated_profile_invariants_witness :
  let i := Profile.personal_info validated_sample in
  truthy (PersonalInfo.first_name i) = true
  /\ truthy (PersonalInfo.last_name i) = true
  /\ (exists raw,
        validate_email sample_ext raw = Some (PersonalInfo.email i))
  /\ (forall edu g,
        In edu (Profile.education validated_sample) ->
        Education.gpa edu = Some g ->
        PrimFloat.leb 0 g = true /\ PrimFloat.leb g 10 = true).
Proof.
  apply (@validated_profile_invariants sample_ext sample_document
           validated_sample).
  reflexivity.
Defined.

(** X15.  Only [personal_info] is required of a document: one that holds
    nothing else validates as soon as that part does, and the profile
    gets empty lists of employment and education, the empty [Skills],
    and no certifications and no projects.  The field may be given
    under its alias or under its name. *)
Theorem only_personal_info_required (ext : Externals)
    (d : list (str * json)) (i : PersonalInfo.t) :
  PersonalInfo_fields ext d = inr i ->
  let p := Profile.init i None None None None None in
  Profile_model_validate ext (JDict [(lit "personalInfo", JDict d)]) = inr p
  /\ Profile_model_validate ext (JDict [(lit "personal_info", JDict d)])
     = inr p
  /\ Profile.work_experience p = []
  /\ Profile.education p = []
  /\ Profile.skills p = Skills.default
  /\ Profile.certifications p = None
  /\ Profile.projects p = None.
Proof.
  intros Hi p.
  assert (Hv : forall key,
            given [(lit key, JDict d)] "personalInfo" "personal_info"
            = Some (JDict d) ->
            given [(lit key, JDict d)] "workExperience" "work_experience"
            = None ->
            given [(lit key, JDict d)] "education" "education" = None ->
            given [(lit key, JDict d)] "skills" "skills" = None ->
            given [(lit key, JDict d)] "certifications" "certifications"
            = None ->
            given [(lit key, JDict d)] "projects" "projects" = None ->
            Profile_model_validate ext (JDict [(lit key, JDict d)]) = inr p).
  { intros key H1 H2 H3 H4 H5 H6.
    unfold Profile_model_validate, v_model, Profile_fields, required,
      nullable, with_default, defaulted.
    rewrite H1, H2, H3, H4, H5, H6. cbn [v_model under].
    rewrite Hi. reflexivity. }
  split; [| split].
  - apply Hv; reflexivity.
  - apply Hv; reflexivity.
  - repeat split.
Qed.

Lemma only_personal_info_required_witness :
  let p := Profile.init contact_info None None None None None in
  Profile_model_validate sample_ext
    (JDict [(lit "personalInfo",
             JDict [(lit "firstName", jstr "Jane");
                    (lit "lastName", jstr "Doe");
                    (lit "email", jstr "jane.doe@example.com");
                    (lit "phone", jstr "+41 79 000 00 00");
                    (lit "location", sample_location)])]) = inr p
  /\ Profile_model_validate sample_ext
       (JDict [(lit "personal_info",
                JDict [(lit "firstName", jstr "Jane");
                       (lit "lastName", jstr "Doe");
                       (lit "email", jstr "jane.doe@example.com");
                       (lit "phone", jstr "+41 79 000 00 00");
                       (lit "location", sample_location)])]) = inr p
  /\ Profile.work_experience p = []
  /\ Profile.education p = []
  /\ Profile.skills p = Skills.default
  /\ Profile.certifications p = None
  /\ Profile.projects p = None.
Proof.
  apply (@only_personal_info_required sample_ext
           [(lit "firstName", jstr "Jane");
            (lit "lastName", jstr "Doe");
            (lit "email", jstr "jane.doe@example.com");
            (lit "phone", jstr "+41 79 000 00 00");
            (lit "location", sample_location)] contact_info).
  reflexivity.
Defined.

(* ================================================================== *)
(** * Further properties of the score *)
(* ================================================================== *)

Lemma nonempty_len {A} (l : list A) :
  nonempty l = true -> (1 <=? len l)%Z = true.
Proof.
  destruct l; [discriminate|]. intros _. apply Z.leb_le.
  unfold len. cbn [List.length]. lia.
Qed.

(** X16.  The score has no 10-point step for education: inside
    [if profile.education] the test [len(profile.education) >= 1] always
    holds, so an education list adds 15 hundredths to the score, or 20
    when an entry has a grade that is not zero, and nothing when it is
    empty; the technical skills add 10, 15 or 20 hundredths, the bonus
    for ten skills never coming without the bonus for five.  Hence a
    profile with an education entry scores at least 0.15. *)
Theorem bucket_steps (p : Profile.t) :
  let education := Profile.education p in
  let technical := Skills.technical (Profile.skills p) in
  let education_share :=
    (if nonempty education then
       if existsb (fun edu => opt_float_truthy (Education.gpa edu)) education
       then 20 else 15
     else 0)%Z in
  let skills_share :=
    (if nonempty technical then
       if 10 <=? len technical then 20
       else if 5 <=? len technical then 15 else 10
     else 0)%Z in
  _calculate_confidence p
  = (PyFloat.of_int
       (identity_points p + work_points p + education_share + skills_share)
     / 100)%float
  /\ (nonempty education = true ->
      PrimFloat.leb (15 / 100) (_calculate_confidence p) = true).
Proof.
  intros education technical education_share skills_share.
  assert (He : education_points p = education_share).
  { unfold education_points, education_share, education. cbv zeta.
    destruct (nonempty (Profile.education p)) eqn:Hn; [| reflexivity].
    rewrite (nonempty_len _ Hn). unfold points.
    destruct (existsb _ (Profile.education p)); reflexivity. }
  assert (Hk : skills_points p = skills_share).
  { unfold skills_points, skills_share, technical, points. cbv zeta.
    destruct (nonempty (Skills.technical (Profile.skills p)));
      [| reflexivity].
    destruct (5 <=? len (Skills.technical (Profile.skills p)))%Z eqn:H5;
      destruct (10 <=? len (Skills.technical (Profile.skills p)))%Z eqn:H10;
      try (apply Z.leb_le in H10; apply Z.leb_gt in H5; exfalso; lia);
      reflexivity. }
  split.
  - rewrite confidence_of_points. unfold total_points.
    rewrite He, Hk. reflexivity.
  - intro Hn. rewrite confidence_of_points.
    change (15 / 100)%float with (PyFloat.of_int 15 / 100)%float.
    pose proof (identity_points_bounds p). pose proof (work_points_bounds p).
    pose proof (skills_points_bounds p).
    pose proof (total_points_bounds p) as Ht.
    unfold total_points in Ht |- *. rewrite He in Ht |- *.
    unfold education_share in Ht |- *. rewrite Hn in Ht |- *.
    destruct (existsb _ education); apply quotient_mono; lia.
Qed.

Lemma existsb_permutation {A} (f : A -> bool) (l l' : list A) :
  Permutation l l' -> existsb f l = existsb f l'.
Proof.
  induction 1 as [| x l l' HP IH | x y l | l l' l'' H1 IH1 H2 IH2]; cbn.
  - reflexivity.
  - rewrite IH. reflexivity.
  - destruct (f x), (f y); reflexivity.
  - congruence.
Qed.

Lemma nonempty_permutation {A} (l l' : list A) :
  Permutation l l' -> nonempty l = nonempty l'.
Proof.
  intro H. apply Permutation_length in H.
  destruct l, l'; try reflexivity; discriminate.
Qed.

Lemma nonempty_length {A B} (l : list A) (l' : list B) :
  List.length l = List.length l' -> nonempty l = nonempty l'.
Proof. destruct l, l'; try reflexivity; discriminate. Qed.

(** X17.  The score reads six fields of [personal_info], the two dated
    lists up to their order, and the number of technical skills.  Two
    profiles that agree on these have the same score, whatever their
    names, soft skills, languages, certifications and projects are; in
    particular the order of the list entries does not count. *)
Theorem confidence_reads_only (a b : Profile.t) :
  same_scored_fields a b ->
  total_points a = total_points b
  /\ _calculate_confidence a = _calculate_confidence b.
Proof.
  intros (Hem & Hph & Hci & Hli & Hgh & Hsu & Hw & He & Ht).
  assert (Hp : total_points a = total_points b).
  { unfold total_points, identity_points, work_points, education_points,
      skills_points, len. cbv zeta.
    rewrite Hem, Hph, Hci, Hli, Hgh, Hsu.
    rewrite (nonempty_permutation Hw), (nonempty_permutation He),
      (nonempty_length _ _ Ht).
    rewrite (Permutation_length Hw), (Permutation_length He), Ht.
    rewrite (existsb_permutation _ Hw).
    rewrite (existsb_permutation
               (fun exp => nonempty (WorkExperience.achievements exp)) Hw).
    rewrite (existsb_permutation _ He).
    reflexivity. }
  split; [exact Hp|]. rewrite !confidence_of_points, Hp. reflexivity.
Qed.

Lemma confidence_reads_only_witness :
  total_points full_profile = total_points shuffled_profile
  /\ _calculate_confidence full_profile
     = _calculate_confidence shuffled_profile.
Proof.
  apply (@confidence_reads_only full_profile shuffled_profile).
  unfold same_scored_fields.
  repeat split; try reflexivity; apply Permutation_rev.
Defined.

(* ================================================================== *)
(** * Properties of the other endpoints *)
(* ================================================================== *)

Lemma demo_jobs_validate :
  exists j1 j2 j3,
    comprehension (v_model Job_fields) demo_jobs = inr [j1; j2; j3]
    /\ comprehension (v_model Job_fields) (firstn 2 demo_jobs) = inr [j1; j2]
    /\ comprehension (v_model Job_fields) (firstn 1 demo_jobs) = inr [j1]
    /\ map Job.id [j1; j2; j3]
       = [lit "job_demo_1"; lit "job_demo_2"; lit "job_demo_3"].
Proof. do 3 eexists. repeat split; reflexivity. Qed.

(** X18.  The demo listing gives the first [limit] of its three jobs, in
    their order: one job for 1, two for 2, all three from 3 on and when
    no limit is given.  A limit below 1 or above 100 is turned down
    before the body runs. *)
Theorem demo_jobs_listing (limit : option Z) :
  match limit with
  | Some n =>
      if ((n <? 1) || (100 <? n))%Z then
        exists errors, get_demo_jobs_endpoint limit = ValidationError errors
      else
        exists jobs,
          get_demo_jobs_endpoint limit = OK jobs
          /\ map Job.id jobs
             = firstn (Z.to_nat n)
                 [lit "job_demo_1"; lit "job_demo_2"; lit "job_demo_3"]
          /\ len jobs = Z.min n 3
  | None =>
      exists jobs,
        get_demo_jobs_endpoint limit = OK jobs
        /\ map Job.id jobs
           = [lit "job_demo_1"; lit "job_demo_2"; lit "job_demo_3"]
  end.
Proof.
  destruct demo_jobs_validate as (j1 & j2 & j3 & H3 & H2 & H1 & Hid).
  injection Hid as Hi1 Hi2 Hi3.
  destruct limit as [n|]; unfold get_demo_jobs_endpoint.
  - destruct (n <? 1)%Z eqn:Hlo; cbn [orb]; [eexists; reflexivity|].
    destruct (100 <? n)%Z eqn:Hhi; [eexists; reflexivity|].
    apply Z.ltb_ge in Hlo, Hhi.
    unfold get_demo_jobs, slice_to.
    replace (n <? 0)%Z with false by (symmetry; apply Z.ltb_ge; lia).
    destruct (Z.eq_dec n 1) as [-> | Hn1];
      [| destruct (Z.eq_dec n 2) as [-> | Hn2]].
    + change (Z.to_nat 1) with 1%nat. rewrite H1.
      exists [j1]. cbn. rewrite Hi1. repeat split.
    + change (Z.to_nat 2) with 2%nat. rewrite H2.
      exists [j1; j2]. cbn. rewrite Hi1, Hi2. repeat split.
    + rewrite (firstn_all2 (n := Z.to_nat n) demo_jobs)
        by (change (List.length demo_jobs) with 3%nat; lia).
      rewrite H3. exists [j1; j2; j3]. cbn [map]. rewrite Hi1, Hi2, Hi3.
      repeat split.
      * rewrite firstn_all2; [reflexivity | cbn; lia].
      * unfold len. cbn [List.length]. lia.
  - unfold get_demo_jobs, slice_to. cbn [Z.ltb Z.compare].
    rewrite (firstn_all2 (n := Z.to_nat 10) demo_jobs)
      by (change (List.length demo_jobs) with 3%nat; cbn; lia).
    rewrite H3. exists [j1; j2; j3]. cbn [map]. rewrite Hi1, Hi2, Hi3.
    repeat split.
Qed.

(** Called with a negative limit the body would not fail: the slice
    drops jobs from the end. *)
Example demo_jobs_negative_limit :
  exists jobs,
    get_demo_jobs (-1) = OK jobs
    /\ map Job.id jobs = [lit "job_demo_1"; lit "job_demo_2"].
Proof. eexists. split; reflexivity. Qed.

Lemma endswith_iff (s suffix : str) :
  endswith s suffix = true <-> exists prefix, s = prefix ++ suffix.
Proof.
  unfold endswith. rewrite andb_true_iff, Nat.leb_le, str_eqb_eq. split.
  - intros [Hl Hs].
    exists (firstn (List.length s - List.length suffix) s).
    transitivity (firstn (List.length s - List.length suffix) s
                  ++ skipn (List.length s - List.length suffix) s);
      [symmetry; apply firstn_skipn | f_equal; exact Hs].
  - intros [prefix ->]. rewrite length_app. split; [lia|].
    replace (List.length prefix + List.length suffix - List.length suffix)%nat
      with (List.length prefix + 0)%nat by lia.
    rewrite skipn_app, Nat.add_0_r, skipn_all.
    replace (List.length prefix - List.length prefix)%nat with 0%nat by lia.
    reflexivity.
Qed.

(** X19.  [parse_cv] looks at the name of the upload and at nothing
    else.  A name that does not end in [.pdf], in lower case, is turned
    down with status 400; every other name gets the same answer, which
    is never a 400: the mock profile, with one employment, one degree
    and two technical skills, as soon as the e-mail check lets its
    address through. *)
Theorem parse_cv_by_filename (ext : Externals) (filename : str) :
  ((forall prefix, filename <> prefix ++ lit ".pdf") ->
   parse_cv ext filename
   = HTTPException 400 (lit "Only PDF files are supported"))
  /\ ((exists prefix, filename = prefix ++ lit ".pdf") ->
      parse_cv ext filename = parse_cv ext (lit ".pdf")
      /\ forall detail, parse_cv ext filename <> HTTPException 400 detail)
  /\ parse_cv ext (lit "cv.PDF")
     = HTTPException 400 (lit "Only PDF files are supported")
  /\ parse_cv ext (lit "cv.pdf.txt")
     = HTTPException 400 (lit "Only PDF files are supported")
  /\ (forall e,
        validate_email ext (lit "john.doe@example.com") = Some e ->
        exists profile,
          parse_cv ext (lit ".pdf") = OK profile
          /\ PersonalInfo.email (Profile.personal_info profile) = e
          /\ map WorkExperience.id (Profile.work_experience profile)
             = [lit "exp_1"]
          /\ map Education.id (Profile.education profile) = [lit "edu_1"]
          /\ List.length (Skills.technical (Profile.skills profile))
             = 2%nat).
Proof.
  split; [| split; [| split; [| split]]].
  - intro Hno. unfold parse_cv.
    destruct (endswith filename (lit ".pdf")) eqn:He; [| reflexivity].
    apply endswith_iff in He. destruct He as [prefix Hp].
    exfalso. exact (Hno prefix Hp).
  - intro Hyes. apply endswith_iff in Hyes. unfold parse_cv.
    rewrite Hyes. change (endswith (lit ".pdf") (lit ".pdf")) with true.
    cbn [negb]. split; [reflexivity|].
    intro detail.
    destruct (Profile_model_validate ext mock_profile); discriminate.
  - reflexivity.
  - reflexivity.
  - intros e He. unfold parse_cv.
    change (endswith (lit ".pdf") (lit ".pdf")) with true. cbn [negb].
    vm_compute in He. vm_compute. rewrite He. vm_compute.
    eexists. repeat split.
Qed.

(** X20.  The body of a matching request is checked before the endpoint
    sees it: without [profile_id] it is turned down; a [min_score] that
    comes through lies between 0 and 100; and a body that gives no
    [min_score] gets 0. *)
Theorem job_match_request_checked (ext : Externals)
    (d : list (str * json)) :
  (given d "profile_id" "profile_id" = None ->
   rejects (JobMatchRequest_fields ext d) = true)
  /\ (forall r,
        JobMatchRequest_fields ext d = inr r ->
        (forall x,
           JobMatchRequest.min_score r = Some x ->
           PrimFloat.leb 0 x = true /\ PrimFloat.leb x 100 = true)
        /\ (given d "min_score" "min_score" = None ->
            JobMatchRequest.min_score r = Some 0%float)
        /\ exists j,
             given d "profile_id" "profile_id" = Some j
             /\ j = JStr (JobMatchRequest.profile_id r)).
Proof.
  split.
  - intro Hno. unfold JobMatchRequest_fields.
    rewrite !rejects_ap. unfold required at 1. rewrite Hno. reflexivity.
  - intros r H. unfold JobMatchRequest_fields in H.
    repeat (apply ap_inr in H; destruct H as (? & ? & H & ? & ?); subst).
    injection H as <-. cbn [JobMatchRequest.min_score
                             JobMatchRequest.profile_id].
    match goal with
    | H : with_default _ "min_score"%string _ _ _ = inr _ |- _ =>
        unfold with_default in H; apply fmap_inr in H;
        destruct H as (o & Ho & ->); apply defaulted_inr in Ho
    end.
    match goal with
    | H : required _ "profile_id"%string _ _ = inr _ |- _ =>
        apply required_inr in H; destruct H as (j & Hj & Hs)
    end.
    split; [| split].
    + intros y Hy.
      destruct (given d "min_score" "min_score") as [jm|].
      * destruct Ho as (a & Ha & ->). subst a.
        unfold v_optional in Ha. destruct jm; try discriminate;
          apply fmap_inr in Ha; destruct Ha as (z & Hz & Hs');
          injection Hs' as <-;
          apply v_float_between_inr in Hz; exact Hz.
      * subst o. injection Hy as <-. split; reflexivity.
    + intro Hnone. rewrite Hnone in Ho. subst o. reflexivity.
    + exists j. split; [exact Hj|].
      destruct j; try discriminate. cbn in Hs. injection Hs as <-.
      reflexivity.
Qed.

(** X21.  The guard turns down nothing but blank texts: a text with a
    character that is no white space, on a chain with at least one
    attempt, gets the two opening records and then a call of the chain
    with the text as it was given, not stripped. *)
Theorem nonblank_reaches_chain (St : Type) (self : CVExtractionChain St)
    (mode : call_mode) (cv_text : str) (s : St) :
  ~ whitespace_only cv_text ->
  (0 < max_retries self)%Z ->
  exists t,
    snd (extract_in self mode cv_text s)
    = preamble mode cv_text ++ Call mode cv_text :: t.
Proof.
  intros Hnw Hpos.
  assert (Hb : is_blank cv_text = false).
  { destruct (is_blank cv_text) eqn:Hb; [| reflexivity].
    exfalso. apply Hnw, is_blank_iff, Hb. }
  rewrite (extract_in_unfold self mode cv_text s Hb).
  unfold range.
  replace (Z.to_nat (max_retries self))
    with (S (Z.to_nat (max_retries self) - 1)) by lia.
  cbn [seq map]. rewrite attempts_cons.
  destruct (fst (run self mode cv_text s)) as [[p | ty] | e];
    rewrite ?handle_run;
    repeat match goal with
           | |- context [match ?e with
                         | ValueError _ => _
                         | OutputParserException _ => _
                         | OtherException _ => _
                         | NonException _ => _
                         end] => destruct e
           | |- context [if (?a =? ?b)%Z then _ else _] =>
               destruct (a =? b)%Z
           | |- context [attempts ?a ?b ?c ?d ?e] =>
               destruct (attempts a b c d e) as [[res s'] t]
           end;
    eexists; reflexivity.
Qed.

Lemma nonblank_reaches_chain_witness :
  exists t,
    snd (extract_in flaky_self Sync sample_text 0%nat)
    = preamble Sync sample_text ++ Call Sync sample_text :: t.
Proof.
  apply (@nonblank_reaches_chain nat flaky_self Sync sample_text 0%nat).
  - intro H. inversion H as [|c l Hc Hl]. discriminate Hc.
  - reflexivity.
Defined.
